(** * The risk-managed trade lifecycle of the autobot

    A shallow embedding of the trading core of the repository:

    - [src/autobot/config.py]                     ([TradingConfig])
    - [src/autobot/data/database.py]              (module [Database])
    - [src/autobot/trading/polymarket_client.py]  (module [Trader])
    - [src/autobot/risk/manager.py]               (module [RiskManager])
    - [src/autobot/trading/executor.py]           (module [Executor])
    - [src/autobot/main.py]                       (module [Bot])

    Conventions of the embedding.

    - A Python [float] is an exact rational ([Q]); [==] on floats is [Qeq].
      Division raises [ZeroDivisionError] on a zero divisor, which the
      embedding renders as [None].
    - A [datetime] is the number of microseconds since the epoch ([Z]); an
      ISO-8601 text produced by [isoformat()] is represented by the instant it
      denotes.  [datetime.now(timezone.utc)] is an explicit argument [now].
    - [random.uniform] is an explicit argument (the drawn value).
    - A position or trade [dict] is a record with one field per key the code
      writes; a key that can be absent is an [option].
    - Human-readable reason strings (f-strings) are constructors of an
      inductive type carrying the values that the text formats.
    - Mutable objects are threaded explicitly: a method returns the new state
      of its object next to its result. *)

From Stdlib Require Import QArith Qminmax Lqa ZArith Lia.
From stdpp Require Import base option gmap strings list sorting.

#[local] Open Scope Q_scope.

(** ** Floats and time *)

#[global] Instance Qeq_decision : RelDecision Qeq := Qeq_dec.

#[global] Instance Qle_decision : RelDecision Qle :=
  fun a b =>
    match Qlt_le_dec b a with
    | left H => right (Qlt_not_le _ _ H)
    | right H => left H
    end.

#[global] Instance Qlt_decision : RelDecision Qlt :=
  fun a b =>
    match Qlt_le_dec a b with
    | left H => left H
    | right H => right (Qle_not_lt _ _ H)
    end.

(** Python's [min(a, b)]: the first argument unless the second is strictly
    smaller. *)
Definition py_min (a b : Q) : Q := if decide (b < a) then b else a.

(** Python's [max(a, b)]: the first argument unless the second is strictly
    larger. *)
Definition py_max (a b : Q) : Q := if decide (a < b) then b else a.

(** Float division [a / b]; [None] is [ZeroDivisionError]. *)
Definition fdiv (a b : Q) : option Q :=
  if decide (b == 0) then None else Some (a / b).

(** [sum(...)] over floats: from [0], left to right. *)
Definition fsum (l : list Q) : Q := foldl Qplus 0 l.

(** [timedelta(hours=h)], in microseconds. *)
Definition timedelta_hours (h : Z) : Z := (h * 3600000000)%Z.

(** [str.upper()] on ASCII text. *)
Definition upper_ascii (c : Ascii.ascii) : Ascii.ascii :=
  let n := Ascii.nat_of_ascii c in
  if ((97 <=? n) && (n <=? 122))%nat then Ascii.ascii_of_nat (n - 32) else c.

Fixpoint upper (s : string) : string :=
  match s with
  | EmptyString => EmptyString
  | String c r => String (upper_ascii c) (upper r)
  end.

(** ** Configuration ([config.py]) *)

Record TradingConfig := {
  starting_capital : Q;
  risk_per_trade_pct : Q;
  max_position_pct : Q;
  min_edge_to_trade : Q;
  max_daily_loss_pct : Q;
  max_concurrent_positions : Z;
  stop_loss_pct : Q;
  take_profit_pct : Q;
  trailing_stop_pct : Q;
  breakeven_trigger_pct : Q;
  use_trailing_stop : bool;
  execution_delay_ms : Z;
  auto_trade_enabled : bool;
  paper_trading : bool }.

(** [load_config()] with no environment variable set: the dataclass defaults. *)
Definition default_config : TradingConfig := {|
  starting_capital := 10000;
  risk_per_trade_pct := 0.05;
  max_position_pct := 0.30;
  min_edge_to_trade := 0.30;
  max_daily_loss_pct := 0.10;
  max_concurrent_positions := 10;
  stop_loss_pct := 0.15;
  take_profit_pct := 0.30;
  trailing_stop_pct := 0.10;
  breakeven_trigger_pct := 0.10;
  use_trailing_stop := true;
  execution_delay_ms := 100;
  auto_trade_enabled := true;
  paper_trading := true |}.

(** The same configuration with the trailing stop switched off. *)
Definition without_trailing_stop (c : TradingConfig) : TradingConfig := {|
  starting_capital := starting_capital c;
  risk_per_trade_pct := risk_per_trade_pct c;
  max_position_pct := max_position_pct c;
  min_edge_to_trade := min_edge_to_trade c;
  max_daily_loss_pct := max_daily_loss_pct c;
  max_concurrent_positions := max_concurrent_positions c;
  stop_loss_pct := stop_loss_pct c;
  take_profit_pct := take_profit_pct c;
  trailing_stop_pct := trailing_stop_pct c;
  breakeven_trigger_pct := breakeven_trigger_pct c;
  use_trailing_stop := false;
  execution_delay_ms := execution_delay_ms c;
  auto_trade_enabled := auto_trade_enabled c;
  paper_trading := paper_trading c |}.

(** ** Identifiers

    [f"paper_{ts}"], [f"order_{ts}"] and [f"closed_{ts}"] are built from a
    timestamp; [exchange_id] is an [orderID] returned by the exchange. *)
Inductive Id :=
| paper_id (ts : Z)
| order_id (ts : Z)
| closed_id (ts : Z)
| exchange_id (s : string).

#[global] Instance Id_eq_dec : EqDecision Id.
Proof. solve_decision. Defined.

(** ** Open positions: the order [dict] of [_paper_order] *)

Module Position.

Record t := {
  id : Id;
  token_id : string;
  market : string;
  side : string;
  prediction : option string;   (* absent on a record reloaded from storage *)
  size : Q;
  price : Q;
  value : Q;
  risk_amount : Q;
  status : string;
  timestamp : Z;
  paper : bool;
  stop_loss_price : Q;
  take_profit_price : Q;
  breakeven_trigger_price : Q;
  highest_price : Q;
  breakeven_triggered : bool;
  trailing_stop_active : bool }.

(** The four keys the monitor assigns:
    [pos["highest_price"]], [pos["stop_loss_price"]],
    [pos["breakeven_triggered"]] and [pos["trailing_stop_active"]]. *)
Definition with_limits (p : t) (hp sl : Q) (be tr : bool) : t := {|
  id := id p;
  token_id := token_id p;
  market := market p;
  side := side p;
  prediction := prediction p;
  size := size p;
  price := price p;
  value := value p;
  risk_amount := risk_amount p;
  status := status p;
  timestamp := timestamp p;
  paper := paper p;
  stop_loss_price := sl;
  take_profit_price := take_profit_price p;
  breakeven_trigger_price := breakeven_trigger_price p;
  highest_price := hp;
  breakeven_triggered := be;
  trailing_stop_active := tr |}.

(** The dict without its ["prediction"] key. *)
Definition without_prediction (p : t) : t := {|
  id := id p;
  token_id := token_id p;
  market := market p;
  side := side p;
  prediction := None;
  size := size p;
  price := price p;
  value := value p;
  risk_amount := risk_amount p;
  status := status p;
  timestamp := timestamp p;
  paper := paper p;
  stop_loss_price := stop_loss_price p;
  take_profit_price := take_profit_price p;
  breakeven_trigger_price := breakeven_trigger_price p;
  highest_price := highest_price p;
  breakeven_triggered := breakeven_triggered p;
  trailing_stop_active := trailing_stop_active p |}.

(** [dict.__eq__]: same keys, and [==] on every value. *)
Definition eqb (a b : t) : bool :=
  bool_decide (id a = id b)
  && bool_decide (token_id a = token_id b)
  && bool_decide (market a = market b)
  && bool_decide (side a = side b)
  && bool_decide (prediction a = prediction b)
  && bool_decide (size a == size b)
  && bool_decide (price a == price b)
  && bool_decide (value a == value b)
  && bool_decide (risk_amount a == risk_amount b)
  && bool_decide (status a = status b)
  && bool_decide (timestamp a = timestamp b)
  && bool_decide (paper a = paper b)
  && bool_decide (stop_loss_price a == stop_loss_price b)
  && bool_decide (take_profit_price a == take_profit_price b)
  && bool_decide (breakeven_trigger_price a == breakeven_trigger_price b)
  && bool_decide (highest_price a == highest_price b)
  && bool_decide (breakeven_triggered a = breakeven_triggered b)
  && bool_decide (trailing_stop_active a = trailing_stop_active b).

(** [position in positions] *)
Definition mem (p : t) (l : list t) : bool := existsb (eqb p) l.

(** [positions.remove(position)]: drops the first equal element. *)
Fixpoint remove (p : t) (l : list t) : list t :=
  match l with
  | [] => []
  | q :: r => if eqb q p then r else q :: remove p r
  end.

End Position.

(** ** Closed trades: the [closed_trade] dict of [close_position] *)

Inductive CloseReason :=
| MANUAL
| STOP_LOSS
| TAKE_PROFIT
| TRAILING_STOP
| BREAKEVEN_STOP.

#[global] Instance CloseReason_eq_dec : EqDecision CloseReason.
Proof. solve_decision. Defined.

Module ClosedTrade.

Record t := {
  id : Id;
  market : string;
  token_id : string;
  side : string;
  prediction : option string;   (* absent on a record read from storage *)
  size : Q;
  entry_price : Q;
  exit_price : Q;
  risk_amount : Q;
  pnl : Q;
  pnl_pct : Q;
  won : bool;
  close_reason : CloseReason;
  entry_time : Z;
  exit_time : Z;
  stop_loss_price : Q;
  take_profit_price : Q;
  breakeven_triggered : bool;
  trailing_stop_active : bool;
  highest_price : Q;
  paper : bool }.

End ClosedTrade.

(** ** Persistence ([data/database.py])

    The three tables of [trades.db].  A [REAL] column holds a float, an
    [INTEGER] column an integer, a [TEXT] column a text (an identifier, or an
    ISO timestamp represented by its instant).  [id] is the primary key of
    [open_positions] and of [closed_trades]. *)

Module Database.

Record OpenRow := {
  o_id : Id;
  o_token_id : string;
  o_market : string;
  o_side : string;
  o_size : Q;
  o_price : Q;
  o_value : Q;
  o_risk_amount : Q;
  o_stop_loss_price : Q;
  o_take_profit_price : Q;
  o_breakeven_trigger_price : Q;
  o_highest_price : Q;
  o_breakeven_triggered : Z;
  o_trailing_stop_active : Z;
  o_entry_time : Z;
  o_paper : Z }.

Record ClosedRow := {
  c_id : Id;
  c_market : string;
  c_token_id : string;
  c_side : string;
  c_size : Q;
  c_entry_price : Q;
  c_exit_price : Q;
  c_risk_amount : Q;
  c_pnl : Q;
  c_pnl_pct : Q;
  c_won : Z;
  c_close_reason : CloseReason;
  c_entry_time : Z;
  c_exit_time : Z;
  c_stop_loss_price : Q;
  c_take_profit_price : Q;
  c_breakeven_triggered : Z;
  c_trailing_stop_active : Z;
  c_highest_price : Q;
  c_paper : Z }.

Record BotState := {
  s_paper_balance : Q;
  s_daily_pnl : Q;
  s_total_pnl : Q;
  s_last_daily_reset : option Z;
  s_updated_at : option Z }.

Record t := {
  open_positions : list OpenRow;
  closed_trades : list ClosedRow;
  bot_state : BotState }.

(** [init_database()] on a fresh file. *)
Definition init_database : t := {|
  open_positions := [];
  closed_trades := [];
  bot_state := {|
    s_paper_balance := 10000;
    s_daily_pnl := 0;
    s_total_pnl := 0;
    s_last_daily_reset := None;
    s_updated_at := None |} |}.

(** [1 if x else 0] *)
Definition of_bool (b : bool) : Z := if b then 1%Z else 0%Z.

(** [bool(row[...])] on an [INTEGER] column. *)
Definition to_bool (z : Z) : bool := negb (bool_decide (z = 0%Z)).

(** [INSERT OR REPLACE]: a row with the same primary key is deleted first. *)
Definition insert_or_replace {R} (key : R -> Id) (r : R) (rows : list R) : list R :=
  filter (fun x => key x <> key r) rows ++ [r].

Definition open_row (p : Position.t) : OpenRow := {|
  o_id := Position.id p;
  o_token_id := Position.token_id p;
  o_market := Position.market p;
  o_side := Position.side p;
  o_size := Position.size p;
  o_price := Position.price p;
  o_value := Position.value p;
  o_risk_amount := Position.risk_amount p;
  o_stop_loss_price := Position.stop_loss_price p;
  o_take_profit_price := Position.take_profit_price p;
  o_breakeven_trigger_price := Position.breakeven_trigger_price p;
  o_highest_price := Position.highest_price p;
  o_breakeven_triggered := of_bool (Position.breakeven_triggered p);
  o_trailing_stop_active := of_bool (Position.trailing_stop_active p);
  o_entry_time := Position.timestamp p;
  o_paper := of_bool (Position.paper p) |}.

(** The dict [get_open_positions] builds from one row: the sixteen columns
    and a constant ["status"]; it has no ["prediction"] key. *)
Definition open_position_of_row (r : OpenRow) : Position.t := {|
  Position.id := o_id r;
  Position.token_id := o_token_id r;
  Position.market := o_market r;
  Position.side := o_side r;
  Position.prediction := None;
  Position.size := o_size r;
  Position.price := o_price r;
  Position.value := o_value r;
  Position.risk_amount := o_risk_amount r;
  Position.status := "FILLED";
  Position.timestamp := o_entry_time r;
  Position.paper := to_bool (o_paper r);
  Position.stop_loss_price := o_stop_loss_price r;
  Position.take_profit_price := o_take_profit_price r;
  Position.breakeven_trigger_price := o_breakeven_trigger_price r;
  Position.highest_price := o_highest_price r;
  Position.breakeven_triggered := to_bool (o_breakeven_triggered r);
  Position.trailing_stop_active := to_bool (o_trailing_stop_active r) |}.

Definition save_open_position (p : Position.t) (d : t) : t := {|
  open_positions := insert_or_replace o_id (open_row p) (open_positions d);
  closed_trades := closed_trades d;
  bot_state := bot_state d |}.

Definition get_open_positions (d : t) : list Position.t :=
  open_position_of_row <$> open_positions d.

Definition delete_open_position (position_id : Id) (d : t) : t := {|
  open_positions := filter (fun r => o_id r <> position_id) (open_positions d);
  closed_trades := closed_trades d;
  bot_state := bot_state d |}.

(** [UPDATE open_positions SET highest_price, breakeven_triggered,
    trailing_stop_active, stop_loss_price WHERE id = ?] *)
Definition update_row (p : Position.t) (r : OpenRow) : OpenRow :=
  if decide (o_id r = Position.id p) then {|
    o_id := o_id r;
    o_token_id := o_token_id r;
    o_market := o_market r;
    o_side := o_side r;
    o_size := o_size r;
    o_price := o_price r;
    o_value := o_value r;
    o_risk_amount := o_risk_amount r;
    o_stop_loss_price := Position.stop_loss_price p;
    o_take_profit_price := o_take_profit_price r;
    o_breakeven_trigger_price := o_breakeven_trigger_price r;
    o_highest_price := Position.highest_price p;
    o_breakeven_triggered := of_bool (Position.breakeven_triggered p);
    o_trailing_stop_active := of_bool (Position.trailing_stop_active p);
    o_entry_time := o_entry_time r;
    o_paper := o_paper r |}
  else r.

Definition update_open_position (p : Position.t) (d : t) : t := {|
  open_positions := update_row p <$> open_positions d;
  closed_trades := closed_trades d;
  bot_state := bot_state d |}.

Definition closed_row (c : ClosedTrade.t) : ClosedRow := {|
  c_id := ClosedTrade.id c;
  c_market := ClosedTrade.market c;
  c_token_id := ClosedTrade.token_id c;
  c_side := ClosedTrade.side c;
  c_size := ClosedTrade.size c;
  c_entry_price := ClosedTrade.entry_price c;
  c_exit_price := ClosedTrade.exit_price c;
  c_risk_amount := ClosedTrade.risk_amount c;
  c_pnl := ClosedTrade.pnl c;
  c_pnl_pct := ClosedTrade.pnl_pct c;
  c_won := of_bool (ClosedTrade.won c);
  c_close_reason := ClosedTrade.close_reason c;
  c_entry_time := ClosedTrade.entry_time c;
  c_exit_time := ClosedTrade.exit_time c;
  c_stop_loss_price := ClosedTrade.stop_loss_price c;
  c_take_profit_price := ClosedTrade.take_profit_price c;
  c_breakeven_triggered := of_bool (ClosedTrade.breakeven_triggered c);
  c_trailing_stop_active := of_bool (ClosedTrade.trailing_stop_active c);
  c_highest_price := ClosedTrade.highest_price c;
  c_paper := of_bool (ClosedTrade.paper c) |}.

Definition closed_trade_of_row (r : ClosedRow) : ClosedTrade.t := {|
  ClosedTrade.id := c_id r;
  ClosedTrade.market := c_market r;
  ClosedTrade.token_id := c_token_id r;
  ClosedTrade.side := c_side r;
  ClosedTrade.prediction := None;
  ClosedTrade.size := c_size r;
  ClosedTrade.entry_price := c_entry_price r;
  ClosedTrade.exit_price := c_exit_price r;
  ClosedTrade.risk_amount := c_risk_amount r;
  ClosedTrade.pnl := c_pnl r;
  ClosedTrade.pnl_pct := c_pnl_pct r;
  ClosedTrade.won := to_bool (c_won r);
  ClosedTrade.close_reason := c_close_reason r;
  ClosedTrade.entry_time := c_entry_time r;
  ClosedTrade.exit_time := c_exit_time r;
  ClosedTrade.stop_loss_price := c_stop_loss_price r;
  ClosedTrade.take_profit_price := c_take_profit_price r;
  ClosedTrade.breakeven_triggered := to_bool (c_breakeven_triggered r);
  ClosedTrade.trailing_stop_active := to_bool (c_trailing_stop_active r);
  ClosedTrade.highest_price := c_highest_price r;
  ClosedTrade.paper := to_bool (c_paper r) |}.

Definition save_closed_trade (c : ClosedTrade.t) (d : t) : t := {|
  open_positions := open_positions d;
  closed_trades := insert_or_replace c_id (closed_row c) (closed_trades d);
  bot_state := bot_state d |}.

(** [ORDER BY exit_time DESC] *)
Definition later_first (a b : ClosedRow) : Prop := (c_exit_time b <= c_exit_time a)%Z.

#[global] Instance later_first_dec : RelDecision later_first.
Proof. intros a b. unfold later_first. apply _. Defined.

(** [SELECT * FROM closed_trades ORDER BY exit_time DESC LIMIT ?] *)
Definition get_closed_trades (limit : nat) (d : t) : list ClosedTrade.t :=
  closed_trade_of_row <$> take limit (merge_sort later_first (closed_trades d)).

Definition save_bot_state (paper_balance daily_pnl total_pnl : Q) (now : Z) (d : t) : t := {|
  open_positions := open_positions d;
  closed_trades := closed_trades d;
  bot_state := {|
    s_paper_balance := paper_balance;
    s_daily_pnl := daily_pnl;
    s_total_pnl := total_pnl;
    s_last_daily_reset := s_last_daily_reset (bot_state d);
    s_updated_at := Some now |} |}.

(** The dict [get_bot_state] returns. *)
Record State := {
  paper_balance : Q;
  daily_pnl : Q;
  total_pnl : Q;
  last_daily_reset : option Z }.

(** [date(t, '-6 hours')]: the number of the day an instant falls on, six
    hours west of UTC. *)
Definition local_day (t : Z) : Z :=
  ((t + timedelta_hours (-6)) / timedelta_hours 24)%Z.

(** The ledger recomputed from the closed trades: the total of [pnl], the
    total over the trades that exited today, and [10000.0] plus the total as
    balance; the [bot_state] row is overwritten with them. *)
Definition get_bot_state (now : Z) (d : t) : t * State :=
  let total_pnl := fsum (c_pnl <$> closed_trades d) in
  let daily_pnl :=
    fsum ((fun r => if decide (local_day (c_exit_time r) = local_day now) then c_pnl r else 0)
            <$> closed_trades d) in
  let starting_capital := 10000 in
  let paper_balance := starting_capital + total_pnl in
  ({| open_positions := open_positions d;
      closed_trades := closed_trades d;
      bot_state := {|
        s_paper_balance := paper_balance;
        s_daily_pnl := daily_pnl;
        s_total_pnl := total_pnl;
        s_last_daily_reset := s_last_daily_reset (bot_state d);
        s_updated_at := Some now |} |},
   {| paper_balance := paper_balance;
      daily_pnl := daily_pnl;
      total_pnl := total_pnl;
      last_daily_reset := None |}).

Definition reset_daily_pnl (now : Z) (d : t) : t := {|
  open_positions := open_positions d;
  closed_trades := closed_trades d;
  bot_state := {|
    s_paper_balance := s_paper_balance (bot_state d);
    s_daily_pnl := 0;
    s_total_pnl := s_total_pnl (bot_state d);
    s_last_daily_reset := Some now;
    s_updated_at := Some now |} |}.

(** SQL aggregates over the values of a column; [None] is [NULL], the value
    of [SUM], [AVG], [MAX] and [MIN] over no row. *)
Definition sql_sum (l : list Q) : option Q :=
  match l with
  | [] => None
  | _ => Some (fsum l)
  end.

Definition sql_sum_int (l : list Z) : option Z :=
  match l with
  | [] => None
  | _ => Some (foldl Z.add 0%Z l)
  end.

Definition sql_avg (l : list Q) : option Q :=
  match l with
  | [] => None
  | _ => Some (fsum l / inject_Z (Z.of_nat (length l)))
  end.

Definition sql_max (l : list Q) : option Q :=
  match l with
  | [] => None
  | x :: r => Some (foldl py_max x r)
  end.

Definition sql_min (l : list Q) : option Q :=
  match l with
  | [] => None
  | x :: r => Some (foldl py_min x r)
  end.

(** The dict [get_trade_stats] returns. *)
Record TradeStats := {
  total_trades : Z;
  wins : Z;
  losses : Z;
  win_rate : Q;
  stats_total_pnl : Q;     (* the key ["total_pnl"] *)
  avg_win : Q;
  avg_loss : Q;
  best_trade : Q;
  worst_trade : Q }.

(** [SELECT COUNT( * ), SUM(CASE WHEN won = 1 THEN 1 ELSE 0 END),
    SUM(CASE WHEN won = 0 THEN 1 ELSE 0 END), SUM(pnl),
    AVG(CASE WHEN won = 1 THEN pnl ELSE NULL END),
    AVG(CASE WHEN won = 0 THEN pnl ELSE NULL END), MAX(pnl), MIN(pnl)
    FROM closed_trades], each [NULL] replaced by [0] ([row[...] or 0]), and
    [wins / total_trades * 100 if total_trades > 0 else 0]. *)
Definition get_trade_stats (d : t) : TradeStats :=
  let rows := closed_trades d in
  let total_trades := Z.of_nat (length rows) in
  let wins :=
    default 0%Z (sql_sum_int ((fun r => if decide (c_won r = 1%Z) then 1%Z else 0%Z) <$> rows)) in
  let losses :=
    default 0%Z (sql_sum_int ((fun r => if decide (c_won r = 0%Z) then 1%Z else 0%Z) <$> rows)) in
  {| total_trades := total_trades;
     wins := wins;
     losses := losses;
     win_rate :=
       if decide (0 < total_trades)%Z then inject_Z wins / inject_Z total_trades * 100
       else 0;
     stats_total_pnl := default 0 (sql_sum (c_pnl <$> rows));
     avg_win := default 0 (sql_avg (c_pnl <$> filter (fun r => c_won r = 1%Z) rows));
     avg_loss := default 0 (sql_avg (c_pnl <$> filter (fun r => c_won r = 0%Z) rows));
     best_trade := default 0 (sql_max (c_pnl <$> rows));
     worst_trade := default 0 (sql_min (c_pnl <$> rows)) |}.

End Database.

(** ** The trading client ([trading/polymarket_client.py]) *)

(** An entry of the list [check_position_limits] returns. *)
Module CloseItem.

Record t := {
  position : Position.t;
  current_price : Q;      (* the exit price handed to [close_position] *)
  reason : CloseReason;
  pnl_pct : Q }.

End CloseItem.

(** The [result] dict of [close_position]; [close_positions_at_limit] adds
    the key ["close_reason"]. *)
Module CloseResult.

Record t := {
  position : Position.t;
  exit_price : Q;
  pnl : Q;
  pnl_pct : Q;
  daily_pnl : Q;
  total_pnl : Q;
  close_reason : option CloseReason }.

Definition with_close_reason (r : t) (c : CloseReason) : t := {|
  position := position r;
  exit_price := exit_price r;
  pnl := pnl r;
  pnl_pct := pnl_pct r;
  daily_pnl := daily_pnl r;
  total_pnl := total_pnl r;
  close_reason := Some c |}.

End CloseResult.

Module Trader.

(** The order dict of the live branch of [place_order]. *)
Record LiveOrder := {
  live_id : Id;
  live_token_id : string;
  live_market : string;
  live_side : string;
  live_size : Q;
  live_price : Q;
  live_value : Q;
  live_status : string;
  live_timestamp : Z;
  live_paper : bool }.

Inductive Order :=
| PaperOrder (p : Position.t)
| PlacedOrder (o : LiveOrder).

(** The exchange client ([create_order] then [post_order]) on
    [token_id], [price], [size] and whether the side is a buy: [None] when it
    raises, otherwise the [orderID] of the response, if it carries one. *)
Definition ClobClient : Type := string -> Q -> Q -> bool -> option (option Id).

Record t := {
  _clob_client : option ClobClient;
  _paper_balance : Q;
  _real_balance : option Q;     (* the attribute is set by [fetch_real_balance] only *)
  _daily_pnl : Q;
  _total_pnl : Q;
  _paper_positions : list Position.t;
  _positions : list Position.t;
  _closed_trades : list ClosedTrade.t;
  db : Database.t }.

(** [__init__]: the ledger, the open positions and the last hundred closed
    trades are read back from storage. *)
Definition init (now : Z) (d : Database.t) : t :=
  let '(d', state) := Database.get_bot_state now d in
  {| _clob_client := None;
     _paper_balance := Database.paper_balance state;
     _real_balance := None;
     _daily_pnl := Database.daily_pnl state;
     _total_pnl := Database.total_pnl state;
     _paper_positions := Database.get_open_positions d';
     _positions := [];
     _closed_trades := Database.get_closed_trades 100 d';
     db := d' |}.

(** [side.upper() == "BUY"] *)
Definition is_buy (side : string) : bool := bool_decide (upper side = "BUY").

Definition get_balance (cfg : TradingConfig) (tr : t) : Q :=
  if paper_trading cfg then _paper_balance tr
  else default (starting_capital cfg) (_real_balance tr).

Definition get_positions (cfg : TradingConfig) (tr : t) : list Position.t :=
  if paper_trading cfg then _paper_positions tr else _positions tr.

Definition get_daily_pnl (tr : t) : Q := _daily_pnl tr.

Definition get_total_pnl (tr : t) : Q := _total_pnl tr.

Definition reset_daily_pnl (now : Z) (tr : t) : t := {|
  _clob_client := _clob_client tr;
  _paper_balance := _paper_balance tr;
  _real_balance := _real_balance tr;
  _daily_pnl := 0;
  _total_pnl := _total_pnl tr;
  _paper_positions := _paper_positions tr;
  _positions := _positions tr;
  _closed_trades := _closed_trades tr;
  db := Database.reset_daily_pnl now (db tr) |}.

(** The [order] dict of [_paper_order]: the stop-loss, take-profit and
    breakeven levels, the default of [risk_amount], and the dict literal. *)
Definition new_order (cfg : TradingConfig) (now : Z)
    (token_id side : string) (size price : Q) (market_question : string)
    (risk_amount : Q) (prediction : string) : Position.t :=
  let position_value := size * price in
  let stop_loss_price := price * (1 - stop_loss_pct cfg) in
  let take_profit_price := price * (1 + take_profit_pct cfg) in
  let breakeven_trigger_price := price * (1 + breakeven_trigger_pct cfg) in
  let risk_amount :=
    if decide (risk_amount <= 0) then position_value * stop_loss_pct cfg
    else risk_amount in
  {| Position.id := paper_id now;
     Position.token_id := token_id;
     Position.market := market_question;
     Position.side := side;
     Position.prediction := Some (if decide (prediction = "") then "YES" else prediction);
     Position.size := size;
     Position.price := price;
     Position.value := position_value;
     Position.risk_amount := risk_amount;
     Position.status := "FILLED";
     Position.timestamp := now;
     Position.paper := true;
     Position.stop_loss_price := stop_loss_price;
     Position.take_profit_price := take_profit_price;
     Position.breakeven_trigger_price := breakeven_trigger_price;
     Position.highest_price := price;
     Position.breakeven_triggered := false;
     Position.trailing_stop_active := false |}.

Definition _paper_order (cfg : TradingConfig) (now : Z) (tr : t)
    (token_id side : string) (size price : Q) (market_question : string)
    (risk_amount : Q) (prediction : string) : t * option Position.t :=
  let position_value := size * price in
  if is_buy side && bool_decide (_paper_balance tr < position_value) then (tr, None)
  else
    let order :=
      new_order cfg now token_id side size price market_question risk_amount prediction in
    if is_buy side then
      ({| _clob_client := _clob_client tr;
          _paper_balance := _paper_balance tr - position_value;
          _real_balance := _real_balance tr;
          _daily_pnl := _daily_pnl tr;
          _total_pnl := _total_pnl tr;
          _paper_positions := _paper_positions tr ++ [order];
          _positions := _positions tr;
          _closed_trades := _closed_trades tr;
          db := Database.save_open_position order (db tr) |}, Some order)
    else
      ({| _clob_client := _clob_client tr;
          _paper_balance := _paper_balance tr + position_value;
          _real_balance := _real_balance tr;
          _daily_pnl := _daily_pnl tr;
          _total_pnl := _total_pnl tr;
          _paper_positions := _paper_positions tr;
          _positions := _positions tr;
          _closed_trades := _closed_trades tr;
          db := db tr |}, Some order).

Definition place_order (cfg : TradingConfig) (now : Z) (tr : t)
    (token_id side : string) (size price : Q) (market_question : string)
    (risk_amount : Q) (prediction : string) : t * option Order :=
  let position_value := size * price in
  let max_position := _paper_balance tr * max_position_pct cfg in
  if decide (max_position < position_value) then (tr, None)
  else
    let max_daily_loss := _paper_balance tr * max_daily_loss_pct cfg in
    if decide (_daily_pnl tr <= - max_daily_loss) then (tr, None)
    else if paper_trading cfg then
      let '(tr', r) :=
        _paper_order cfg now tr token_id side size price market_question
          risk_amount prediction in
      (tr', PaperOrder <$> r)
    else
      match _clob_client tr with
      | None => (tr, None)
      | Some client =>
          match client token_id price size (is_buy side) with
          | None => (tr, None)
          | Some order_ID =>
              (tr, Some (PlacedOrder {|
                 live_id := default (order_id now) order_ID;
                 live_token_id := token_id;
                 live_market := market_question;
                 live_side := side;
                 live_size := size;
                 live_price := price;
                 live_value := position_value;
                 live_status := "PLACED";
                 live_timestamp := now;
                 live_paper := false |}))
          end
      end.

(** The P&L [close_position] computes for a position closed at [exit_price]. *)
Definition pnl_of (position : Position.t) (exit_price : Q) : Q :=
  let entry_price := Position.price position in
  let size := Position.size position in
  if is_buy (Position.side position) then (exit_price - entry_price) * size
  else (entry_price - exit_price) * size.

Definition close_position (cfg : TradingConfig) (now : Z) (tr : t)
    (position : Position.t) (exit_price : Q) (close_reason : CloseReason)
    : t * CloseResult.t :=
  let entry_price := Position.price position in
  let size := Position.size position in
  let side := Position.side position in
  let position_value := Position.value position in
  let risk_amount := Position.risk_amount position in
  let pnl := pnl_of position exit_price in
  let daily_pnl := _daily_pnl tr + pnl in
  let total_pnl := _total_pnl tr + pnl in
  let paper_balance :=
    if paper_trading cfg then _paper_balance tr + size * exit_price
    else _paper_balance tr in
  let paper_positions :=
    if paper_trading cfg && Position.mem position (_paper_positions tr)
    then Position.remove position (_paper_positions tr)
    else _paper_positions tr in
  let db1 :=
    if paper_trading cfg then Database.delete_open_position (Position.id position) (db tr)
    else db tr in
  let pnl_pct := if decide (0 < position_value) then pnl / position_value * 100 else 0 in
  let result := {|
    CloseResult.position := position;
    CloseResult.exit_price := exit_price;
    CloseResult.pnl := pnl;
    CloseResult.pnl_pct := pnl_pct;
    CloseResult.daily_pnl := daily_pnl;
    CloseResult.total_pnl := total_pnl;
    CloseResult.close_reason := None |} in
  let closed_trade := {|
    ClosedTrade.id := Position.id position;
    ClosedTrade.market := Position.market position;
    ClosedTrade.token_id := Position.token_id position;
    ClosedTrade.side := side;
    ClosedTrade.prediction := Some (default "YES" (Position.prediction position));
    ClosedTrade.size := size;
    ClosedTrade.entry_price := entry_price;
    ClosedTrade.exit_price := exit_price;
    ClosedTrade.risk_amount := risk_amount;
    ClosedTrade.pnl := pnl;
    ClosedTrade.pnl_pct := pnl_pct;
    ClosedTrade.won := bool_decide (0 <= pnl);
    ClosedTrade.close_reason := close_reason;
    ClosedTrade.entry_time := Position.timestamp position;
    ClosedTrade.exit_time := now;
    ClosedTrade.stop_loss_price := Position.stop_loss_price position;
    ClosedTrade.take_profit_price := Position.take_profit_price position;
    ClosedTrade.breakeven_triggered := Position.breakeven_triggered position;
    ClosedTrade.trailing_stop_active := Position.trailing_stop_active position;
    ClosedTrade.highest_price := Position.highest_price position;
    ClosedTrade.paper := Position.paper position |} in
  ({| _clob_client := _clob_client tr;
      _paper_balance := paper_balance;
      _real_balance := _real_balance tr;
      _daily_pnl := daily_pnl;
      _total_pnl := total_pnl;
      _paper_positions := paper_positions;
      _positions := _positions tr;
      _closed_trades := _closed_trades tr ++ [closed_trade];
      db := Database.save_bot_state paper_balance daily_pnl total_pnl now
              (Database.save_closed_trade closed_trade db1) |},
   result).

(** The simulated quote of [check_position_limits]:
    [min(0.99, max(0.01, entry_price + price_change))], where [price_change]
    is the value drawn by [random.uniform(-0.05, 0.08)]. *)
Definition simulated_price (entry_price price_change : Q) : Q :=
  py_min 0.99 (py_max 0.01 (entry_price + price_change)).

(** The loop of [check_position_limits] for one position, block by block,
    once [current_price] is known. *)

(** "Calculate P&L percentage"; [None] is the [ZeroDivisionError] of a zero
    entry price, raised before anything is assigned. *)
Definition pnl_pct_at (pos : Position.t) (current_price : Q) : option Q :=
  let entry_price := Position.price pos in
  let side := upper (Position.side pos) in
  if decide (side = "BUY") then fdiv (current_price - entry_price) entry_price
  else fdiv (entry_price - current_price) entry_price.

(** "Update highest price seen", "Check breakeven trigger" and "Update
    trailing stop if active": the position after the in-place assignments,
    and [position_updated]. *)
Definition update_limits (cfg : TradingConfig) (pos : Position.t)
    (current_price pnl_pct : Q) : Position.t * bool :=
  let entry_price := Position.price pos in
  let highest_price :=
    if decide (Position.highest_price pos < current_price) then current_price
    else Position.highest_price pos in
  let trigger :=
    negb (Position.breakeven_triggered pos)
    && bool_decide (breakeven_trigger_pct cfg <= pnl_pct) in
  let breakeven_triggered := if trigger then true else Position.breakeven_triggered pos in
  let stop_at_breakeven := if trigger then entry_price else Position.stop_loss_price pos in
  let trailing_stop_active :=
    if trigger then use_trailing_stop cfg else Position.trailing_stop_active pos in
  let trailing_stop_price := highest_price * (1 - trailing_stop_pct cfg) in
  let raised := trailing_stop_active && bool_decide (stop_at_breakeven < trailing_stop_price) in
  let stop_loss_price := if raised then trailing_stop_price else stop_at_breakeven in
  (Position.with_limits pos highest_price stop_loss_price breakeven_triggered
     trailing_stop_active,
   trigger || raised).

(** "Check stop loss", then "Check take profit", on the updated position:
    [close_reason] and [exit_price] when [close_reason] is set. *)
Definition limit_hit (pos : Position.t) (current_price : Q) : option (CloseReason * Q) :=
  let stop_loss_price := Position.stop_loss_price pos in
  let stopped :=
    if bool_decide (0 < stop_loss_price) && bool_decide (current_price <= stop_loss_price)
    then Some (if Position.trailing_stop_active pos then TRAILING_STOP
               else if Position.breakeven_triggered pos then BREAKEVEN_STOP
               else STOP_LOSS, stop_loss_price)
    else None in
  let take_profit_price := Position.take_profit_price pos in
  if decide (take_profit_price <= current_price) then Some (TAKE_PROFIT, take_profit_price)
  else stopped.

(** One iteration: the position after the updates, [position_updated], and
    the entry appended to [positions_to_close], if any. *)
Definition check_position (cfg : TradingConfig) (pos : Position.t) (current_price : Q)
    : option (Position.t * bool * option CloseItem.t) :=
  pnl_pct ← pnl_pct_at pos current_price;
  let '(pos', position_updated) := update_limits cfg pos current_price pnl_pct in
  Some (pos', position_updated,
        (fun hit => {| CloseItem.position := pos';
                       CloseItem.current_price := snd hit;
                       CloseItem.reason := fst hit;
                       CloseItem.pnl_pct := pnl_pct |}) <$> limit_hit pos' current_price).

(** The loop of [check_position_limits] over the remaining positions; [draw i]
    is the value [random.uniform] returns for the position at index [i].  The
    dicts are updated in place, so the positions come back with the list of
    entries; when an iteration raises, the earlier updates stay. *)
Fixpoint sweep (cfg : TradingConfig) (draw : nat -> Q) (i : nat)
    (todo : list Position.t) (d : Database.t)
    : list Position.t * Database.t * option (list CloseItem.t) :=
  match todo with
  | [] => ([], d, Some [])
  | pos :: rest =>
      match check_position cfg pos (simulated_price (Position.price pos) (draw i)) with
      | None => (pos :: rest, d, None)
      | Some (pos', position_updated, item) =>
          let d' := if position_updated then Database.update_open_position pos' d else d in
          let '(rest', d'', items) := sweep cfg draw (S i) rest d' in
          (pos' :: rest', d'', (fun l => option_list item ++ l) <$> items)
      end
  end.

Definition check_position_limits (cfg : TradingConfig) (draw : nat -> Q) (tr : t)
    : t * option (list CloseItem.t) :=
  let '(ps, d, items) := sweep cfg draw 0 (_paper_positions tr) (db tr) in
  ({| _clob_client := _clob_client tr;
      _paper_balance := _paper_balance tr;
      _real_balance := _real_balance tr;
      _daily_pnl := _daily_pnl tr;
      _total_pnl := _total_pnl tr;
      _paper_positions := ps;
      _positions := _positions tr;
      _closed_trades := _closed_trades tr;
      db := d |}, items).

(** The loop of [close_positions_at_limit]. *)
Fixpoint close_all (cfg : TradingConfig) (now : Z) (tr : t) (items : list CloseItem.t)
    : t * list CloseResult.t :=
  match items with
  | [] => (tr, [])
  | item :: rest =>
      let '(tr1, result) :=
        close_position cfg now tr (CloseItem.position item)
          (CloseItem.current_price item) (CloseItem.reason item) in
      let '(tr2, closed) := close_all cfg now tr1 rest in
      (tr2, CloseResult.with_close_reason result (CloseItem.reason item) :: closed)
  end.

Definition close_positions_at_limit (cfg : TradingConfig) (now : Z) (draw : nat -> Q)
    (tr : t) : t * option (list CloseResult.t) :=
  match check_position_limits cfg draw tr with
  | (tr1, None) => (tr1, None)
  | (tr1, Some positions_to_close) =>
      let '(tr2, closed) := close_all cfg now tr1 positions_to_close in
      (tr2, Some closed)
  end.

End Trader.

(** ** The risk manager ([risk/manager.py]) *)

(** The texts [check_status] writes into [reason] and [warnings]. *)
Inductive RiskReason :=
| NoReason                                            (* the empty text *)
| DailyLossLimitHit (daily_pnl max_daily_loss : Q)    (* "Daily loss limit hit: $.. (max: -$..)" *)
| MaxPositionsReached (limit : Z)                     (* "Max positions (..) reached" *)
| ExposureTooHigh (exposure_pct : Q)                  (* "Exposure too high: ..%" *)
| ApproachingDailyLossLimit (daily_pnl : Q)           (* "Approaching daily loss limit: $.." *)
| HighExposure (exposure_pct : Q).                    (* "High exposure: ..%" *)

Module RiskStatus.

Record t := {
  is_trading_allowed : bool;
  reason : RiskReason;
  daily_pnl : Q;
  daily_pnl_pct : Q;
  open_positions : nat;
  total_exposure : Q;
  exposure_pct : Q;
  balance : Q;
  warnings : list RiskReason }.

(** Assignments to [is_trading_allowed], [reason] and [warnings]. *)
Definition decide_with (s : t) (allowed : bool) (r : RiskReason) (w : list RiskReason) : t := {|
  is_trading_allowed := allowed;
  reason := r;
  daily_pnl := daily_pnl s;
  daily_pnl_pct := daily_pnl_pct s;
  open_positions := open_positions s;
  total_exposure := total_exposure s;
  exposure_pct := exposure_pct s;
  balance := balance s;
  warnings := w |}.

End RiskStatus.

Module RiskManager.

Record t := {
  _trading_paused : bool;
  _pause_reason : RiskReason;
  _pause_until : option Z }.

(** [__init__] *)
Definition init : t := {|
  _trading_paused := false;
  _pause_reason := NoReason;
  _pause_until := None |}.

Definition _pause_trading (now : Z) (reason : RiskReason) (hours : Z) (rm : t) : t := {|
  _trading_paused := true;
  _pause_reason := reason;
  _pause_until := Some (now + timedelta_hours hours)%Z |}.

(** The assignments of the "pause expired" branch. *)
Definition resume (rm : t) : t := {|
  _trading_paused := false;
  _pause_reason := NoReason;
  _pause_until := _pause_until rm |}.

(** [self._pause_until and datetime.now(timezone.utc) > self._pause_until] *)
Definition pause_expired (now : Z) (rm : t) : bool :=
  match _pause_until rm with
  | Some until => bool_decide (until < now)%Z
  | None => false
  end.

(** [None] is the [ZeroDivisionError] of [daily_pnl / starting_capital],
    raised before the manager is touched. *)
Definition check_status (cfg : TradingConfig) (now : Z) (tr : Trader.t) (rm : t)
    : option (t * RiskStatus.t) :=
  let balance := Trader.get_balance cfg tr in
  let daily_pnl := Trader.get_daily_pnl tr in
  let positions := Trader.get_positions cfg tr in
  ratio ← fdiv daily_pnl (starting_capital cfg);
  let total_exposure := fsum (Position.value <$> positions) in
  let status := {|
    RiskStatus.is_trading_allowed := true;
    RiskStatus.reason := NoReason;
    RiskStatus.daily_pnl := daily_pnl;
    RiskStatus.daily_pnl_pct := ratio * 100;
    RiskStatus.open_positions := length positions;
    RiskStatus.total_exposure := total_exposure;
    RiskStatus.exposure_pct :=
      if decide (0 < balance) then total_exposure / balance * 100 else 0;
    RiskStatus.balance := balance;
    RiskStatus.warnings := [] |} in
  (* paused? *)
  if _trading_paused rm && negb (pause_expired now rm) then
    Some (rm, RiskStatus.decide_with status false (_pause_reason rm) [])
  else
    let rm := if _trading_paused rm then resume rm else rm in
    (* daily loss limit *)
    let max_daily_loss := RiskStatus.balance status * max_daily_loss_pct cfg in
    if decide (daily_pnl <= - max_daily_loss) then
      let reason := DailyLossLimitHit daily_pnl max_daily_loss in
      Some (_pause_trading now reason 4 rm,
            RiskStatus.decide_with status false reason [reason])
    (* position limit *)
    else if decide (max_concurrent_positions cfg <= Z.of_nat (RiskStatus.open_positions status))%Z then
      Some (rm, RiskStatus.decide_with status false
                  (MaxPositionsReached (max_concurrent_positions cfg)) [])
    (* exposure limit *)
    else if decide (80 < RiskStatus.exposure_pct status) then
      let reason := ExposureTooHigh (RiskStatus.exposure_pct status) in
      Some (rm, RiskStatus.decide_with status false reason [reason])
    else
      let w1 :=
        if decide (daily_pnl <= - max_daily_loss * 0.5)
        then [ApproachingDailyLossLimit daily_pnl] else [] in
      let w2 :=
        if decide (60 < RiskStatus.exposure_pct status)
        then [HighExposure (RiskStatus.exposure_pct status)] else [] in
      Some (rm, RiskStatus.decide_with status true NoReason (w1 ++ w2)).

Definition can_trade (cfg : TradingConfig) (now : Z) (tr : Trader.t) (rm : t)
    : option (t * bool) :=
  '(rm', status) ← check_status cfg now tr rm;
  Some (rm', RiskStatus.is_trading_allowed status).

(** The multiplier both sizing sites compute: [min(1.2, 0.8 + edge)]. *)
Definition edge_multiplier (edge : Q) : Q := py_min 1.2 (0.8 + edge).

(** The intermediate values of [suggest_position_size] for a given equity. *)
Definition risk_amount_of (cfg : TradingConfig) (equity : Q) : Q :=
  equity * risk_per_trade_pct cfg.

Definition base_size_of (cfg : TradingConfig) (equity : Q) : option Q :=
  fdiv (risk_amount_of cfg equity) (stop_loss_pct cfg).

Definition raw_size_of (cfg : TradingConfig) (equity edge confidence : Q) : option Q :=
  base_size ← base_size_of cfg equity;
  Some (base_size * edge_multiplier edge * confidence).

Definition size_for_equity (cfg : TradingConfig) (equity edge confidence : Q) : option Q :=
  suggested ← raw_size_of cfg equity edge confidence;
  let max_position := equity * max_position_pct cfg in
  let suggested := py_min suggested max_position in
  Some (py_max 0 suggested).

(** The manager comes back as [check_status] left it, also when the division
    by [stop_loss_pct] raises afterwards. *)
Definition suggest_position_size (cfg : TradingConfig) (now : Z) (tr : Trader.t) (rm : t)
    (edge confidence : Q) : t * option Q :=
  match check_status cfg now tr rm with
  | None => (rm, None)
  | Some (rm', status) =>
      let equity := RiskStatus.balance status in
      (rm', size_for_equity cfg equity edge confidence)
  end.

(** The texts [validate_trade] returns. *)
Inductive ValidateReason :=
| NotAllowed (r : RiskReason)
| SizeExceedsMax (size_usd max_position : Q)
| WouldExceedExposure (new_exposure_pct : Q)
| OK.

Definition validate_trade (cfg : TradingConfig) (now : Z) (tr : Trader.t) (rm : t)
    (size_usd current_price : Q) : t * option (bool * ValidateReason) :=
  match check_status cfg now tr rm with
  | None => (rm, None)
  | Some (rm', status) =>
      if negb (RiskStatus.is_trading_allowed status)
      then (rm', Some (false, NotAllowed (RiskStatus.reason status)))
      else
        let max_position := RiskStatus.balance status * max_position_pct cfg in
        if decide (max_position < size_usd)
        then (rm', Some (false, SizeExceedsMax size_usd max_position))
        else
          let new_exposure := RiskStatus.total_exposure status + size_usd in
          match fdiv new_exposure (RiskStatus.balance status) with
          | None => (rm', None)
          | Some ratio =>
              let new_exposure_pct := ratio * 100 in
              if decide (80 < new_exposure_pct)
              then (rm', Some (false, WouldExceedExposure new_exposure_pct))
              else (rm', Some (true, OK))
          end
  end.

End RiskManager.

(** ** The trade executor ([trading/executor.py]) *)

(** [MarketMatch] of [nlp/matcher.py]. *)
Record MarketMatch := {
  market_id : string;
  question : string;
  current_yes_price : Q;
  current_no_price : Q;
  token_id_yes : string;
  token_id_no : string;
  fair_value : Q;
  edge : Q;
  recommended_side : string;
  recommended_token : string;
  confidence : Q;
  liquidity : Q }.

(** The texts written into [TradeDecision.reason]. *)
Inductive DecisionReason :=
| NoDecisionReason                            (* the empty text *)
| AlreadyOpenPosition                         (* "Already have open position on this market" *)
| MarketOnCooldown (remaining : Z)            (* "Market on cooldown (..h remaining)" *)
| EdgeBelowMinimum (edge minimum : Q)         (* "Edge ..% below minimum ..%" *)
| ConfidenceTooLow (confidence : Q)           (* "Confidence ..% too low" *)
| LiquidityTooLow (liquidity : Q)             (* "Liquidity $.. too low" *)
| DailyLossLimit (daily_pnl max_daily_loss : Q) (* "Daily loss limit hit: $.. (max: -$..)" *)
| MaxConcurrentPositions (limit : Z)          (* "Max concurrent positions (..) reached" *)
| InvalidPrice                                (* "Invalid price" *)
| Sized (edge risk_amount size_usd : Q)       (* "Edge: ..%, Risk: $.., Size: $.." *)
| AutoTradeDisabled                           (* "Auto-trade disabled" *)
| OrderPlacementFailed.                       (* "Order placement failed" *)

(** The reason reads "Market on cooldown (...)". *)
Definition is_cooldown_reason (r : DecisionReason) : bool :=
  match r with
  | MarketOnCooldown _ => true
  | _ => false
  end.

Module Executor.

(** Cooldown period before trading the same market again (hours). *)
Definition MARKET_COOLDOWN_HOURS : Z := 4.

Section WithEvents.

(** [NewsEvent] of [monitors/base.py]; the executor only passes it on. *)
Context {NewsEvent : Type}.

Record TradeDecision := {
  event : NewsEvent;
  match_ : MarketMatch;
  size_usd : Q;
  size_shares : Q;
  risk_amount : Q;
  approved : bool;
  reason : DecisionReason;
  executed : bool;
  result : option Trader.Order }.

Definition with_reason (d : TradeDecision) (r : DecisionReason) : TradeDecision := {|
  event := event d;
  match_ := match_ d;
  size_usd := size_usd d;
  size_shares := size_shares d;
  risk_amount := risk_amount d;
  approved := approved d;
  reason := r;
  executed := executed d;
  result := result d |}.

Record ExecutorStats := {
  trades_executed : Z;
  trades_won : Z;
  trades_lost : Z;
  total_profit : Q;
  total_volume : Q;
  best_trade : Q;
  worst_trade : Q }.

Record t := {
  trader : Trader.t;
  _executed_trades : list TradeDecision;
  _stats : ExecutorStats;
  _traded_markets : gmap string Z }.

(** One iteration of the loop of [_load_recent_trades_from_db]. *)
Definition load_step (cutoff : Z) (traded_markets : gmap string Z) (trade : ClosedTrade.t)
    : gmap string Z :=
  let token_id := ClosedTrade.token_id trade in
  let trade_time := ClosedTrade.exit_time trade in
  if bool_decide (token_id <> "") && bool_decide (cutoff < trade_time)%Z then
    match traded_markets !! token_id with
    | Some seen =>
        if decide (seen < trade_time)%Z then <[token_id := trade_time]> traded_markets
        else traded_markets
    | None => <[token_id := trade_time]> traded_markets
    end
  else traded_markets.

Definition _load_recent_trades_from_db (now : Z) (d : Database.t) : gmap string Z :=
  let cutoff := (now - timedelta_hours MARKET_COOLDOWN_HOURS)%Z in
  foldl (load_step cutoff) ∅ (Database.get_closed_trades 100 d).

(** [__init__] *)
Definition init (now : Z) (tr : Trader.t) : t := {|
  trader := tr;
  _executed_trades := [];
  _stats := {|
    trades_executed := 0;
    trades_won := 0;
    trades_lost := 0;
    total_profit := 0;
    total_volume := 0;
    best_trade := 0;
    worst_trade := 0 |};
  _traded_markets := _load_recent_trades_from_db now (Trader.db tr) |}.

(** The first loop of [evaluate_opportunity]: some open position is on the
    token. *)
Definition holds_position (positions : list Position.t) (market_id : string) : bool :=
  existsb (fun pos => bool_decide (Position.token_id pos = market_id)) positions.

(** The cooldown test of [evaluate_opportunity]: the time remaining when the
    market was traded and [now < cooldown_end]. *)
Definition on_cooldown (now : Z) (ex : t) (market_id : string) : option Z :=
  match _traded_markets ex !! market_id with
  | Some last_trade_time =>
      let cooldown_end := (last_trade_time + timedelta_hours MARKET_COOLDOWN_HOURS)%Z in
      if decide (now < cooldown_end)%Z then Some (cooldown_end - now)%Z else None
  | None => None
  end.

(** [None] is the [ZeroDivisionError] of [risk_amount / stop_loss_pct]. *)
Definition evaluate_opportunity (cfg : TradingConfig) (now : Z) (ex : t)
    (ev : NewsEvent) (m : MarketMatch) : option TradeDecision :=
  let decision := {|
    event := ev;
    match_ := m;
    size_usd := 0;
    size_shares := 0;
    risk_amount := 0;
    approved := false;
    reason := NoDecisionReason;
    executed := false;
    result := None |} in
  let market_id := recommended_token m in
  let positions := Trader.get_positions cfg (trader ex) in
  if holds_position positions market_id
  then Some (with_reason decision AlreadyOpenPosition)
  else
    match on_cooldown now ex market_id with
    | Some time_remaining => Some (with_reason decision (MarketOnCooldown time_remaining))
    | None =>
        if decide (edge m < min_edge_to_trade cfg)
        then Some (with_reason decision (EdgeBelowMinimum (edge m) (min_edge_to_trade cfg)))
        else if decide (confidence m < 0.6)
        then Some (with_reason decision (ConfidenceTooLow (confidence m)))
        else if decide (liquidity m < 1000)
        then Some (with_reason decision (LiquidityTooLow (liquidity m)))
        else
          let equity := Trader.get_balance cfg (trader ex) in
          let daily_pnl := Trader.get_daily_pnl (trader ex) in
          let max_daily_loss := equity * max_daily_loss_pct cfg in
          if decide (daily_pnl <= - max_daily_loss)
          then Some (with_reason decision (DailyLossLimit daily_pnl max_daily_loss))
          else if decide (max_concurrent_positions cfg <= Z.of_nat (length positions))%Z
          then Some (with_reason decision
                       (MaxConcurrentPositions (max_concurrent_positions cfg)))
          else
            let risk_amount := equity * risk_per_trade_pct cfg in
            base_size ← fdiv risk_amount (stop_loss_pct cfg);
            let edge_multiplier := RiskManager.edge_multiplier (edge m) in
            let size_usd := base_size * edge_multiplier * confidence m in
            let max_position := equity * max_position_pct cfg in
            let size_usd := py_min size_usd max_position in
            let price :=
              if decide (recommended_side m = "YES") then current_yes_price m
              else current_no_price m in
            if decide (price <= 0) then Some (with_reason decision InvalidPrice)
            else Some {|
              event := ev;
              match_ := m;
              size_usd := size_usd;
              size_shares := size_usd / price;
              risk_amount := risk_amount;
              approved := true;
              reason := Sized (edge m) risk_amount size_usd;
              executed := false;
              result := None |}
    end.

(** The executor and the decision come back as the method left them; the
    registered callbacks are observers outside the model. *)
Definition execute_trade (cfg : TradingConfig) (now : Z) (ex : t) (decision : TradeDecision)
    : t * TradeDecision * bool :=
  if negb (approved decision) then (ex, decision, false)
  else if negb (auto_trade_enabled cfg)
  then (ex, with_reason decision AutoTradeDisabled, false)
  else
    let m := match_ decision in
    let '(tr', placed) :=
      Trader.place_order cfg now (trader ex) (recommended_token m) "BUY"
        (size_shares decision)
        (if decide (recommended_side m = "YES") then current_yes_price m
         else current_no_price m)
        (question m) (risk_amount decision) "" in
    match placed with
    | Some order =>
        let decision' := {|
          event := event decision;
          match_ := m;
          size_usd := size_usd decision;
          size_shares := size_shares decision;
          risk_amount := risk_amount decision;
          approved := approved decision;
          reason := reason decision;
          executed := true;
          result := Some order |} in
        ({| trader := tr';
            _executed_trades := _executed_trades ex ++ [decision'];
            _stats := {|
              trades_executed := (trades_executed (_stats ex) + 1)%Z;
              trades_won := trades_won (_stats ex);
              trades_lost := trades_lost (_stats ex);
              total_profit := total_profit (_stats ex);
              total_volume := total_volume (_stats ex) + size_usd decision;
              best_trade := best_trade (_stats ex);
              worst_trade := worst_trade (_stats ex) |};
            _traded_markets := <[recommended_token m := now]> (_traded_markets ex) |},
         decision', true)
    | None =>
        ({| trader := tr';
            _executed_trades := _executed_trades ex;
            _stats := _stats ex;
            _traded_markets := _traded_markets ex |},
         with_reason decision OrderPlacementFailed, false)
    end.

Definition process_opportunity (cfg : TradingConfig) (now : Z) (ex : t)
    (ev : NewsEvent) (m : MarketMatch) : t * option TradeDecision :=
  match evaluate_opportunity cfg now ex ev m with
  | None => (ex, None)
  | Some decision =>
      if negb (approved decision) then (ex, Some decision)
      else
        let '(ex', decision', _) := execute_trade cfg now ex decision in
        (ex', Some decision')
  end.

End WithEvents.

Arguments TradeDecision : clear implicits.
Arguments t : clear implicits.

End Executor.

(** ** The bot ([main.py])

    [SpeedTradingBot]: the executor and the risk manager are built on the
    same trader object, the one the executor record holds, and the position
    monitor works on that trader too.  The parser and the matcher are outside
    the embedding: [matches] is the list [find_matches] returns for the
    parsed event.  The stored event and match data and the alerts do not feed
    back into trading and are left out.  An exception raised inside
    [_handle_event] or inside a pass of the monitor loop is caught and logged
    there: the state is what it was when the exception was raised.  A call of
    [_handle_event] and a pass of the monitor are each taken as a whole: no
    other task of the event loop runs between the risk check of an event and
    the processing of its opportunity. *)

Module Bot.

Section WithEvents.

Context {NewsEvent : Type}.

Record t := {
  executor : Executor.t NewsEvent;
  risk_manager : RiskManager.t;
  _events_processed : Z;
  _trades_executed : Z }.

(** [_handle_event]; [now] is the time of the risk check, [later] the time
    the opportunity is processed at. *)
Definition _handle_event (cfg : TradingConfig) (now later : Z) (bot : t)
    (event : NewsEvent) (matches : list MarketMatch) : t :=
  let counted rm ex trades := {|
    executor := ex;
    risk_manager := rm;
    _events_processed := (_events_processed bot + 1)%Z;
    _trades_executed := trades |} in
  match RiskManager.can_trade cfg now (Executor.trader (executor bot)) (risk_manager bot) with
  | None => counted (risk_manager bot) (executor bot) (_trades_executed bot)
  | Some (rm, false) => counted rm (executor bot) (_trades_executed bot)
  | Some (rm, true) =>
      match matches with
      | [] => counted rm (executor bot) (_trades_executed bot)
      | best_match :: _ =>
          if auto_trade_enabled cfg then
            match Executor.process_opportunity cfg later (executor bot) event best_match with
            | (ex, Some decision) =>
                counted rm ex
                  (if Executor.executed decision then (_trades_executed bot + 1)%Z
                   else _trades_executed bot)
            | (ex, None) => counted rm ex (_trades_executed bot)
            end
          else counted rm (executor bot) (_trades_executed bot)
      end
  end.

(** One pass of [_position_monitor_loop]. *)
Definition _position_monitor_pass (cfg : TradingConfig) (now : Z) (draw : nat -> Q) (bot : t)
    : t := {|
  executor := {|
    Executor.trader :=
      fst (Trader.close_positions_at_limit cfg now draw (Executor.trader (executor bot)));
    Executor._executed_trades := Executor._executed_trades (executor bot);
    Executor._stats := Executor._stats (executor bot);
    Executor._traded_markets := Executor._traded_markets (executor bot) |};
  risk_manager := risk_manager bot;
  _events_processed := _events_processed bot;
  _trades_executed := _trades_executed bot |}.

(** What wakes the bot up: a monitor reports an event, or the position
    monitor's sleep ends. *)
Inductive Step :=
| EventStep (now later : Z) (event : NewsEvent) (matches : list MarketMatch)
| MonitorStep (now : Z) (draw : nat -> Q).

Definition step (cfg : TradingConfig) (bot : t) (s : Step) : t :=
  match s with
  | EventStep now later event matches => _handle_event cfg now later bot event matches
  | MonitorStep now draw => _position_monitor_pass cfg now draw bot
  end.

Definition run (cfg : TradingConfig) (bot : t) (steps : list Step) : t :=
  foldl (step cfg) bot steps.

(** The time of the risk check of an event step is at most [t]. *)
Definition checked_by (t : Z) (s : Step) : Prop :=
  match s with
  | EventStep now _ _ _ => (now <= t)%Z
  | MonitorStep _ _ => True
  end.

End WithEvents.

Arguments t : clear implicits.
Arguments Step : clear implicits.

End Bot.

(** ** Monitoring one position over several ticks *)

(** The position after one monitor tick at a known price; an iteration that
    raises leaves the dict as it was. *)
Definition tick (cfg : TradingConfig) (pos : Position.t) (current_price : Q) : Position.t :=
  match Trader.check_position cfg pos current_price with
  | Some (pos', _, _) => pos'
  | None => pos
  end.

(** The positions after each of a sequence of ticks. *)
Fixpoint ticks (cfg : TradingConfig) (pos : Position.t) (prices : list Q) : list Position.t :=
  match prices with
  | [] => []
  | p :: rest => let pos' := tick cfg pos p in pos' :: ticks cfg pos' rest
  end.

(** The position a sequence of ticks ends on. *)
Definition after_ticks (cfg : TradingConfig) (pos : Position.t) (prices : list Q) : Position.t :=
  foldl (tick cfg) pos prices.

(** The entry [check_position_limits] queues for the position at a price. *)
Definition close_item_at (cfg : TradingConfig) (pos : Position.t) (current_price : Q)
    : option CloseItem.t :=
  match Trader.check_position cfg pos current_price with
  | Some (_, _, item) => item
  | None => None
  end.

(** What the stop of a position may become in one tick: it stays, or it is
    replaced by the trailing level, which is then strictly above it. *)
Definition stop_kept_or_raised (cfg : TradingConfig) (p q : Position.t) : Prop :=
  Position.stop_loss_price q = Position.stop_loss_price p
  \/ (Position.trailing_stop_active q = true
      /\ Position.stop_loss_price q
         = Position.highest_price q * (1 - trailing_stop_pct cfg)
      /\ Position.stop_loss_price p < Position.stop_loss_price q).

(** The reason a stop-loss close carries, by the sub-state of the position. *)
Definition stop_reason (pos : Position.t) : CloseReason :=
  if Position.trailing_stop_active pos then TRAILING_STOP
  else if Position.breakeven_triggered pos then BREAKEVEN_STOP
  else STOP_LOSS.

(** What a cooldown map restored from a list of closed trades holds: for a
    token it records, the latest exit time among the trades on that token,
    which lies after the cutoff; a token it does not record has no name or no
    trade after the cutoff. *)
Definition restored_from (cutoff : Z) (trades : list ClosedTrade.t) (m : gmap string Z)
    : Prop :=
  forall token,
    match m !! token with
    | Some t =>
        token <> ""
        /\ (cutoff < t)%Z
        /\ (exists trade,
              trade ∈ trades
              /\ ClosedTrade.token_id trade = token
              /\ ClosedTrade.exit_time trade = t)
        /\ (forall trade,
              trade ∈ trades -> ClosedTrade.token_id trade = token ->
              (ClosedTrade.exit_time trade <= t)%Z)
    | None =>
        forall trade,
          trade ∈ trades -> ClosedTrade.token_id trade = token ->
          token = "" \/ (ClosedTrade.exit_time trade <= cutoff)%Z
    end.

(** A sequence of [can_trade] calls, each at its own time and against its own
    state of the trader: the manager at the end and the answers. *)
Fixpoint can_trade_calls (cfg : TradingConfig) (rm : RiskManager.t)
    (calls : list (Z * Trader.t)) : RiskManager.t * list (option bool) :=
  match calls with
  | [] => (rm, [])
  | (now, tr) :: rest =>
      match RiskManager.can_trade cfg now tr rm with
      | None =>
          let '(rm', answers) := can_trade_calls cfg rm rest in (rm', None :: answers)
      | Some (rm1, answer) =>
          let '(rm', answers) := can_trade_calls cfg rm1 rest in (rm', Some answer :: answers)
      end
  end.

(** A trader on a fresh database with the given cash and no history. *)
Definition fresh_trader (balance : Q) : Trader.t := {|
  Trader._clob_client := None;
  Trader._paper_balance := balance;
  Trader._real_balance := None;
  Trader._daily_pnl := 0;
  Trader._total_pnl := 0;
  Trader._paper_positions := [];
  Trader._positions := [];
  Trader._closed_trades := [];
  Trader.db := Database.init_database |}.

(** A trader with the given cash and daily P&L, and nothing else. *)
Definition trader_with (balance daily_pnl : Q) : Trader.t := {|
  Trader._clob_client := None;
  Trader._paper_balance := balance;
  Trader._real_balance := None;
  Trader._daily_pnl := daily_pnl;
  Trader._total_pnl := daily_pnl;
  Trader._paper_positions := [];
  Trader._positions := [];
  Trader._closed_trades := [];
  Trader.db := Database.init_database |}.

(** An opportunity on token ["T"]: YES at 0.50 with an edge of 0.4, a
    confidence of 0.8 and a liquidity of 5000. *)
Definition sample_match : MarketMatch := {|
  market_id := "M";
  question := "Q";
  current_yes_price := 0.5;
  current_no_price := 0.5;
  token_id_yes := "T";
  token_id_no := "N";
  fair_value := 0.9;
  edge := 0.4;
  recommended_side := "YES";
  recommended_token := "T";
  confidence := 0.8;
  liquidity := 5000 |}.

(** An executor started at time [0] on a fresh trader with 10000 in cash;
    events carry no data here. *)
Definition sample_executor : Executor.t unit := Executor.init 0 (fresh_trader 10000).

(** The order dict of a paper BUY of [size] shares of token ["T"] at 0.50,
    placed at time [0]. *)
Definition sample_order (cfg : TradingConfig) (size : Q) (prediction : string)
    : Position.t :=
  Trader.new_order cfg 0 "T" "BUY" size 0.5 "Q" 0 prediction.

(** The executor after it processed [sample_match] at time [1000]. *)
Definition traded_executor : Executor.t unit :=
  fst (Executor.process_opportunity default_config 1000 sample_executor tt sample_match).

(** The same executor once its position was closed by hand at time [2000]. *)
Definition closed_executor : Executor.t unit :=
  let tr := Executor.trader traded_executor in
  match Trader._paper_positions tr with
  | pos :: _ => {|
      Executor.trader := fst (Trader.close_position default_config 2000 tr pos 0.5 MANUAL);
      Executor._executed_trades := Executor._executed_trades traded_executor;
      Executor._stats := Executor._stats traded_executor;
      Executor._traded_markets := Executor._traded_markets traded_executor |}
  | [] => traded_executor
  end.

(** The price an opportunity is sized and ordered at:
    [match.current_yes_price if match.recommended_side == "YES" else
    match.current_no_price]. *)
Definition match_price (m : MarketMatch) : Q :=
  if decide (recommended_side m = "YES") then current_yes_price m else current_no_price m.

(** A position the simulated quotes cannot move: not yet at breakeven and not
    trailing, entered at a price between 0.06 and 1, with the breakeven
    trigger more than 0.08 above the entry, the stop more than 0.05 below it,
    and the take-profit level more than 0.08 above it.  The quote of
    [check_position_limits] is the entry price plus a draw from
    [[-0.05, 0.08]], clamped to [[0.01, 0.99]]. *)
Definition quiet (cfg : TradingConfig) (pos : Position.t) : Prop :=
  Position.breakeven_triggered pos = false
  /\ Position.trailing_stop_active pos = false
  /\ 0.06 <= Position.price pos
  /\ Position.price pos <= 1
  /\ 0.08 < Position.price pos * breakeven_trigger_pct cfg
  /\ Position.stop_loss_price pos < Position.price pos - 0.05
  /\ Position.price pos + 0.08 < Position.take_profit_price pos.

(** * Properties *)

(** ** Arithmetic helpers *)

Lemma py_min_le_l a b : py_min a b <= a.
Proof. unfold py_min. case_decide; lra. Qed.

Lemma py_min_le_r a b : py_min a b <= b.
Proof. unfold py_min. case_decide; lra. Qed.

Lemma py_min_cases a b : (py_min a b = a /\ a <= b) \/ (py_min a b = b /\ b < a).
Proof. unfold py_min. case_decide; [right | left]; split; auto; lra. Qed.

Lemma py_max_ge_l a b : a <= py_max a b.
Proof. unfold py_max. case_decide; lra. Qed.

Lemma py_max_cases a b : (py_max a b = a /\ b <= a) \/ (py_max a b = b /\ a < b).
Proof. unfold py_max. case_decide; [right | left]; split; auto; lra. Qed.

Lemma fdiv_Some a b : ~ b == 0 -> fdiv a b = Some (a / b).
Proof. intros H. unfold fdiv. case_decide; [contradiction | reflexivity]. Qed.

Lemma fdiv_None a b : b == 0 -> fdiv a b = None.
Proof. intros H. unfold fdiv. case_decide; [reflexivity | contradiction]. Qed.

(** ** The risk gate returns, and reports the trader's balance *)

Lemma check_status_returns cfg now tr rm :
  ~ starting_capital cfg == 0 ->
  exists rm' status,
    RiskManager.check_status cfg now tr rm = Some (rm', status)
    /\ RiskStatus.balance status = Trader.get_balance cfg tr.
Proof.
  intros Hcap. unfold RiskManager.check_status.
  rewrite (fdiv_Some _ _ Hcap). cbn [mbind option_bind].
  repeat (case_match || case_decide); eauto.
Qed.

(** ** Position sizing *)

Lemma size_for_equity_bounded cfg equity edge confidence :
  0 < stop_loss_pct cfg ->
  0 <= max_position_pct cfg ->
  0 <= equity ->
  exists size,
    RiskManager.size_for_equity cfg equity edge confidence = Some size
    /\ 0 <= size
    /\ size <= equity * max_position_pct cfg.
Proof.
  intros Hsl Hmax Heq.
  unfold RiskManager.size_for_equity, RiskManager.raw_size_of, RiskManager.base_size_of.
  rewrite fdiv_Some by lra. cbn [mbind option_bind].
  eexists; split; [reflexivity | split].
  - apply py_max_ge_l.
  - assert (Hcap : 0 <= equity * max_position_pct cfg) by (apply Qmult_le_0_compat; lra).
    set (cap := equity * max_position_pct cfg) in *.
    set (raw := _ * _ * confidence).
    pose proof (py_min_le_r raw cap).
    destruct (py_max_cases 0 (py_min raw cap)) as [[-> _] | [-> _]]; lra.
Qed.

(** C1.  For a non-negative equity, an edge and a confidence in [[0,1]], a
    positive [stop_loss_pct] and a (non-negative) [max_position_pct],
    [suggest_position_size] returns a size between [0] and
    [equity * max_position_pct].  The call goes through [check_status], which
    divides by [starting_capital]; the configured capital is therefore taken
    non-zero, so that the method returns at all. *)
Theorem suggest_position_size_bounds cfg now tr rm edge confidence :
  ~ starting_capital cfg == 0 ->
  0 < stop_loss_pct cfg ->
  0 <= max_position_pct cfg ->
  0 <= Trader.get_balance cfg tr ->
  0 <= edge <= 1 ->
  0 <= confidence <= 1 ->
  exists rm' size,
    RiskManager.suggest_position_size cfg now tr rm edge confidence = (rm', Some size)
    /\ 0 <= size
    /\ size <= Trader.get_balance cfg tr * max_position_pct cfg.
Proof.
  intros Hcap Hsl Hmax Heq _ _.
  destruct (check_status_returns cfg now tr rm Hcap) as (rm' & status & Hst & Hbal).
  destruct (size_for_equity_bounded cfg (Trader.get_balance cfg tr) edge confidence
              Hsl Hmax Heq) as (size & Hsize & Hlo & Hhi).
  exists rm', size. unfold RiskManager.suggest_position_size.
  rewrite Hst, Hbal, Hsize. auto.
Qed.

Lemma suggest_position_size_bounds_witness :
  exists rm' size,
    RiskManager.suggest_position_size default_config 0 (fresh_trader 10000)
      RiskManager.init 0.4 0.8 = (rm', Some size)
    /\ 0 <= size
    /\ size <= Trader.get_balance default_config (fresh_trader 10000)
               * max_position_pct default_config.
Proof.
  apply (suggest_position_size_bounds default_config 0 (fresh_trader 10000)
           RiskManager.init 0.4 0.8); vm_compute; intuition discriminate.
Defined.

(** C6, as the code has it.  The edge multiplier is [min(1.2, 0.8 + edge)]:
    it never exceeds 1.2; for a non-negative edge it is at least 0.8 and
    coincides with the clamp of [0.8 + edge] to [[0.8, 1.2]]; for a negative
    edge it is [0.8 + edge], below 0.8. *)
Theorem edge_multiplier_range edge :
  RiskManager.edge_multiplier edge <= 1.2
  /\ (0 <= edge ->
        0.8 <= RiskManager.edge_multiplier edge
        /\ RiskManager.edge_multiplier edge == py_max 0.8 (py_min 1.2 (0.8 + edge)))
  /\ (edge < 0 ->
        RiskManager.edge_multiplier edge == 0.8 + edge
        /\ RiskManager.edge_multiplier edge < 0.8).
Proof.
  unfold RiskManager.edge_multiplier.
  destruct (py_min_cases 1.2 (0.8 + edge)) as [[E H] | [E H]]; rewrite E;
    (split; [lra | split; intros He]).
  - split; [lra |]. destruct (py_max_cases 0.8 1.2) as [[-> ?] | [-> ?]]; lra.
  - lra.
  - split; [lra |]. destruct (py_max_cases 0.8 (0.8 + edge)) as [[-> ?] | [-> ?]]; lra.
  - split; lra.
Qed.

(** C6 as stated fails: at edge [-0.5] the multiplier is [0.3], which is
    below 0.8 and differs from the clamp of [0.8 + edge] to [[0.8, 1.2]]. *)
Lemma edge_multiplier_below_clamp :
  RiskManager.edge_multiplier (-0.5) == 0.3
  /\ ~ 0.8 <= RiskManager.edge_multiplier (-0.5)
  /\ ~ RiskManager.edge_multiplier (-0.5) == py_max 0.8 (py_min 1.2 (0.8 + -0.5)).
Proof. vm_compute. intuition discriminate. Qed.

(** C8.  With the default configuration and an equity of 10000, an edge of
    0.4 and a confidence of 0.8: the risk amount is 500, the base size is
    10000/3 (3333.33 to the cent), the edge multiplier is 1.2, the raw size is
    3200, and the size [suggest_position_size] returns is 3000, the cap of 30%
    of the equity. *)
Theorem sizing_scenario now tr rm :
  Trader.get_balance default_config tr == 10000 ->
  RiskManager.risk_amount_of default_config 10000 == 500
  /\ (exists base,
        RiskManager.base_size_of default_config 10000 = Some base
        /\ base == 10000 / 3 /\ 3333.325 <= base /\ base < 3333.335)
  /\ RiskManager.edge_multiplier 0.4 == 1.2
  /\ (exists raw,
        RiskManager.raw_size_of default_config 10000 0.4 0.8 = Some raw /\ raw == 3200)
  /\ 10000 * max_position_pct default_config == 3000
  /\ (exists rm' size,
        RiskManager.suggest_position_size default_config now tr rm 0.4 0.8
          = (rm', Some size)
        /\ size == 3000).
Proof.
  intros Hbal. repeat split.
  - eexists. split; [reflexivity |]. vm_compute. intuition discriminate.
  - eexists. split; [reflexivity | reflexivity].
  - destruct (check_status_returns default_config now tr rm) as (rm' & status & Hst & Hb).
    { vm_compute. discriminate. }
    exists rm'. unfold RiskManager.suggest_position_size. rewrite Hst, Hb.
    unfold RiskManager.size_for_equity, RiskManager.raw_size_of, RiskManager.base_size_of.
    rewrite fdiv_Some by (vm_compute; discriminate). cbn [mbind option_bind].
    eexists. split; [reflexivity |].
    set (equity := Trader.get_balance default_config tr) in *.
    assert (Hm : RiskManager.edge_multiplier 0.4 == 1.2) by reflexivity.
    set (mult := RiskManager.edge_multiplier 0.4) in *.
    unfold RiskManager.risk_amount_of. cbn [risk_per_trade_pct stop_loss_pct max_position_pct default_config].
    set (raw := _ * mult * 0.8).
    assert (Hraw : raw == 3200).
    { unfold raw. rewrite Hm, Hbal. reflexivity. }
    destruct (py_min_cases raw (equity * 0.30)) as [[-> ?] | [-> ?]];
      destruct (py_max_cases 0 raw) as [[E1 ?] | [E1 ?]];
      destruct (py_max_cases 0 (equity * 0.30)) as [[E2 ?] | [E2 ?]];
      rewrite ?E1, ?E2; lra.
Qed.

Lemma sizing_scenario_witness :
  exists rm' size,
    RiskManager.suggest_position_size default_config 0 (fresh_trader 10000)
      RiskManager.init 0.4 0.8 = (rm', Some size)
    /\ size == 3000.
Proof.
  apply (sizing_scenario 0 (fresh_trader 10000) RiskManager.init). reflexivity.
Defined.

(** ** The daily-loss pause *)

(** While the pause runs, [check_status] answers with the stored reason and
    leaves the manager alone, whatever the trader's figures are. *)
Lemma check_status_while_paused cfg now tr rm until :
  ~ starting_capital cfg == 0 ->
  RiskManager._trading_paused rm = true ->
  RiskManager._pause_until rm = Some until ->
  (now <= until)%Z ->
  exists status,
    RiskManager.check_status cfg now tr rm = Some (rm, status)
    /\ RiskStatus.is_trading_allowed status = false
    /\ RiskStatus.reason status = RiskManager._pause_reason rm.
Proof.
  intros Hcap Hp Hu Hnow. unfold RiskManager.check_status, RiskManager.pause_expired.
  rewrite (fdiv_Some _ _ Hcap), Hp, Hu. cbn [mbind option_bind andb negb].
  rewrite bool_decide_eq_false_2 by lia. cbn [negb].
  eexists. split; [reflexivity | split; reflexivity].
Qed.

(** A check that gets past the pause gate and sees the daily loss at or
    beyond the limit refuses and arms the pause for four hours. *)
Lemma check_status_arms_pause cfg now tr rm :
  ~ starting_capital cfg == 0 ->
  RiskManager._trading_paused rm = false \/ RiskManager.pause_expired now rm = true ->
  Trader.get_daily_pnl tr <= - (Trader.get_balance cfg tr * max_daily_loss_pct cfg) ->
  exists status,
    let reason :=
      DailyLossLimitHit (Trader.get_daily_pnl tr)
        (Trader.get_balance cfg tr * max_daily_loss_pct cfg) in
    RiskManager.check_status cfg now tr rm
      = Some ({| RiskManager._trading_paused := true;
                 RiskManager._pause_reason := reason;
                 RiskManager._pause_until := Some (now + timedelta_hours 4)%Z |}, status)
    /\ RiskStatus.is_trading_allowed status = false
    /\ RiskStatus.reason status = reason.
Proof.
  intros Hcap Hgate Hloss. unfold RiskManager.check_status.
  rewrite (fdiv_Some _ _ Hcap). cbn [mbind option_bind].
  assert (Hg : RiskManager._trading_paused rm
               && negb (RiskManager.pause_expired now rm) = false).
  { destruct Hgate as [-> | ->]; [reflexivity | apply andb_false_r]. }
  rewrite Hg. cbn [RiskStatus.balance].
  rewrite decide_True by exact Hloss.
  eexists. split; [reflexivity | split; reflexivity].
Qed.

(** Once the pause has run out, a check behaves as on a manager that is not
    paused: the pause is cleared and the remaining tests are made. *)
Lemma check_status_after_pause cfg now tr rm :
  RiskManager._trading_paused rm = true ->
  RiskManager.pause_expired now rm = true ->
  RiskManager.check_status cfg now tr rm
  = RiskManager.check_status cfg now tr (RiskManager.resume rm)
  /\ RiskManager._trading_paused (RiskManager.resume rm) = false
  /\ RiskManager._pause_reason (RiskManager.resume rm) = NoReason.
Proof.
  intros Hp He. split; [| split; reflexivity].
  unfold RiskManager.check_status. rewrite Hp, He. reflexivity.
Qed.

Lemma can_trade_calls_while_paused cfg rm until calls :
  ~ starting_capital cfg == 0 ->
  RiskManager._trading_paused rm = true ->
  RiskManager._pause_until rm = Some until ->
  Forall (fun c => (fst c <= until)%Z) calls ->
  can_trade_calls cfg rm calls = (rm, (fun _ => Some false) <$> calls).
Proof.
  intros Hcap Hp Hu. induction 1 as [| [now tr] rest Hnow _ IH]; [reflexivity |].
  cbn [can_trade_calls fmap list_fmap]. unfold RiskManager.can_trade.
  destruct (check_status_while_paused cfg now tr rm until Hcap Hp Hu Hnow)
    as (status & -> & Hallowed & _).
  cbn [mbind option_bind]. rewrite Hallowed, IH. reflexivity.
Qed.

(** C2.  A check that observes [daily_pnl <= -(equity * max_daily_loss_pct)]
    refuses and arms a pause of four hours.  Every later [can_trade] up to the
    expiry answers false, with the stored reason and without touching the
    manager, whatever the daily P&L has become.  After the expiry a check
    behaves as on an unpaused manager: the pause is cleared and the remaining
    tests are made. *)
Theorem daily_loss_pause_sticky cfg now tr rm calls :
  ~ starting_capital cfg == 0 ->
  RiskManager._trading_paused rm = false \/ RiskManager.pause_expired now rm = true ->
  Trader.get_daily_pnl tr <= - (Trader.get_balance cfg tr * max_daily_loss_pct cfg) ->
  Forall (fun c => (fst c < now + timedelta_hours 4)%Z) calls ->
  exists rm1,
    RiskManager.can_trade cfg now tr rm = Some (rm1, false)
    /\ RiskManager._trading_paused rm1 = true
    /\ RiskManager._pause_until rm1 = Some (now + timedelta_hours 4)%Z
    /\ RiskManager._pause_reason rm1
       = DailyLossLimitHit (Trader.get_daily_pnl tr)
           (Trader.get_balance cfg tr * max_daily_loss_pct cfg)
    /\ can_trade_calls cfg rm1 calls = (rm1, (fun _ => Some false) <$> calls)
    /\ Forall (fun c =>
         exists status,
           RiskManager.check_status cfg (fst c) (snd c) rm1 = Some (rm1, status)
           /\ RiskStatus.is_trading_allowed status = false
           /\ RiskStatus.reason status = RiskManager._pause_reason rm1) calls
    /\ (forall later tr',
          (now + timedelta_hours 4 < later)%Z ->
          RiskManager.check_status cfg later tr' rm1
          = RiskManager.check_status cfg later tr' (RiskManager.resume rm1)
          /\ RiskManager._trading_paused (RiskManager.resume rm1) = false).
Proof.
  intros Hcap Hgate Hloss Hcalls.
  destruct (check_status_arms_pause cfg now tr rm Hcap Hgate Hloss)
    as (status & Hst & Hallowed & Hreason).
  cbv zeta in Hst, Hreason.
  eexists. unfold RiskManager.can_trade. rewrite Hst. cbn [mbind option_bind].
  rewrite Hallowed.
  split; [reflexivity |]. split; [reflexivity |]. split; [reflexivity |].
  split; [reflexivity |]. split; [| split].
  - eapply can_trade_calls_while_paused; [exact Hcap | reflexivity | reflexivity |].
    eapply Forall_impl; [exact Hcalls |]. cbn. intros; lia.
  - eapply Forall_impl; [exact Hcalls |]. intros [later tr'] Hlt.
    eapply check_status_while_paused; [exact Hcap | reflexivity | reflexivity |].
    cbn in *. lia.
  - intros later tr' Hlater.
    edestruct check_status_after_pause as (H1 & H2 & _); [| | split; [exact H1 | exact H2]].
    + reflexivity.
    + unfold RiskManager.pause_expired. cbn. apply bool_decide_eq_true_2. lia.
Qed.

Lemma daily_loss_pause_sticky_witness :
  exists rm1,
    RiskManager.can_trade default_config 0 (trader_with 10000 (-1000)) RiskManager.init
      = Some (rm1, false)
    /\ RiskManager._pause_until rm1 = Some 14400000000%Z
    /\ can_trade_calls default_config rm1
         [(1%Z, fresh_trader 10000); (14399999999%Z, fresh_trader 10000)]
       = (rm1, [Some false; Some false]).
Proof.
  destruct (daily_loss_pause_sticky default_config 0 (trader_with 10000 (-1000))
              RiskManager.init
              [(1%Z, fresh_trader 10000); (14399999999%Z, fresh_trader 10000)])
    as (rm1 & H1 & _ & H3 & _ & H5 & _).
  - vm_compute. discriminate.
  - left. reflexivity.
  - vm_compute. discriminate.
  - repeat constructor.
  - exists rm1. split; [exact H1 | split; [exact H3 | exact H5]].
Defined.

(** ** The market cooldown *)

Section Cooldown.

Context {NewsEvent : Type}.
Implicit Types (ex : Executor.t NewsEvent) (ev : NewsEvent) (m : MarketMatch).

(** An open position on the token is reported before the cooldown is looked
    at. *)
Lemma evaluate_holds_position cfg now ex ev m :
  Executor.holds_position (Trader.get_positions cfg (Executor.trader ex))
    (recommended_token m) = true ->
  exists d,
    Executor.evaluate_opportunity cfg now ex ev m = Some d
    /\ Executor.approved d = false
    /\ Executor.reason d = AlreadyOpenPosition.
Proof.
  intros H. unfold Executor.evaluate_opportunity. rewrite H.
  eexists. split; [reflexivity | split; reflexivity].
Qed.

Lemma on_cooldown_before now ex token t :
  Executor._traded_markets ex !! token = Some t ->
  (now < t + timedelta_hours 4)%Z ->
  Executor.on_cooldown now ex token = Some (t + timedelta_hours 4 - now)%Z.
Proof.
  intros Ht Hlt. unfold Executor.on_cooldown, Executor.MARKET_COOLDOWN_HOURS.
  rewrite Ht. rewrite decide_True by exact Hlt. reflexivity.
Qed.

Lemma on_cooldown_after now ex token t :
  Executor._traded_markets ex !! token = Some t ->
  (t + timedelta_hours 4 <= now)%Z ->
  Executor.on_cooldown now ex token = None.
Proof.
  intros Ht Hle. unfold Executor.on_cooldown, Executor.MARKET_COOLDOWN_HOURS.
  rewrite Ht. rewrite decide_False by lia. reflexivity.
Qed.

(** Without a cooldown in force, whatever [evaluate_opportunity] answers is
    not the cooldown rejection. *)
Lemma evaluate_off_cooldown cfg now ex ev m :
  ~ stop_loss_pct cfg == 0 ->
  Executor.on_cooldown now ex (recommended_token m) = None ->
  exists d,
    Executor.evaluate_opportunity cfg now ex ev m = Some d
    /\ is_cooldown_reason (Executor.reason d) = false.
Proof.
  intros Hsl Hoff. unfold Executor.evaluate_opportunity. rewrite Hoff.
  rewrite (fdiv_Some _ _ Hsl). cbn [mbind option_bind].
  repeat (case_match || case_decide);
    (eexists; split; [reflexivity | reflexivity]).
Qed.

(** C3, as the code has it.  With a trade on token T recorded at time [t]:
    strictly before [t + 4h], [evaluate_opportunity] on T returns an
    unapproved decision, whose reason is the cooldown reason when no open
    position is on T, and the open-position reason (tested first) when one
    is; at or after [t + 4h] the decision is not the cooldown rejection. *)
Theorem cooldown_enforced cfg now ex ev m t :
  ~ stop_loss_pct cfg == 0 ->
  Executor._traded_markets ex !! recommended_token m = Some t ->
  ((now < t + timedelta_hours 4)%Z ->
     exists d,
       Executor.evaluate_opportunity cfg now ex ev m = Some d
       /\ Executor.approved d = false
       /\ Executor.reason d
          = if Executor.holds_position (Trader.get_positions cfg (Executor.trader ex))
                 (recommended_token m)
            then AlreadyOpenPosition
            else MarketOnCooldown (t + timedelta_hours 4 - now)%Z)
  /\ ((t + timedelta_hours 4 <= now)%Z ->
        exists d,
          Executor.evaluate_opportunity cfg now ex ev m = Some d
          /\ is_cooldown_reason (Executor.reason d) = false).
Proof.
  intros Hsl Ht. split.
  - intros Hlt.
    destruct (Executor.holds_position _ _) eqn:Hheld.
    + apply evaluate_holds_position. exact Hheld.
    + unfold Executor.evaluate_opportunity.
      rewrite Hheld, (on_cooldown_before now ex _ t Ht Hlt).
      eexists. split; [reflexivity | split; reflexivity].
  - intros Hle. apply evaluate_off_cooldown; [exact Hsl |].
    eapply on_cooldown_after; eassumption.
Qed.

End Cooldown.

Lemma cooldown_enforced_witness :
  (exists d,
     Executor.evaluate_opportunity default_config 3000 closed_executor tt sample_match = Some d
     /\ Executor.approved d = false
     /\ Executor.reason d = MarketOnCooldown 14399998000)
  /\ (exists d,
        Executor.evaluate_opportunity default_config 14400001000 closed_executor tt
          sample_match = Some d
        /\ is_cooldown_reason (Executor.reason d) = false).
Proof.
  split.
  - destruct (cooldown_enforced default_config 3000 closed_executor tt sample_match 1000)
      as [H _]; [vm_compute; discriminate | reflexivity |].
    apply H. reflexivity.
  - destruct (cooldown_enforced default_config 14400001000 closed_executor tt
                sample_match 1000)
      as [_ H]; [vm_compute; discriminate | reflexivity |].
    apply H. vm_compute. discriminate.
Defined.

(** C3 as stated fails.  Right after the executor traded token T at time
    1000 the trade is recorded for the cooldown, and the position is open: an
    evaluation one microsecond later is refused with the open-position
    reason, not with the cooldown reason. *)
Lemma cooldown_reason_counterexample :
  Executor._traded_markets traded_executor !! recommended_token sample_match = Some 1000%Z
  /\ (1001 < 1000 + timedelta_hours 4)%Z
  /\ exists d,
       Executor.evaluate_opportunity default_config 1001 traded_executor tt sample_match
         = Some d
       /\ Executor.approved d = false
       /\ Executor.reason d = AlreadyOpenPosition
       /\ is_cooldown_reason (Executor.reason d) = false.
Proof.
  split; [reflexivity | split; [reflexivity |]].
  eexists. split; [vm_compute; reflexivity | repeat split].
Qed.

(** ** Breakeven and trailing stop *)

Lemma tick_unfold cfg pos price :
  tick cfg pos price
  = match Trader.pnl_pct_at pos price with
    | Some pnl_pct => fst (Trader.update_limits cfg pos price pnl_pct)
    | None => pos
    end.
Proof.
  unfold tick, Trader.check_position.
  destruct (Trader.pnl_pct_at pos price) as [pnl_pct |]; [| reflexivity].
  cbn [mbind option_bind]. destruct (Trader.update_limits _ _ _ _). reflexivity.
Qed.

Lemma update_limits_after_breakeven cfg pos price pnl_pct :
  Position.breakeven_triggered pos = true ->
  let pos' := fst (Trader.update_limits cfg pos price pnl_pct) in
  Position.breakeven_triggered pos' = true
  /\ stop_kept_or_raised cfg pos pos'.
Proof.
  intros Hbe. unfold Trader.update_limits, stop_kept_or_raised.
  rewrite Hbe. cbn.
  destruct (Position.trailing_stop_active pos) eqn:Htr; cbn; [| auto].
  case_bool_decide; cbn; auto.
Qed.

Lemma tick_after_breakeven cfg pos price :
  Position.breakeven_triggered pos = true ->
  Position.breakeven_triggered (tick cfg pos price) = true
  /\ stop_kept_or_raised cfg pos (tick cfg pos price).
Proof.
  intros Hbe. rewrite tick_unfold.
  destruct (Trader.pnl_pct_at pos price) as [pnl_pct |].
  - apply update_limits_after_breakeven. exact Hbe.
  - split; [exact Hbe | left; reflexivity].
Qed.

Lemma stop_kept_or_raised_le cfg p q :
  stop_kept_or_raised cfg p q -> Position.stop_loss_price p <= Position.stop_loss_price q.
Proof. intros [-> | (_ & _ & H)]; lra. Qed.

(** The breakeven transition itself: the tick that sets the flag moves the
    stop to the entry price, and only the trailing update of the same tick can
    put it higher. *)
Lemma tick_breakeven_transition cfg pos price :
  Position.breakeven_triggered pos = false ->
  Position.breakeven_triggered (tick cfg pos price) = true ->
  Position.stop_loss_price (tick cfg pos price) = Position.price pos
  \/ (Position.trailing_stop_active (tick cfg pos price) = true
      /\ Position.stop_loss_price (tick cfg pos price)
         = Position.highest_price (tick cfg pos price) * (1 - trailing_stop_pct cfg)
      /\ Position.price pos < Position.stop_loss_price (tick cfg pos price)).
Proof.
  intros Hbe. rewrite tick_unfold.
  destruct (Trader.pnl_pct_at pos price) as [pnl_pct |]; [| congruence].
  unfold Trader.update_limits. rewrite Hbe. cbn.
  case_bool_decide; cbn; [| congruence]. intros _.
  destruct (use_trailing_stop cfg); cbn; [| auto].
  case_bool_decide; cbn; auto.
Qed.

Lemma ticks_after_breakeven cfg prices : forall pos,
  Position.breakeven_triggered pos = true ->
  Forall (fun q => Position.breakeven_triggered q = true
                   /\ Position.stop_loss_price pos <= Position.stop_loss_price q)
    (ticks cfg pos prices).
Proof.
  induction prices as [| price rest IH]; intros pos Hbe; [constructor |].
  cbn [ticks].
  destruct (tick_after_breakeven cfg pos price Hbe) as [Hbe' Hstep].
  apply stop_kept_or_raised_le in Hstep.
  constructor; [auto |].
  eapply Forall_impl; [apply (IH _ Hbe') |].
  cbn. intros q [Hq Hle]. split; [exact Hq | lra].
Qed.

Lemma ticks_lookup_S cfg prices : forall pos i p q,
  (pos :: ticks cfg pos prices) !! i = Some p ->
  (pos :: ticks cfg pos prices) !! S i = Some q ->
  exists price, q = tick cfg p price.
Proof.
  induction prices as [| price rest IH]; intros pos i p q Hp Hq.
  - destruct i; discriminate.
  - cbn [ticks] in *. destruct i as [| i].
    + cbn in Hp, Hq. injection Hp as <-. injection Hq as <-. eauto.
    + eapply (IH (tick cfg pos price) i); eassumption.
Qed.

Lemma ticks_suffix cfg prices : forall pos i p,
  (pos :: ticks cfg pos prices) !! i = Some p ->
  exists later, drop i (pos :: ticks cfg pos prices) = p :: ticks cfg p later.
Proof.
  induction prices as [| price rest IH]; intros pos i p Hp.
  - destruct i as [| i]; [| destruct i; discriminate].
    cbn in Hp. injection Hp as <-. exists []. reflexivity.
  - destruct i as [| i].
    + cbn in Hp. injection Hp as <-. exists (price :: rest). reflexivity.
    + cbn [ticks] in *. apply (IH (tick cfg pos price) i p). exact Hp.
Qed.

(** C4.  From a position whose [breakeven_triggered] is true, over any
    sequence of monitor ticks: the flag stays true; the stop never decreases
    from one observed state to any later one; and each tick either keeps the
    stop or replaces it by [highest_price * (1 - trailing_stop_pct)], the
    latter only when that level is strictly above the current stop.  The tick
    that sets the flag puts the stop at the entry price (or at a trailing level
    above it, computed in the same tick).  This holds for every side, a BUY
    position in particular. *)
Theorem breakeven_stop_monotone cfg pos prices :
  Position.breakeven_triggered pos = true ->
  let states := pos :: ticks cfg pos prices in
  Forall (fun q => Position.breakeven_triggered q = true) states
  /\ (forall i j p q,
        (i <= j)%nat -> states !! i = Some p -> states !! j = Some q ->
        Position.stop_loss_price p <= Position.stop_loss_price q)
  /\ (forall i p q,
        states !! i = Some p -> states !! S i = Some q -> stop_kept_or_raised cfg p q)
  /\ (forall p price,
        Position.breakeven_triggered p = false ->
        Position.breakeven_triggered (tick cfg p price) = true ->
        Position.stop_loss_price (tick cfg p price) = Position.price p
        \/ (Position.trailing_stop_active (tick cfg p price) = true
            /\ Position.price p < Position.stop_loss_price (tick cfg p price))).
Proof.
  intros Hbe states.
  assert (Hall : Forall (fun q => Position.breakeven_triggered q = true) states).
  { constructor; [exact Hbe |].
    eapply Forall_impl; [apply (ticks_after_breakeven cfg prices pos Hbe) |].
    cbn. tauto. }
  split; [exact Hall |]. split; [| split].
  - intros i j p q Hij Hp Hq.
    destruct (ticks_suffix cfg prices pos i p Hp) as [later Hdrop].
    assert (Hbp : Position.breakeven_triggered p = true).
    { rewrite Forall_forall in Hall. apply Hall. eapply list_elem_of_lookup_2, Hp. }
    assert (Hq' : (p :: ticks cfg p later) !! (j - i)%nat = Some q).
    { rewrite <- Hdrop, lookup_drop. replace (i + (j - i))%nat with j by lia. exact Hq. }
    destruct (j - i)%nat as [| k] eqn:Hk.
    + cbn in Hq'. injection Hq' as <-. lra.
    + cbn in Hq'. pose proof (ticks_after_breakeven cfg later p Hbp) as Hf.
      rewrite Forall_forall in Hf. apply Hf. eapply list_elem_of_lookup_2, Hq'.
  - intros i p q Hp Hq.
    destruct (ticks_lookup_S cfg prices pos i p q Hp Hq) as [price ->].
    apply tick_after_breakeven.
    rewrite Forall_forall in Hall. apply Hall. eapply list_elem_of_lookup_2, Hp.
  - intros p price Hf Ht.
    destruct (tick_breakeven_transition cfg p price Hf Ht) as [H | (H1 & _ & H3)]; auto.
Qed.

Lemma breakeven_stop_monotone_witness :
  let pos := tick default_config (sample_order default_config 100 "") 0.6 in
  let states := pos :: ticks default_config pos [0.55; 0.58; 0.50] in
  Position.breakeven_triggered pos = true
  /\ Forall (fun q => Position.breakeven_triggered q = true) states
  /\ (forall i j p q,
        (i <= j)%nat -> states !! i = Some p -> states !! j = Some q ->
        Position.stop_loss_price p <= Position.stop_loss_price q).
Proof.
  intros pos states.
  assert (Hbe : Position.breakeven_triggered pos = true) by reflexivity.
  destruct (breakeven_stop_monotone default_config pos [0.55; 0.58; 0.50] Hbe)
    as (H1 & H2 & _).
  split; [exact Hbe | split; [exact H1 | exact H2]].
Defined.

(** ** Stop loss, then take profit *)

Lemma limit_hit_take_profit pos price :
  Position.take_profit_price pos <= price ->
  Trader.limit_hit pos price = Some (TAKE_PROFIT, Position.take_profit_price pos).
Proof. intros H. unfold Trader.limit_hit. rewrite decide_True by exact H. reflexivity. Qed.

Lemma limit_hit_cases pos price hit :
  Trader.limit_hit pos price = Some hit ->
  (hit = (TAKE_PROFIT, Position.take_profit_price pos)
   /\ Position.take_profit_price pos <= price)
  \/ (hit = (stop_reason pos, Position.stop_loss_price pos)
      /\ 0 < Position.stop_loss_price pos
      /\ price <= Position.stop_loss_price pos
      /\ ~ Position.take_profit_price pos <= price).
Proof.
  unfold Trader.limit_hit, stop_reason. case_decide as Htp.
  - intros [= <-]. left. auto.
  - destruct (bool_decide (0 < _)) eqn:H0; cbn; [| discriminate].
    destruct (bool_decide (price <= _)) eqn:H1; cbn; [| discriminate].
    apply bool_decide_eq_true_1 in H0, H1.
    intros [= <-]. right. auto.
Qed.

Lemma close_position_closed_trade cfg now tr position exit_price close_reason :
  exists ct,
    Trader._closed_trades (fst (Trader.close_position cfg now tr position exit_price
                                  close_reason))
    = Trader._closed_trades tr ++ [ct]
    /\ ClosedTrade.id ct = Position.id position
    /\ ClosedTrade.exit_price ct = exit_price
    /\ ClosedTrade.close_reason ct = close_reason
    /\ ClosedTrade.pnl ct = Trader.pnl_of position exit_price
    /\ In (Database.closed_row ct)
         (Database.closed_trades
            (Trader.db (fst (Trader.close_position cfg now tr position exit_price
                               close_reason)))).
Proof.
  eexists. cbn. split; [reflexivity |]. repeat (split; [reflexivity |]).
  unfold Database.insert_or_replace. apply in_or_app. right. left. reflexivity.
Qed.

(** C5.  In the sweep of one position the stop-loss test comes first and the
    take-profit test second, so that a price at or below the stop and at or
    above the take-profit level closes with [TAKE_PROFIT].  Every queued close
    carries as exit price the trigger level of the updated position (its
    [take_profit_price], or its [stop_loss_price] for a stop), not the observed
    price, and that is the exit price [close_positions_at_limit] hands to
    [close_position] and the closed trade records. *)
Theorem take_profit_wins_and_exit_at_limit cfg pos price pos' updated res :
  Trader.check_position cfg pos price = Some (pos', updated, res) ->
  (price <= Position.stop_loss_price pos' ->
   Position.take_profit_price pos' <= price ->
   exists item,
     res = Some item
     /\ CloseItem.reason item = TAKE_PROFIT
     /\ CloseItem.current_price item = Position.take_profit_price pos')
  /\ (forall item,
        res = Some item ->
        CloseItem.position item = pos'
        /\ ((CloseItem.reason item = TAKE_PROFIT
             /\ CloseItem.current_price item = Position.take_profit_price pos'
             /\ Position.take_profit_price pos' <= price)
            \/ (CloseItem.reason item = stop_reason pos'
                /\ CloseItem.current_price item = Position.stop_loss_price pos'
                /\ 0 < Position.stop_loss_price pos'
                /\ price <= Position.stop_loss_price pos'
                /\ ~ Position.take_profit_price pos' <= price)))
  /\ (forall item now tr,
        res = Some item ->
        exists ct,
          Trader._closed_trades (fst (Trader.close_all cfg now tr [item]))
          = Trader._closed_trades tr ++ [ct]
          /\ ClosedTrade.exit_price ct = CloseItem.current_price item
          /\ ClosedTrade.close_reason ct = CloseItem.reason item).
Proof.
  unfold Trader.check_position.
  destruct (Trader.pnl_pct_at pos price) as [pnl_pct |]; [| discriminate].
  cbn [mbind option_bind].
  destruct (Trader.update_limits cfg pos price pnl_pct) as [p u].
  intros [= <- <- <-]. split; [| split].
  - intros _ Htp. rewrite (limit_hit_take_profit p price Htp). cbn.
    eexists. split; [reflexivity | split; reflexivity].
  - intros item. destruct (Trader.limit_hit p price) as [hit |] eqn:Hhit; [| discriminate].
    cbn. intros [= <-]. cbn. split; [reflexivity |].
    destruct (limit_hit_cases p price hit Hhit) as [[-> H] | [-> H]]; cbn; auto.
  - intros item now tr _. cbn [Trader.close_all].
    destruct (close_position_closed_trade cfg now tr (CloseItem.position item)
                (CloseItem.current_price item) (CloseItem.reason item))
      as (ct & H1 & _ & H2 & H3 & _).
    destruct (Trader.close_position _ _ _ _ _ _) as [tr1 result]. cbn in *.
    exists ct. auto.
Qed.

Lemma take_profit_wins_and_exit_at_limit_witness :
  let pos := Position.with_limits (sample_order default_config 100 "") 0.5 0.7 true false in
  exists pos' updated item,
    Trader.check_position default_config pos 0.66 = Some (pos', updated, Some item)
    /\ 0.66 <= Position.stop_loss_price pos'
    /\ Position.take_profit_price pos' <= 0.66
    /\ CloseItem.reason item = TAKE_PROFIT
    /\ CloseItem.current_price item = Position.take_profit_price pos'.
Proof.
  intros pos.
  destruct (Trader.check_position default_config pos 0.66) as [[[pos' updated] res] |] eqn:E;
    [| discriminate E].
  destruct (take_profit_wins_and_exit_at_limit default_config pos 0.66 pos' updated res E)
    as (H & _).
  assert (Hpos : pos' = fst (Trader.update_limits default_config pos 0.66 (32 # 100))).
  { vm_compute in E. injection E as <- _ _. reflexivity. }
  assert (H1 : 0.66 <= Position.stop_loss_price pos').
  { rewrite Hpos. vm_compute. discriminate. }
  assert (H2 : Position.take_profit_price pos' <= 0.66).
  { rewrite Hpos. vm_compute. discriminate. }
  destruct (H H1 H2) as (item & -> & Hr & Hp).
  exists pos', updated, item. auto.
Defined.

(** ** Persisting and reloading an open position *)

Lemma to_bool_of_bool b : Database.to_bool (Database.of_bool b) = b.
Proof. destruct b; reflexivity. Qed.

(** What a reload makes of a saved dict: the sixteen columns come back as
    they were, ["status"] is the constant ["FILLED"], and there is no
    ["prediction"]. *)
Lemma open_position_of_open_row p :
  Position.status p = "FILLED" ->
  Database.open_position_of_row (Database.open_row p) = Position.without_prediction p.
Proof.
  intros Hs. unfold Database.open_position_of_row, Database.open_row,
    Position.without_prediction. cbn. rewrite !to_bool_of_bool, Hs. reflexivity.
Qed.

Lemma get_open_positions_after_save p d :
  Database.get_open_positions (Database.save_open_position p d)
  = (Database.open_position_of_row
       <$> filter (fun r => Database.o_id r <> Position.id p) (Database.open_positions d))
    ++ [Database.open_position_of_row (Database.open_row p)].
Proof.
  unfold Database.get_open_positions, Database.save_open_position,
    Database.insert_or_replace. cbn. rewrite fmap_app. reflexivity.
Qed.

Lemma paper_buy_order cfg now tr token_id side size price question risk prediction tr' order :
  Trader._paper_order cfg now tr token_id side size price question risk prediction
    = (tr', Some order) ->
  Trader.is_buy side = true ->
  order = Trader.new_order cfg now token_id side size price question risk prediction
  /\ Trader.db tr' = Database.save_open_position order (Trader.db tr)
  /\ Trader._paper_positions tr' = Trader._paper_positions tr ++ [order].
Proof.
  unfold Trader._paper_order. intros H Hbuy. rewrite Hbuy in H. cbn [andb] in H.
  destruct (bool_decide _); [discriminate |].
  injection H as <- <-. cbn. auto.
Qed.

(** C7, as the code has it.  A position created by a paper BUY order is
    persisted by the order; reloading with [get_open_positions] yields, under
    its id, exactly one record, equal to the in-memory dict in the sixteen
    persisted fields and in ["status"], and without the ["prediction"] key the
    order carried.  These reloaded records are the open positions of a trader
    started on that storage. *)
Theorem open_position_roundtrip cfg now tr token_id side size price question risk
    prediction tr' order :
  Trader._paper_order cfg now tr token_id side size price question risk prediction
    = (tr', Some order) ->
  Trader.is_buy side = true ->
  let reloaded := Database.get_open_positions (Trader.db tr') in
  Trader.db tr' = Database.save_open_position order (Trader.db tr)
  /\ Position.without_prediction order ∈ reloaded
  /\ (forall p, p ∈ reloaded -> Position.id p = Position.id order ->
        p = Position.without_prediction order)
  /\ (forall p, p ∈ reloaded -> Position.prediction p = None)
  /\ Position.prediction order
     = Some (if decide (prediction = "") then "YES" else prediction)
  /\ (forall later,
        Trader._paper_positions (Trader.init later (Trader.db tr')) = reloaded).
Proof.
  intros Hord Hbuy reloaded.
  destruct (paper_buy_order _ _ _ _ _ _ _ _ _ _ _ _ Hord Hbuy) as (Ho & Hdb & _).
  assert (Hrow : Database.open_position_of_row (Database.open_row order)
                 = Position.without_prediction order).
  { apply open_position_of_open_row. rewrite Ho. reflexivity. }
  subst reloaded. rewrite Hdb, get_open_positions_after_save, Hrow.
  split; [reflexivity |]. split; [| split; [| split; [| split]]].
  - apply elem_of_app. right. apply list_elem_of_singleton. reflexivity.
  - intros p Hp Hid. apply elem_of_app in Hp as [Hp | Hp].
    + apply list_elem_of_fmap in Hp as (r & -> & Hr).
      apply list_elem_of_filter in Hr as [Hne _]. cbn in Hid. contradiction.
    + apply list_elem_of_singleton in Hp. exact Hp.
  - intros p Hp. apply elem_of_app in Hp as [Hp | Hp].
    + apply list_elem_of_fmap in Hp as (r & -> & _). reflexivity.
    + apply list_elem_of_singleton in Hp as ->. reflexivity.
  - rewrite Ho. reflexivity.
  - intros later. rewrite <- Hrow, <- get_open_positions_after_save. reflexivity.
Qed.

Lemma open_position_roundtrip_witness :
  exists tr' order,
    Trader._paper_order default_config 0 (fresh_trader 10000) "T" "BUY" 100 0.5 "Q" 0 ""
      = (tr', Some order)
    /\ Position.without_prediction order ∈ Database.get_open_positions (Trader.db tr')
    /\ Position.prediction order = Some "YES".
Proof.
  eexists _, _. split; [reflexivity |].
  destruct (open_position_roundtrip default_config 0 (fresh_trader 10000) "T" "BUY" 100
              0.5 "Q" 0 "" _ _ eq_refl eq_refl) as (_ & H & _ & _ & Hp & _).
  split; [exact H | exact Hp].
Defined.

(** C7 as stated fails.  A paper BUY with prediction ["NO"] is saved and
    reloaded: the one record that comes back has no ["prediction"], so it is
    not the in-memory dict (neither as a value nor under [==]), and closing
    the reloaded position records the prediction ["YES"] where closing the
    in-memory one records ["NO"]. *)
Lemma open_position_roundtrip_counterexample :
  let order := sample_order default_config 100 "NO" in
  let placed :=
    Trader._paper_order default_config 0 (fresh_trader 10000) "T" "BUY" 100 0.5 "Q" 0 "NO" in
  let reloaded := Database.get_open_positions (Trader.db (fst placed)) in
  snd placed = Some order
  /\ reloaded = [Position.without_prediction order]
  /\ Position.prediction order = Some "NO"
  /\ Position.without_prediction order <> order
  /\ Position.eqb (Position.without_prediction order) order = false
  /\ ClosedTrade.prediction <$>
       Trader._closed_trades
         (fst (Trader.close_position default_config 1 (fresh_trader 10000) order 0.5 MANUAL))
     = [Some "NO"]
  /\ ClosedTrade.prediction <$>
       Trader._closed_trades
         (fst (Trader.close_position default_config 1 (fresh_trader 10000)
                 (Position.without_prediction order) 0.5 MANUAL))
     = [Some "YES"].
Proof.
  cbv zeta. split; [reflexivity |]. split; [reflexivity |]. split; [reflexivity |].
  split; [| split; [| split]]; try reflexivity.
  intros H. apply (f_equal Position.prediction) in H. discriminate H.
Qed.

(** ** Closing a position that is not open *)

(** C10.  In paper mode, [close_position] on a dict that is not in the list
    of open positions still adds the P&L to the daily and total P&L, credits
    [size * exit_price] to the paper balance, appends a closed trade and
    persists it with the new ledger figures; only the removal from the list is
    skipped.  Closing the same dict twice therefore counts its P&L and its
    proceeds twice. *)
Theorem close_position_not_guarded cfg now tr position exit_price close_reason :
  paper_trading cfg = true ->
  Position.mem position (Trader._paper_positions tr) = false ->
  let pnl := Trader.pnl_of position exit_price in
  let proceeds := Position.size position * exit_price in
  let tr1 := fst (Trader.close_position cfg now tr position exit_price close_reason) in
  Trader._daily_pnl tr1 = Trader._daily_pnl tr + pnl
  /\ Trader._total_pnl tr1 = Trader._total_pnl tr + pnl
  /\ Trader._paper_balance tr1 = Trader._paper_balance tr + proceeds
  /\ Trader._paper_positions tr1 = Trader._paper_positions tr
  /\ (exists ct,
        Trader._closed_trades tr1 = Trader._closed_trades tr ++ [ct]
        /\ ClosedTrade.id ct = Position.id position
        /\ ClosedTrade.pnl ct = pnl
        /\ ClosedTrade.exit_price ct = exit_price
        /\ Database.closed_row ct ∈ Database.closed_trades (Trader.db tr1))
  /\ Database.s_paper_balance (Database.bot_state (Trader.db tr1))
     = Trader._paper_balance tr + proceeds
  /\ Database.s_daily_pnl (Database.bot_state (Trader.db tr1)) = Trader._daily_pnl tr + pnl
  /\ Database.s_total_pnl (Database.bot_state (Trader.db tr1)) = Trader._total_pnl tr + pnl
  /\ (forall later,
        let tr2 :=
          fst (Trader.close_position cfg later tr1 position exit_price close_reason) in
        Trader._daily_pnl tr2 = Trader._daily_pnl tr + pnl + pnl
        /\ Trader._total_pnl tr2 = Trader._total_pnl tr + pnl + pnl
        /\ Trader._paper_balance tr2 = Trader._paper_balance tr + proceeds + proceeds
        /\ length (Trader._closed_trades tr2) = S (S (length (Trader._closed_trades tr)))).
Proof.
  intros Hpaper Hmem pnl proceeds tr1.
  subst tr1. unfold Trader.close_position. rewrite Hpaper, Hmem. cbn.
  repeat (split; [reflexivity |]).
  split.
  - eexists. split; [reflexivity |]. repeat (split; [reflexivity |]).
    unfold Database.insert_or_replace. apply elem_of_app. right.
    apply list_elem_of_singleton. reflexivity.
  - do 3 (split; [reflexivity |]).
    intros later. cbn. do 3 (split; [reflexivity |]).
    rewrite !length_app. cbn. lia.
Qed.

Lemma close_position_not_guarded_witness :
  let position := sample_order default_config 100 "" in
  let tr1 := fst (Trader.close_position default_config 1 (fresh_trader 10000) position 0.6 MANUAL) in
  Trader._daily_pnl tr1 = 0 + Trader.pnl_of position 0.6
  /\ Trader._paper_balance tr1 = 10000 + 100 * 0.6
  /\ Trader._paper_positions tr1 = [].
Proof.
  intros position tr1.
  destruct (close_position_not_guarded default_config 1 (fresh_trader 10000) position 0.6
              MANUAL eq_refl eq_refl) as (H1 & _ & H3 & H4 & _).
  split; [exact H1 | split; [exact H3 | exact H4]].
Defined.

(** ** The breakeven scenario *)

Lemma pnl_of_buy position exit_price :
  Trader.is_buy (Position.side position) = true ->
  Trader.pnl_of position exit_price
  = (exit_price - Position.price position) * Position.size position.
Proof. intros H. unfold Trader.pnl_of. rewrite H. reflexivity. Qed.

(** C9, as the code has it.  A paper BUY at 0.50 under the default
    configuration has its take-profit level at 0.65 and its stop at 0.425.
    Over the monitor prices 0.50, 0.60, 0.55 the breakeven triggers at 0.60
    and moves the stop to the entry price.  With the trailing stop switched
    off the stop stays at 0.50, and a price of 0.50 closes the position with
    [BREAKEVEN_STOP] at 0.50, for a P&L of zero.  With the default
    configuration, where the trailing stop is on, the same tick raises the
    stop to 0.54 = 0.60 * (1 - 0.10), and a price of 0.50 closes the position
    with [TRAILING_STOP] at 0.54, for a P&L of 0.04 per share. *)
Theorem breakeven_scenario size prediction :
  let order := sample_order default_config size prediction in
  let no_trailing := without_trailing_stop default_config in
  (Position.price order == 0.50
   /\ Position.take_profit_price order == 0.65
   /\ Position.stop_loss_price order == 0.425
   /\ Position.breakeven_trigger_price order == 0.55)
  /\ (Position.breakeven_triggered (after_ticks no_trailing order [0.50]) = false
      /\ Position.breakeven_triggered (after_ticks no_trailing order [0.50; 0.60]) = true
      /\ Position.stop_loss_price (after_ticks no_trailing order [0.50; 0.60]) == 0.50
      /\ Position.stop_loss_price (after_ticks no_trailing order [0.50; 0.60; 0.55]) == 0.50
      /\ close_item_at no_trailing (after_ticks no_trailing order [0.50; 0.60]) 0.55 = None
      /\ exists item,
           close_item_at no_trailing (after_ticks no_trailing order [0.50; 0.60; 0.55]) 0.50
             = Some item
           /\ CloseItem.reason item = BREAKEVEN_STOP
           /\ CloseItem.current_price item == 0.50
           /\ Trader.pnl_of (CloseItem.position item) (CloseItem.current_price item) == 0)
  /\ (Position.breakeven_triggered (after_ticks default_config order [0.50]) = false
      /\ Position.breakeven_triggered (after_ticks default_config order [0.50; 0.60]) = true
      /\ Position.trailing_stop_active (after_ticks default_config order [0.50; 0.60]) = true
      /\ Position.stop_loss_price (after_ticks default_config order [0.50; 0.60]) == 0.54
      /\ Position.stop_loss_price (after_ticks default_config order [0.50; 0.60; 0.55]) == 0.54
      /\ close_item_at default_config (after_ticks default_config order [0.50; 0.60]) 0.55
         = None
      /\ exists item,
           close_item_at default_config
             (after_ticks default_config order [0.50; 0.60; 0.55]) 0.50 = Some item
           /\ CloseItem.reason item = TRAILING_STOP
           /\ CloseItem.current_price item == 0.54
           /\ Trader.pnl_of (CloseItem.position item) (CloseItem.current_price item)
              == 0.04 * size).
Proof.
  intros order no_trailing. split; [| split].
  - repeat split.
  - do 5 (split; [reflexivity |]).
    destruct (close_item_at no_trailing _ 0.50) as [item |] eqn:H;
      vm_compute in H; [| discriminate H].
    injection H as <-. eexists. split; [reflexivity |].
    split; [reflexivity | split; [reflexivity |]].
    rewrite pnl_of_buy by reflexivity. cbn. lra.
  - do 6 (split; [reflexivity |]).
    destruct (close_item_at default_config _ 0.50) as [item |] eqn:H;
      vm_compute in H; [| discriminate H].
    injection H as <-. eexists. split; [reflexivity |].
    split; [reflexivity | split; [reflexivity |]].
    rewrite pnl_of_buy by reflexivity. cbn. lra.
Qed.

(** C9 as stated fails.  Under the default configuration a BUY of 100 shares
    at 0.50, monitored at 0.50, 0.60, 0.55 and then 0.50, is closed with
    [TRAILING_STOP] at 0.54 for a P&L of 4, not with [BREAKEVEN_STOP] for a P&L
    of zero: after the breakeven tick the stop is at 0.54, not at the entry
    price. *)
Lemma breakeven_scenario_counterexample :
  let order := sample_order default_config 100 "" in
  let pos := after_ticks default_config order [0.50; 0.60; 0.55] in
  ~ Position.stop_loss_price (after_ticks default_config order [0.50; 0.60]) == 0.50
  /\ exists item,
       close_item_at default_config pos 0.50 = Some item
       /\ CloseItem.reason item = TRAILING_STOP
       /\ CloseItem.reason item <> BREAKEVEN_STOP
       /\ Trader.pnl_of (CloseItem.position item) (CloseItem.current_price item) == 4
       /\ ~ Trader.pnl_of (CloseItem.position item) (CloseItem.current_price item) == 0.
Proof.
  cbv zeta. split; [vm_compute; discriminate |].
  eexists. split; [vm_compute; reflexivity |].
  split; [reflexivity | split; [discriminate | split]].
  - reflexivity.
  - vm_compute. discriminate.
Qed.

(** ** Restoring the cooldown map *)

Lemma load_step_restored cutoff trades m trade :
  restored_from cutoff trades m ->
  restored_from cutoff (trades ++ [trade]) (Executor.load_step cutoff m trade).
Proof.
  intros Hm token. specialize (Hm token). unfold Executor.load_step.
  set (tok := ClosedTrade.token_id trade). set (time := ClosedTrade.exit_time trade).
  assert (Hin : forall x, x ∈ trades ++ [trade] <-> x ∈ trades \/ x = trade).
  { intros x. rewrite elem_of_app, list_elem_of_singleton. reflexivity. }
  destruct (bool_decide (tok <> "")) eqn:Hname; cbn [andb].
  2: { apply bool_decide_eq_false_1 in Hname.
       assert (Hempty : tok = "") by (destruct (decide (tok = "")); [assumption | contradiction]).
       destruct (m !! token) as [t |] eqn:Hl.
       - destruct Hm as (Hne & Hcut & (w & Hw & Hwt & Hwe) & Hmax).
         split; [exact Hne |]. split; [exact Hcut |]. split.
         + exists w. rewrite Hin. auto.
         + intros x Hx Hxt. apply Hin in Hx as [Hx | ->]; [auto |].
           fold tok in Hxt. congruence.
       - intros x Hx Hxt. apply Hin in Hx as [Hx | ->]; [auto |].
         left. fold tok in Hxt. congruence. }
  apply bool_decide_eq_true_1 in Hname.
  destruct (bool_decide (cutoff < time)%Z) eqn:Hrecent.
  2: { apply bool_decide_eq_false_1 in Hrecent.
       destruct (m !! token) as [t |] eqn:Hl.
       - destruct Hm as (Hne & Hcut & (w & Hw & Hwt & Hwe) & Hmax).
         split; [exact Hne |]. split; [exact Hcut |]. split.
         + exists w. rewrite Hin. auto.
         + intros x Hx Hxt. apply Hin in Hx as [Hx | ->]; [auto |]. fold time. lia.
       - intros x Hx Hxt. apply Hin in Hx as [Hx | ->]; [auto |].
         right. fold time. lia. }
  apply bool_decide_eq_true_1 in Hrecent.
  destruct (decide (token = tok)) as [-> | Hother].
  - destruct (m !! tok) as [seen |] eqn:Hl.
    + destruct Hm as (Hne & Hcut & (w & Hw & Hwt & Hwe) & Hmax).
      case_decide as Hlater.
      * rewrite lookup_insert_eq.
        split; [exact Hne |]. split; [exact Hrecent |]. split.
        -- exists trade. rewrite Hin. auto.
        -- intros x Hx Hxt. apply Hin in Hx as [Hx | ->]; [| fold time; lia].
           specialize (Hmax x Hx Hxt). lia.
      * rewrite Hl.
        split; [exact Hne |]. split; [exact Hcut |]. split.
        -- exists w. rewrite Hin. auto.
        -- intros x Hx Hxt. apply Hin in Hx as [Hx | ->]; [auto |]. fold time. lia.
    + rewrite lookup_insert_eq.
      split; [exact Hname |]. split; [exact Hrecent |]. split.
      * exists trade. rewrite Hin. auto.
      * intros x Hx Hxt. apply Hin in Hx as [Hx | ->]; [| fold time; lia].
        destruct (Hm x Hx Hxt) as [Hempty | Hold]; [contradiction | lia].
  - assert (Hkeep : Executor.load_step cutoff m trade !! token = m !! token).
    { unfold Executor.load_step. fold tok time.
      rewrite bool_decide_eq_true_2 by exact Hname.
      rewrite bool_decide_eq_true_2 by exact Hrecent. cbn [andb].
      destruct (m !! tok); [case_decide |]; rewrite ?lookup_insert_ne by congruence;
        reflexivity. }
    unfold Executor.load_step in Hkeep. fold tok time in Hkeep.
    rewrite bool_decide_eq_true_2 in Hkeep by exact Hname.
    rewrite bool_decide_eq_true_2 in Hkeep by exact Hrecent. cbn [andb] in Hkeep.
    rewrite Hkeep.
    destruct (m !! token) as [t |] eqn:Hl.
    + destruct Hm as (Hne & Hcut & (w & Hw & Hwt & Hwe) & Hmax).
      split; [exact Hne |]. split; [exact Hcut |]. split.
      * exists w. rewrite Hin. auto.
      * intros x Hx Hxt. apply Hin in Hx as [Hx | ->]; [auto |].
        fold tok in Hxt. congruence.
    + intros x Hx Hxt. apply Hin in Hx as [Hx | ->]; [auto |].
      fold tok in Hxt. congruence.
Qed.

Lemma foldl_load_step_restored cutoff trades :
  restored_from cutoff trades (foldl (Executor.load_step cutoff) ∅ trades).
Proof.
  induction trades as [| trade trades IH] using rev_ind.
  - intros token. cbn. rewrite lookup_empty. intros x Hx. inversion Hx.
  - rewrite foldl_snoc. apply load_step_restored. exact IH.
Qed.

(** X1.  The cooldown map an executor starts with: for each named token with a
    trade among the hundred most recent closed trades that exited less than
    four hours ago, the latest exit time of its trades, and no other entry. *)
Theorem load_recent_trades_restored now d :
  restored_from (now - timedelta_hours 4)
    (Database.get_closed_trades 100 d)
    (Executor._load_recent_trades_from_db now d).
Proof. apply foldl_load_step_restored. Qed.

(** ** The monitor sweep, end to end *)

(** The simulated quote stays within [[0.01, 0.99]]. *)
Lemma simulated_price_range entry_price price_change :
  0.01 <= Trader.simulated_price entry_price price_change
  /\ Trader.simulated_price entry_price price_change <= 0.99.
Proof.
  unfold Trader.simulated_price.
  destruct (py_max_cases 0.01 (entry_price + price_change)) as [[-> ?] | [-> ?]];
    destruct (py_min_cases 0.99 0.01) as [[E1 ?] | [E1 ?]];
    destruct (py_min_cases 0.99 (entry_price + price_change)) as [[E2 ?] | [E2 ?]];
    rewrite ?E1, ?E2; split; lra.
Qed.

(** Two sweeps over the position of [traded_executor]: a draw of [+0.08]
    quotes 0.58, which triggers the breakeven and trails the stop to 0.522;
    a draw of [-0.05] then quotes 0.45 and the position is closed with
    [TRAILING_STOP] at 0.522, leaving no open position in memory or in
    storage. *)
Example two_sweeps_close_at_trailing_stop :
  let tr0 := Executor.trader traded_executor in
  let first := Trader.close_positions_at_limit default_config 2000 (fun _ => 0.08) tr0 in
  let tr1 := fst first in
  let second := Trader.close_positions_at_limit default_config 3000 (fun _ => -0.05) tr1 in
  let tr2 := fst second in
  snd first = Some []
  /\ map (fun p => Qred (Position.stop_loss_price p)) (Trader._paper_positions tr1)
     = [Qred 0.522]
  /\ map (fun r => Qred (Database.o_stop_loss_price r))
       (Database.open_positions (Trader.db tr1))
     = [Qred 0.522]
  /\ option_map (map (fun r => (CloseResult.close_reason r, Qred (CloseResult.exit_price r))))
       (snd second)
     = Some [(Some TRAILING_STOP, Qred 0.522)]
  /\ Trader._paper_positions tr2 = []
  /\ Database.open_positions (Trader.db tr2) = []
  /\ length (Database.closed_trades (Trader.db tr2)) = 1%nat.
Proof. vm_compute. repeat split. Qed.

(** * Further properties of the trading core *)

(** ** Placing paper orders *)

Lemma paper_order_refused cfg now tr token_id side size price question risk prediction tr' :
  Trader._paper_order cfg now tr token_id side size price question risk prediction
    = (tr', None) ->
  tr' = tr.
Proof.
  unfold Trader._paper_order.
  destruct (Trader.is_buy side && bool_decide _) eqn:E.
  - intros [= <-]. reflexivity.
  - destruct (Trader.is_buy side); discriminate.
Qed.

(** X2.  [place_order] is all-or-nothing: when it returns no order, whether
    for the position limit, the daily loss limit, a short paper balance, a
    missing exchange client or a failing exchange call, the trader is exactly
    as it was. *)
Theorem place_order_refused_unchanged cfg now tr token_id side size price question risk
    prediction tr' :
  Trader.place_order cfg now tr token_id side size price question risk prediction
    = (tr', None) ->
  tr' = tr.
Proof.
  unfold Trader.place_order.
  case_decide; [intros [= <-]; reflexivity |].
  case_decide; [intros [= <-]; reflexivity |].
  destruct (paper_trading cfg).
  - destruct (Trader._paper_order _ _ _ _ _ _ _ _ _ _) as [tr1 [p |]] eqn:E; cbn.
    + discriminate.
    + intros [= <-]. eapply paper_order_refused. exact E.
  - destruct (Trader._clob_client tr) as [client |]; [| intros [= <-]; reflexivity].
    destruct (client _ _ _ _); [discriminate | intros [= <-]; reflexivity].
Qed.

Lemma place_order_refused_unchanged_witness :
  Trader.place_order default_config 5 (fresh_trader 10000) "T" "BUY" 7000 0.5 "Q" 0 ""
    = (fresh_trader 10000, None).
Proof.
  destruct (Trader.place_order default_config 5 (fresh_trader 10000) "T" "BUY" 7000 0.5
              "Q" 0 "") as [tr' [o |]] eqn:E.
  - vm_compute in E. discriminate E.
  - rewrite (place_order_refused_unchanged _ _ _ _ _ _ _ _ _ _ _ E). reflexivity.
Defined.

(** X3.  A paper BUY that [place_order] accepts respected the position limit
    and the daily loss limit, never overdraws (the balance it leaves is not
    negative), debits exactly [size * price], appends exactly the new order to
    the open positions, persists it, and touches neither the P&L figures nor
    the closed trades. *)
Theorem paper_buy_effects cfg now tr token_id side size price question risk prediction
    tr' order :
  paper_trading cfg = true ->
  Trader.is_buy side = true ->
  Trader.place_order cfg now tr token_id side size price question risk prediction
    = (tr', Some order) ->
  let p := Trader.new_order cfg now token_id side size price question risk prediction in
  order = Trader.PaperOrder p
  /\ size * price <= Trader._paper_balance tr * max_position_pct cfg
  /\ ~ Trader._daily_pnl tr <= - (Trader._paper_balance tr * max_daily_loss_pct cfg)
  /\ size * price <= Trader._paper_balance tr
  /\ Trader._paper_balance tr' = Trader._paper_balance tr - size * price
  /\ 0 <= Trader._paper_balance tr'
  /\ Trader._paper_positions tr' = Trader._paper_positions tr ++ [p]
  /\ Trader._daily_pnl tr' = Trader._daily_pnl tr
  /\ Trader._total_pnl tr' = Trader._total_pnl tr
  /\ Trader._closed_trades tr' = Trader._closed_trades tr
  /\ Trader.db tr' = Database.save_open_position p (Trader.db tr).
Proof.
  intros Hpaper Hbuy. unfold Trader.place_order, Trader._paper_order.
  rewrite Hpaper, Hbuy. cbn [andb].
  case_decide as Hmax; [discriminate |].
  case_decide as Hloss; [discriminate |].
  case_bool_decide as Hbal; cbn; [discriminate |].
  intros [= <- <-]. cbn.
  repeat split; try reflexivity; try lra.
Qed.

Lemma paper_buy_effects_witness :
  exists tr',
    Trader.place_order default_config 5 (fresh_trader 10000) "T" "BUY" 100 0.5 "Q" 0 ""
      = (tr', Some (Trader.PaperOrder (Trader.new_order default_config 5 "T" "BUY" 100 0.5
                                         "Q" 0 "")))
    /\ Trader._paper_balance tr' = 10000 - 100 * 0.5
    /\ 0 <= Trader._paper_balance tr'.
Proof.
  destruct (Trader.place_order default_config 5 (fresh_trader 10000) "T" "BUY" 100 0.5
              "Q" 0 "") as [tr' [o |]] eqn:E; [| vm_compute in E; discriminate E].
  destruct (paper_buy_effects default_config 5 (fresh_trader 10000) "T" "BUY" 100 0.5
              "Q" 0 "" tr' o eq_refl eq_refl E) as (-> & _ & _ & _ & Hb & Hnn & _).
  exists tr'. split; [reflexivity | split; [exact Hb | exact Hnn]].
Defined.

(** X4.  A paper order whose side is not a buy is not checked against any
    holding: within the position and daily-loss limits it is always filled,
    credits [size * price] to the paper balance, and leaves the open positions
    and the storage as they were. *)
Theorem paper_sell_credits_without_position cfg now tr token_id side size price question
    risk prediction :
  paper_trading cfg = true ->
  Trader.is_buy side = false ->
  size * price <= Trader._paper_balance tr * max_position_pct cfg ->
  ~ Trader._daily_pnl tr <= - (Trader._paper_balance tr * max_daily_loss_pct cfg) ->
  exists tr',
    Trader.place_order cfg now tr token_id side size price question risk prediction
      = (tr', Some (Trader.PaperOrder
                      (Trader.new_order cfg now token_id side size price question risk
                         prediction)))
    /\ Trader._paper_balance tr' = Trader._paper_balance tr + size * price
    /\ Trader._paper_positions tr' = Trader._paper_positions tr
    /\ Trader.db tr' = Trader.db tr.
Proof.
  intros Hpaper Hsell Hmax Hloss. unfold Trader.place_order, Trader._paper_order.
  rewrite Hpaper, Hsell. cbn [andb].
  rewrite decide_False by lra. rewrite decide_False by exact Hloss. cbn.
  eexists. split; [reflexivity |]. cbn. auto.
Qed.

Lemma paper_sell_credits_without_position_witness :
  exists tr',
    Trader.place_order default_config 5 (fresh_trader 10000) "T" "SELL" 100 0.5 "Q" 0 ""
      = (tr', Some (Trader.PaperOrder
                      (Trader.new_order default_config 5 "T" "SELL" 100 0.5 "Q" 0 "")))
    /\ Trader._paper_balance tr' = 10000 + 100 * 0.5
    /\ Trader._paper_positions tr' = []
    /\ Trader.db tr' = Database.init_database.
Proof.
  apply (paper_sell_credits_without_position default_config 5 (fresh_trader 10000) "T"
           "SELL" 100 0.5 "Q" 0 ""); [reflexivity | reflexivity | | ]; cbn; lra.
Defined.

(** ** Opening and closing a position *)

Lemma position_eqb_refl p : Position.eqb p p = true.
Proof.
  unfold Position.eqb.
  repeat (apply andb_true_intro; split); apply bool_decide_eq_true_2; reflexivity.
Qed.

Lemma position_eqb_sym p q : Position.eqb p q = Position.eqb q p.
Proof.
  unfold Position.eqb.
  repeat (f_equal; [| apply bool_decide_ext; split; intros H; symmetry; exact H]).
  apply bool_decide_ext; split; intros H; symmetry; exact H.
Qed.

Lemma position_mem_snoc p l : Position.mem p (l ++ [p]) = true.
Proof.
  unfold Position.mem. rewrite existsb_app. cbn. rewrite position_eqb_refl.
  rewrite orb_true_l. apply orb_true_r.
Qed.

Lemma position_remove_length p l :
  Position.mem p l = true -> S (length (Position.remove p l)) = length l.
Proof.
  unfold Position.mem. induction l as [| q l IH]; cbn; [discriminate |].
  rewrite (position_eqb_sym q p).
  destruct (Position.eqb p q); cbn; [reflexivity |].
  intros H. rewrite (IH H). reflexivity.
Qed.

Lemma position_remove_snoc p l :
  Position.mem p l = false -> Position.remove p (l ++ [p]) = l.
Proof.
  unfold Position.mem. induction l as [| q l IH]; cbn.
  - rewrite position_eqb_refl. reflexivity.
  - rewrite (position_eqb_sym q p).
    destruct (Position.eqb p q); cbn; [discriminate |].
    intros H. rewrite (IH H). reflexivity.
Qed.

(** X5.  Opening a paper BUY and closing it again, at any price and for any
    reason: the cash ends at the starting cash plus the realised P&L
    [(exit - entry) * size], which is also what the daily and the total P&L
    gain; the number of open positions is as before (and so is the list, when
    no equal dict was in it); storage holds no open row under the order's id
    any more, and holds the closed trade. *)
Theorem paper_buy_then_close cfg now tr token_id side size price question risk prediction
    tr1 order later exit_price close_reason :
  paper_trading cfg = true ->
  Trader.is_buy side = true ->
  Trader.place_order cfg now tr token_id side size price question risk prediction
    = (tr1, Some order) ->
  let p := Trader.new_order cfg now token_id side size price question risk prediction in
  let pnl := (exit_price - price) * size in
  let tr2 := fst (Trader.close_position cfg later tr1 p exit_price close_reason) in
  Trader._paper_balance tr2 == Trader._paper_balance tr + pnl
  /\ Trader._daily_pnl tr2 = Trader._daily_pnl tr + pnl
  /\ Trader._total_pnl tr2 = Trader._total_pnl tr + pnl
  /\ length (Trader._paper_positions tr2) = length (Trader._paper_positions tr)
  /\ (Position.mem p (Trader._paper_positions tr) = false ->
        Trader._paper_positions tr2 = Trader._paper_positions tr)
  /\ Forall (fun r => Database.o_id r <> paper_id now)
       (Database.open_positions (Trader.db tr2))
  /\ (exists ct,
        Trader._closed_trades tr2 = Trader._closed_trades tr ++ [ct]
        /\ ClosedTrade.id ct = paper_id now
        /\ ClosedTrade.pnl ct = pnl
        /\ Database.closed_row ct ∈ Database.closed_trades (Trader.db tr2)).
Proof.
  intros Hpaper Hbuy Hplace p pnl tr2.
  assert (Hfacts :
    Trader._paper_balance tr1 = Trader._paper_balance tr - size * price
    /\ Trader._paper_positions tr1 = Trader._paper_positions tr ++ [p]
    /\ Trader._daily_pnl tr1 = Trader._daily_pnl tr
    /\ Trader._total_pnl tr1 = Trader._total_pnl tr
    /\ Trader._closed_trades tr1 = Trader._closed_trades tr).
  { revert Hplace. unfold Trader.place_order, Trader._paper_order.
    rewrite Hpaper, Hbuy. cbn [andb].
    case_decide; [discriminate |]. case_decide; [discriminate |].
    case_bool_decide; cbn; [discriminate |]. intros [= <- _]. cbn. auto. }
  destruct Hfacts as (Hb & Hp & Hd & Ht & Hc).
  assert (Hpnl : Trader.pnl_of p exit_price = pnl).
  { unfold Trader.pnl_of. cbn. rewrite Hbuy. reflexivity. }
  subst tr2. unfold Trader.close_position. rewrite Hpaper, Hpnl, Hp, Hb, Hd, Ht, Hc.
  rewrite position_mem_snoc. cbn.
  split; [unfold pnl; ring |]. split; [reflexivity |]. split; [reflexivity |].
  split; [| split; [| split]].
  - pose proof (position_remove_length p _ (position_mem_snoc p (Trader._paper_positions tr)))
      as Hlen.
    rewrite length_app in Hlen. cbn in Hlen. lia.
  - intros Hfresh. apply position_remove_snoc. exact Hfresh.
  - apply Forall_forall. intros r Hr. apply list_elem_of_filter in Hr as [Hne _].
    exact Hne.
  - eexists. split; [reflexivity |]. split; [reflexivity |]. split; [reflexivity |].
    unfold Database.insert_or_replace. apply elem_of_app. right.
    apply list_elem_of_singleton. reflexivity.
Qed.

Lemma paper_buy_then_close_witness :
  let placed :=
    Trader.place_order default_config 5 (fresh_trader 10000) "T" "BUY" 100 0.5 "Q" 0 "" in
  let p := Trader.new_order default_config 5 "T" "BUY" 100 0.5 "Q" 0 "" in
  let tr2 := fst (Trader.close_position default_config 9 (fst placed) p 0.6 MANUAL) in
  Trader._paper_balance tr2 == 10000 + (0.6 - 0.5) * 100
  /\ Trader._paper_positions tr2 = []
  /\ Database.open_positions (Trader.db tr2) = [].
Proof.
  intros placed p tr2.
  destruct (paper_buy_then_close default_config 5 (fresh_trader 10000) "T" "BUY" 100 0.5
              "Q" 0 "" (fst placed) (Trader.PaperOrder p) 9 0.6 MANUAL eq_refl eq_refl
              eq_refl) as (H1 & _ & _ & _ & H5 & _).
  split; [exact H1 | split; [apply H5; reflexivity | reflexivity]].
Defined.

(** X6.  A paper BUY with a positive notional, closed at the stop-loss level
    it was opened with, loses exactly [stop_loss_pct] of its notional, which
    is also the [risk_amount] the order records when none was supplied; closed
    at its take-profit level it gains exactly [take_profit_pct] of its
    notional.  The percentages [close_position] reports are
    [-100 * stop_loss_pct] and [100 * take_profit_pct]. *)
Theorem close_at_entry_levels cfg now later tr token_id side size price question risk
    prediction :
  Trader.is_buy side = true ->
  0 < size * price ->
  let p := Trader.new_order cfg now token_id side size price question risk prediction in
  let at_stop :=
    snd (Trader.close_position cfg later tr p (Position.stop_loss_price p) STOP_LOSS) in
  let at_target :=
    snd (Trader.close_position cfg later tr p (Position.take_profit_price p) TAKE_PROFIT) in
  CloseResult.pnl at_stop == - (size * price * stop_loss_pct cfg)
  /\ CloseResult.pnl_pct at_stop == - (100 * stop_loss_pct cfg)
  /\ CloseResult.pnl at_target == size * price * take_profit_pct cfg
  /\ CloseResult.pnl_pct at_target == 100 * take_profit_pct cfg
  /\ (risk <= 0 -> Position.risk_amount p == - CloseResult.pnl at_stop)
  /\ (~ risk <= 0 -> Position.risk_amount p = risk).
Proof.
  intros Hbuy Hpos p at_stop at_target.
  assert (Hne : ~ price == 0 /\ ~ size == 0).
  { split; intros E; rewrite E in Hpos; lra. }
  subst at_stop at_target. unfold Trader.close_position, Trader.pnl_of. cbn.
  rewrite Hbuy. rewrite !decide_True by exact Hpos.
  split; [ring |]. split; [field; exact Hne |]. split; [ring |].
  split; [field; exact Hne |]. split.
  - intros Hr. rewrite decide_True by exact Hr. ring.
  - intros Hr. rewrite decide_False by exact Hr. reflexivity.
Qed.

Lemma close_at_entry_levels_witness :
  let p := Trader.new_order default_config 5 "T" "BUY" 100 0.5 "Q" 0 "" in
  CloseResult.pnl
    (snd (Trader.close_position default_config 9 (fresh_trader 10000) p
            (Position.stop_loss_price p) STOP_LOSS))
  == - (100 * 0.5 * 0.15)
  /\ Position.risk_amount p == 7.5.
Proof.
  intros p.
  destruct (close_at_entry_levels default_config 5 9 (fresh_trader 10000) "T" "BUY" 100 0.5
              "Q" 0 "") as (H1 & _ & _ & _ & H5 & _); [reflexivity | reflexivity |].
  split; [exact H1 |]. fold p in H5. rewrite H5 by (cbn; lra). reflexivity.
Defined.

(** ** Evaluating and executing an opportunity *)

Lemma place_order_none cfg now tr token_id side size price question risk prediction tr' :
  Trader.place_order cfg now tr token_id side size price question risk prediction
    = (tr', None) ->
  tr' = tr.
Proof.
  unfold Trader.place_order.
  case_decide; [intros [= <-]; reflexivity |].
  case_decide; [intros [= <-]; reflexivity |].
  destruct (paper_trading cfg).
  - destruct (Trader._paper_order _ _ _ _ _ _ _ _ _ _) as [tr1 [p |]] eqn:E; cbn.
    + discriminate.
    + intros [= <-]. eapply paper_order_refused. exact E.
  - destruct (Trader._clob_client tr) as [client |]; [| intros [= <-]; reflexivity].
    destruct (client _ _ _ _); [discriminate | intros [= <-]; reflexivity].
Qed.

(** What an accepted order does to the trader: on the exchange nothing, on
    paper a BUY debits its value, which the balance covered, and appends the
    order. *)
Lemma place_order_buy cfg now tr token_id size price question risk prediction tr' order :
  Trader.place_order cfg now tr token_id "BUY" size price question risk prediction
    = (tr', Some order) ->
  (paper_trading cfg = false /\ tr' = tr)
  \/ (paper_trading cfg = true
      /\ order = Trader.PaperOrder
                   (Trader.new_order cfg now token_id "BUY" size price question risk
                      prediction)
      /\ size * price <= Trader._paper_balance tr
      /\ Trader._paper_balance tr' = Trader._paper_balance tr - size * price
      /\ Trader._paper_positions tr'
         = Trader._paper_positions tr
           ++ [Trader.new_order cfg now token_id "BUY" size price question risk prediction]).
Proof.
  unfold Trader.place_order.
  case_decide; [discriminate |]. case_decide; [discriminate |].
  destruct (paper_trading cfg).
  - unfold Trader._paper_order.
    replace (Trader.is_buy "BUY") with true by reflexivity. cbn [andb].
    case_bool_decide as Hbal; cbn; [discriminate |].
    intros [= <- <-]. right. cbn. repeat split; try reflexivity. lra.
  - destruct (Trader._clob_client tr) as [client |]; [| discriminate].
    destruct (client _ _ _ _); [| discriminate].
    intros [= <- _]. left. auto.
Qed.

Lemma holds_position_false positions token :
  Executor.holds_position positions token = false ->
  token ∉ Position.token_id <$> positions.
Proof.
  unfold Executor.holds_position. induction positions as [| p l IH]; cbn.
  - intros _ H. inversion H.
  - intros H. apply orb_false_iff in H as [Hp Hl].
    apply bool_decide_eq_false_1 in Hp.
    intros Hin. apply elem_of_cons in Hin as [-> | Hin]; [congruence |].
    exact (IH Hl Hin).
Qed.

Lemma holds_position_snoc positions p :
  Executor.holds_position (positions ++ [p]) (Position.token_id p) = true.
Proof.
  unfold Executor.holds_position. rewrite existsb_app. cbn.
  rewrite bool_decide_eq_true_2 by reflexivity. cbn. apply orb_true_r.
Qed.

Section Executing.

Context {NewsEvent : Type}.
Implicit Types (ex : Executor.t NewsEvent) (ev : NewsEvent) (m : MarketMatch).
Implicit Types (d : Executor.TradeDecision NewsEvent).

(** Whatever [evaluate_opportunity] returns is a decision on the match it
    was given, not executed and without a result. *)
Lemma evaluate_not_executed cfg now ex ev m d :
  Executor.evaluate_opportunity cfg now ex ev m = Some d ->
  Executor.executed d = false /\ Executor.result d = None /\ Executor.match_ d = m.
Proof.
  unfold Executor.evaluate_opportunity.
  destruct (Executor.holds_position _ _); [intros [= <-]; auto |].
  destruct (Executor.on_cooldown _ _ _); [intros [= <-]; auto |].
  destruct (decide (edge m < _)); [intros [= <-]; auto |].
  destruct (decide (confidence m < _)); [intros [= <-]; auto |].
  destruct (decide (liquidity m < _)); [intros [= <-]; auto |].
  destruct (decide (_ <= - _)); [intros [= <-]; auto |].
  destruct (decide (_ <= _)%Z); [intros [= <-]; auto |].
  destruct (fdiv _ _); cbn [mbind option_bind]; [| discriminate].
  destruct (decide (_ <= 0)); intros [= <-]; auto.
Qed.

(** What [evaluate_opportunity] established when it approves. *)
Lemma evaluate_approved cfg now ex ev m d :
  Executor.evaluate_opportunity cfg now ex ev m = Some d ->
  Executor.approved d = true ->
  let tr := Executor.trader ex in
  let equity := Trader.get_balance cfg tr in
  let raw :=
    equity * risk_per_trade_pct cfg / stop_loss_pct cfg
    * RiskManager.edge_multiplier (edge m) * confidence m in
  Executor.holds_position (Trader.get_positions cfg tr) (recommended_token m) = false
  /\ Executor.on_cooldown now ex (recommended_token m) = None
  /\ min_edge_to_trade cfg <= edge m
  /\ 0.6 <= confidence m
  /\ 1000 <= liquidity m
  /\ - (equity * max_daily_loss_pct cfg) < Trader.get_daily_pnl tr
  /\ (Z.of_nat (length (Trader.get_positions cfg tr)) < max_concurrent_positions cfg)%Z
  /\ ~ stop_loss_pct cfg == 0
  /\ 0 < match_price m
  /\ d = {| Executor.event := ev;
            Executor.match_ := m;
            Executor.size_usd := py_min raw (equity * max_position_pct cfg);
            Executor.size_shares :=
              py_min raw (equity * max_position_pct cfg) / match_price m;
            Executor.risk_amount := equity * risk_per_trade_pct cfg;
            Executor.approved := true;
            Executor.reason :=
              Sized (edge m) (equity * risk_per_trade_pct cfg)
                (py_min raw (equity * max_position_pct cfg));
            Executor.executed := false;
            Executor.result := None |}.
Proof.
  unfold Executor.evaluate_opportunity, match_price.
  destruct (Executor.holds_position _ _) eqn:Hheld;
    [intros [= <-] H; cbn in H; discriminate H |].
  destruct (Executor.on_cooldown _ _ _) eqn:Hcool;
    [intros [= <-] H; cbn in H; discriminate H |].
  case_decide as Hedge; [intros [= <-] H; cbn in H; discriminate H |].
  case_decide as Hconf; [intros [= <-] H; cbn in H; discriminate H |].
  case_decide as Hliq; [intros [= <-] H; cbn in H; discriminate H |].
  case_decide as Hloss; [intros [= <-] H; cbn in H; discriminate H |].
  case_decide as Hmaxp; [intros [= <-] H; cbn in H; discriminate H |].
  unfold fdiv. destruct (decide (stop_loss_pct cfg == 0)) as [Hsl | Hsl];
    cbn [mbind option_bind]; [discriminate |].
  match goal with
  | |- context [decide (?p <= 0)] => destruct (decide (p <= 0)) as [Hprice | Hprice]
  end; [intros [= <-] H; cbn in H; discriminate H |].
  intros [= <-] _. cbn.
  split; [reflexivity |]. split; [reflexivity |].
  split; [lra |]. split; [lra |]. split; [lra |]. split; [lra |]. split; [lia |].
  split; [exact Hsl |]. split; [lra |]. reflexivity.
Qed.

(** X7.  An approval is sound: when [evaluate_opportunity] approves, no open
    position is on the token, the token is off cooldown, the edge, confidence
    and liquidity reach their minima, the daily loss is above its limit, a
    position slot is free and the price is positive; the size in dollars is
    within [max_position_pct] of the equity, the size in shares times the
    price gives back the size in dollars, the risk amount is
    [risk_per_trade_pct] of the equity, and nothing is marked executed. *)
Theorem approved_decision_sound cfg now ex ev m d :
  Executor.evaluate_opportunity cfg now ex ev m = Some d ->
  Executor.approved d = true ->
  let tr := Executor.trader ex in
  let equity := Trader.get_balance cfg tr in
  Executor.holds_position (Trader.get_positions cfg tr) (recommended_token m) = false
  /\ Executor.on_cooldown now ex (recommended_token m) = None
  /\ min_edge_to_trade cfg <= edge m
  /\ 0.6 <= confidence m
  /\ 1000 <= liquidity m
  /\ - (equity * max_daily_loss_pct cfg) < Trader.get_daily_pnl tr
  /\ (Z.of_nat (length (Trader.get_positions cfg tr)) < max_concurrent_positions cfg)%Z
  /\ 0 < match_price m
  /\ Executor.size_usd d <= equity * max_position_pct cfg
  /\ Executor.size_shares d * match_price m == Executor.size_usd d
  /\ Executor.risk_amount d = equity * risk_per_trade_pct cfg
  /\ Executor.match_ d = m
  /\ Executor.executed d = false
  /\ Executor.result d = None.
Proof.
  intros Heval Happ tr equity.
  destruct (evaluate_approved cfg now ex ev m d Heval Happ)
    as (H1 & H2 & H3 & H4 & H5 & H6 & H7 & _ & H9 & ->).
  cbn. repeat (split; [assumption |]).
  split; [apply py_min_le_r |].
  split; [field; lra |]. auto.
Qed.

(** X8.  The two sizing sites agree.  With a non-negative equity, a positive
    [stop_loss_pct] and non-negative [risk_per_trade_pct], [max_position_pct]
    and [min_edge_to_trade], the size of an approved decision is not negative
    and equals what [RiskManager.suggest_position_size] returns for the same
    edge and confidence on the same trader (at any time, from any state of the
    manager). *)
Theorem executor_size_matches_risk_manager cfg now ex ev m d now' rm :
  Executor.evaluate_opportunity cfg now ex ev m = Some d ->
  Executor.approved d = true ->
  ~ starting_capital cfg == 0 ->
  0 <= Trader.get_balance cfg (Executor.trader ex) ->
  0 < stop_loss_pct cfg ->
  0 <= risk_per_trade_pct cfg ->
  0 <= max_position_pct cfg ->
  0 <= min_edge_to_trade cfg ->
  0 <= Executor.size_usd d
  /\ exists size,
       snd (RiskManager.suggest_position_size cfg now' (Executor.trader ex) rm (edge m)
              (confidence m)) = Some size
       /\ size == Executor.size_usd d.
Proof.
  intros Heval Happ Hcap Heq Hsl Hrisk Hmax Hmin.
  destruct (evaluate_approved cfg now ex ev m d Heval Happ)
    as (_ & _ & Hedge & Hconf & _ & _ & _ & _ & _ & ->).
  cbn.
  set (equity := Trader.get_balance cfg (Executor.trader ex)) in *.
  set (raw := equity * risk_per_trade_pct cfg / stop_loss_pct cfg
              * RiskManager.edge_multiplier (edge m) * confidence m).
  set (cap := equity * max_position_pct cfg).
  assert (Hmult : 0 <= RiskManager.edge_multiplier (edge m)).
  { unfold RiskManager.edge_multiplier.
    destruct (py_min_cases 1.2 (0.8 + edge m)) as [[-> ?] | [-> ?]]; lra. }
  assert (Hraw : 0 <= raw).
  { unfold raw. apply Qmult_le_0_compat; [| lra].
    apply Qmult_le_0_compat; [| exact Hmult].
    unfold Qdiv. apply Qmult_le_0_compat.
    - apply Qmult_le_0_compat; assumption.
    - apply Qlt_le_weak, Qinv_lt_0_compat. exact Hsl. }
  assert (Hcap0 : 0 <= cap) by (unfold cap; apply Qmult_le_0_compat; assumption).
  assert (Hsize : 0 <= py_min raw cap).
  { destruct (py_min_cases raw cap) as [[-> ?] | [-> ?]]; assumption. }
  split; [exact Hsize |].
  unfold RiskManager.suggest_position_size.
  destruct (check_status_returns cfg now' (Executor.trader ex) rm Hcap)
    as (rm' & status & -> & Hbal).
  cbn. rewrite Hbal.
  unfold RiskManager.size_for_equity, RiskManager.raw_size_of, RiskManager.base_size_of,
    RiskManager.risk_amount_of.
  rewrite fdiv_Some by lra. cbn [mbind option_bind].
  fold equity. fold raw. fold cap.
  eexists. split; [reflexivity |].
  destruct (py_max_cases 0 (py_min raw cap)) as [[-> ?] | [-> ?]]; lra.
Qed.

(** The successful path of [execute_trade], read backwards. *)
Lemma execute_trade_true cfg now ex d ex' d' :
  Executor.execute_trade cfg now ex d = (ex', d', true) ->
  exists tr' order,
    Trader.place_order cfg now (Executor.trader ex) (recommended_token (Executor.match_ d))
      "BUY" (Executor.size_shares d) (match_price (Executor.match_ d))
      (question (Executor.match_ d)) (Executor.risk_amount d) ""
    = (tr', Some order)
    /\ Executor.approved d = true
    /\ auto_trade_enabled cfg = true
    /\ d' = {| Executor.event := Executor.event d;
               Executor.match_ := Executor.match_ d;
               Executor.size_usd := Executor.size_usd d;
               Executor.size_shares := Executor.size_shares d;
               Executor.risk_amount := Executor.risk_amount d;
               Executor.approved := Executor.approved d;
               Executor.reason := Executor.reason d;
               Executor.executed := true;
               Executor.result := Some order |}
    /\ ex' = {| Executor.trader := tr';
                Executor._executed_trades := Executor._executed_trades ex ++ [d'];
                Executor._stats := {|
                  Executor.trades_executed :=
                    (Executor.trades_executed (Executor._stats ex) + 1)%Z;
                  Executor.trades_won := Executor.trades_won (Executor._stats ex);
                  Executor.trades_lost := Executor.trades_lost (Executor._stats ex);
                  Executor.total_profit := Executor.total_profit (Executor._stats ex);
                  Executor.total_volume :=
                    Executor.total_volume (Executor._stats ex) + Executor.size_usd d;
                  Executor.best_trade := Executor.best_trade (Executor._stats ex);
                  Executor.worst_trade := Executor.worst_trade (Executor._stats ex) |};
                Executor._traded_markets :=
                  <[recommended_token (Executor.match_ d) := now]>
                    (Executor._traded_markets ex) |}.
Proof.
  unfold Executor.execute_trade, match_price.
  destruct (Executor.approved d) eqn:Happ; cbn [negb]; [| discriminate].
  destruct (auto_trade_enabled cfg) eqn:Hauto; cbn [negb]; [| discriminate].
  destruct (Trader.place_order _ _ _ _ _ _ _ _ _ _) as [tr' [order |]] eqn:Hplace;
    [| discriminate].
  intros [= <- <-]. exists tr', order. auto.
Qed.

(** The other paths leave the executor alone. *)
Lemma execute_trade_false cfg now ex d ex' d' :
  Executor.execute_trade cfg now ex d = (ex', d', false) ->
  ex' = ex.
Proof.
  unfold Executor.execute_trade.
  destruct (Executor.approved d); cbn [negb]; [| intros [= <- _]; reflexivity].
  destruct (auto_trade_enabled cfg); cbn [negb]; [| intros [= <- _]; reflexivity].
  destruct (Trader.place_order _ _ _ _ _ _ _ _ _ _) as [tr' [order |]] eqn:Hplace;
    [discriminate |].
  apply place_order_none in Hplace. subst tr'.
  intros [= <- _]. destruct ex; reflexivity.
Qed.

(** X9.  What a successful [execute_trade] leaves behind: the decision was
    approved and auto-trading is on; the decision comes back marked executed
    with the order as result and is appended to the executed trades; the
    counters grow by one trade and by the decision's volume; the token is
    recorded as traded at the time of the call, hence on cooldown for the next
    four hours, and no other token's record changes.  On paper the order is a
    BUY of the decision's shares at the match's price with the decision's risk
    amount, appended to the open positions and paid from the balance. *)
Theorem execute_trade_success cfg now ex d ex' d' :
  Executor.execute_trade cfg now ex d = (ex', d', true) ->
  let m := Executor.match_ d in
  let token := recommended_token m in
  Executor.approved d = true
  /\ auto_trade_enabled cfg = true
  /\ Executor.executed d' = true
  /\ (exists order, Executor.result d' = Some order)
  /\ Executor.reason d' = Executor.reason d
  /\ Executor._executed_trades ex' = Executor._executed_trades ex ++ [d']
  /\ Executor.trades_executed (Executor._stats ex')
     = (Executor.trades_executed (Executor._stats ex) + 1)%Z
  /\ Executor.total_volume (Executor._stats ex')
     = Executor.total_volume (Executor._stats ex) + Executor.size_usd d
  /\ Executor._traded_markets ex' !! token = Some now
  /\ (forall other, other <> token ->
        Executor._traded_markets ex' !! other = Executor._traded_markets ex !! other)
  /\ (forall later, (later < now + timedelta_hours 4)%Z ->
        Executor.on_cooldown later ex' token = Some (now + timedelta_hours 4 - later)%Z)
  /\ (paper_trading cfg = true ->
      let p :=
        Trader.new_order cfg now token "BUY" (Executor.size_shares d) (match_price m)
          (question m) (Executor.risk_amount d) "" in
      Executor.result d' = Some (Trader.PaperOrder p)
      /\ Trader._paper_positions (Executor.trader ex')
         = Trader._paper_positions (Executor.trader ex) ++ [p]
      /\ Trader._paper_balance (Executor.trader ex')
         = Trader._paper_balance (Executor.trader ex)
           - Executor.size_shares d * match_price m
      /\ 0 <= Trader._paper_balance (Executor.trader ex')).
Proof.
  intros Hrun m token.
  destruct (execute_trade_true cfg now ex d ex' d' Hrun)
    as (tr' & order & Hplace & Happ & Hauto & Hd' & Hex').
  fold m in Hplace, Hd', Hex'. fold token in Hplace, Hex'.
  split; [exact Happ |]. split; [exact Hauto |].
  split; [rewrite Hd'; reflexivity |]. split; [rewrite Hd'; cbn; eauto |].
  split; [rewrite Hd'; reflexivity |].
  split; [rewrite Hex'; reflexivity |]. split; [rewrite Hex'; reflexivity |].
  split; [rewrite Hex'; reflexivity |].
  split; [rewrite Hex'; apply lookup_insert_eq |].
  split; [intros other Hne; rewrite Hex'; apply lookup_insert_ne; congruence |].
  split.
  - intros later Hlater. unfold Executor.on_cooldown, Executor.MARKET_COOLDOWN_HOURS.
    rewrite Hex'. cbn. rewrite lookup_insert_eq.
    rewrite decide_True by exact Hlater. reflexivity.
  - intros Hpaper.
    destruct (place_order_buy _ _ _ _ _ _ _ _ _ _ _ Hplace)
      as [[Hlive _] | (_ & -> & Hcover & Hbal & Hpos)]; [congruence |].
    rewrite Hex', Hd'. cbn.
    split; [reflexivity |]. split; [exact Hpos |]. split; [exact Hbal |].
    rewrite Hbal. lra.
Qed.

(** X10.  No double entry on paper.  Once [process_opportunity] has executed a
    trade, any later opportunity that recommends the same token (whatever its
    event, side, prices, edge or confidence, and whether or not the cooldown
    has run out) is turned down with the open-position reason, and the
    executor stays as it is. *)
Theorem no_double_entry cfg now later ex ev ev' m m' ex1 d1 :
  paper_trading cfg = true ->
  Executor.process_opportunity cfg now ex ev m = (ex1, Some d1) ->
  Executor.executed d1 = true ->
  recommended_token m' = recommended_token m ->
  exists d2,
    Executor.process_opportunity cfg later ex1 ev' m' = (ex1, Some d2)
    /\ Executor.approved d2 = false
    /\ Executor.executed d2 = false
    /\ Executor.reason d2 = AlreadyOpenPosition.
Proof.
  intros Hpaper Hproc Hexec Htoken.
  assert (Hheld :
    Executor.holds_position (Trader.get_positions cfg (Executor.trader ex1))
      (recommended_token m') = true).
  { revert Hproc. unfold Executor.process_opportunity.
    destruct (Executor.evaluate_opportunity cfg now ex ev m) as [d |] eqn:Heval;
      [| discriminate].
    destruct (Executor.approved d) eqn:Happ; cbn [negb].
    - destruct (evaluate_approved cfg now ex ev m d Heval Happ)
        as (_ & _ & _ & _ & _ & _ & _ & _ & _ & Hd).
      assert (Hm : Executor.match_ d = m) by (rewrite Hd; reflexivity).
      assert (Hnot : Executor.executed d = false) by (rewrite Hd; reflexivity).
      clear Hd.
      destruct (Executor.execute_trade cfg now ex d) as [[ex' d'] ok] eqn:Hrun.
      intros [= <- <-].
      destruct ok.
      + destruct (execute_trade_true cfg now ex d ex' d' Hrun)
          as (tr' & order & Hplace & _ & _ & _ & Hex').
        destruct (place_order_buy _ _ _ _ _ _ _ _ _ _ _ Hplace)
          as [[Hlive _] | (_ & _ & _ & _ & Hpos)]; [congruence |].
        unfold Trader.get_positions. rewrite Hpaper, Hex'. cbn. rewrite Hpos, Htoken, Hm.
        apply (holds_position_snoc _
                 (Trader.new_order cfg now (recommended_token m) "BUY" _ _ _ _ "")).
      + exfalso. revert Hrun. unfold Executor.execute_trade.
        rewrite Happ. cbn [negb].
        destruct (auto_trade_enabled cfg); cbn [negb].
        * destruct (Trader.place_order _ _ _ _ _ _ _ _ _ _) as [tr' [order |]];
            [discriminate |].
          intros [= _ <-]. cbn in Hexec. congruence.
        * intros [= _ <-]. cbn in Hexec. congruence.
    - intros [= <- <-]. exfalso.
      destruct (evaluate_not_executed cfg now ex ev m d Heval) as (Hnot & _).
      congruence. }
  unfold Executor.process_opportunity, Executor.evaluate_opportunity.
  rewrite Hheld. cbn. eexists. split; [reflexivity |]. auto.
Qed.

(** X11.  A call of [execute_trade] that returns false changes nothing in the
    executor: the trader, the executed trades, the counters and the cooldown
    records are as before.  The decision keeps its sizes and is not marked
    executed by the call; only its reason may be rewritten (auto-trade
    disabled, or order placement failed). *)
Theorem execute_trade_failed_unchanged cfg now ex d ex' d' :
  Executor.execute_trade cfg now ex d = (ex', d', false) ->
  ex' = ex
  /\ Executor.executed d' = Executor.executed d
  /\ Executor.result d' = Executor.result d
  /\ Executor.size_usd d' = Executor.size_usd d
  /\ Executor.size_shares d' = Executor.size_shares d
  /\ ((Executor.approved d = false /\ d' = d)
      \/ (Executor.approved d = true /\ auto_trade_enabled cfg = false
          /\ Executor.reason d' = AutoTradeDisabled)
      \/ (Executor.approved d = true /\ auto_trade_enabled cfg = true
          /\ Executor.reason d' = OrderPlacementFailed)).
Proof.
  unfold Executor.execute_trade.
  destruct (Executor.approved d) eqn:Happ; cbn [negb].
  - destruct (auto_trade_enabled cfg) eqn:Hauto; cbn [negb].
    + destruct (Trader.place_order _ _ _ _ _ _ _ _ _ _) as [tr' [order |]] eqn:Hplace;
        [discriminate |].
      apply place_order_none in Hplace. subst tr'.
      intros [= <- <-]. cbn. split; [destruct ex; reflexivity |].
      repeat (split; [reflexivity |]). right. right. auto.
    + intros [= <- <-]. cbn. repeat (split; [reflexivity |]). right. left. auto.
  - intros [= <- <-]. repeat (split; [reflexivity |]). left. auto.
Qed.

(** X12.  [process_opportunity] keeps the book within its limits: it never
    takes the number of open positions above [max_concurrent_positions], it
    never opens a second position on a token that has one (no two open
    positions on the same token, if there were none), and on paper it never
    takes the balance below zero. *)
Theorem process_opportunity_keeps_limits cfg now ex ev m ex' r :
  Executor.process_opportunity cfg now ex ev m = (ex', r) ->
  let before := Trader.get_positions cfg (Executor.trader ex) in
  let after := Trader.get_positions cfg (Executor.trader ex') in
  ((Z.of_nat (length before) <= max_concurrent_positions cfg)%Z ->
   (Z.of_nat (length after) <= max_concurrent_positions cfg)%Z)
  /\ (NoDup (Position.token_id <$> before) -> NoDup (Position.token_id <$> after))
  /\ (paper_trading cfg = true ->
      0 <= Trader._paper_balance (Executor.trader ex) ->
      0 <= Trader._paper_balance (Executor.trader ex')).
Proof.
  unfold Executor.process_opportunity.
  destruct (Executor.evaluate_opportunity cfg now ex ev m) as [d |] eqn:Heval;
    [| intros [= <- <-]; cbn; auto].
  destruct (Executor.approved d) eqn:Happ; cbn [negb]; [| intros [= <- <-]; cbn; auto].
  destruct (evaluate_approved cfg now ex ev m d Heval Happ)
    as (Hheld & _ & _ & _ & _ & _ & Hslot & _ & _ & Hd).
  assert (Hm : Executor.match_ d = m) by (rewrite Hd; reflexivity). clear Hd.
  destruct (Executor.execute_trade cfg now ex d) as [[ex1 d1] ok] eqn:Hrun.
  intros [= <- <-].
  destruct ok.
  - destruct (execute_trade_true cfg now ex d ex1 d1 Hrun)
      as (tr' & order & Hplace & _ & _ & _ & Hex').
    rewrite Hm in Hplace.
    destruct (place_order_buy _ _ _ _ _ _ _ _ _ _ _ Hplace)
      as [[Hlive ->] | (Hpaper & _ & Hcover & Hbal & Hpos)].
    + rewrite Hex'. unfold Trader.get_positions. rewrite Hlive. cbn.
      split; [auto | split; [auto | discriminate]].
    + rewrite Hex'. unfold Trader.get_positions in *. rewrite Hpaper in *. cbn.
      rewrite Hpos, Hbal.
      split; [| split].
      * intros _. rewrite length_app. cbn. lia.
      * intros Hnd. rewrite fmap_app. cbn. apply NoDup_app.
        split; [exact Hnd |]. split; [| apply NoDup_singleton].
        intros t Ht Hin. apply list_elem_of_singleton in Hin. subst t.
        apply holds_position_false in Hheld. apply Hheld. exact Ht.
      * intros _ _. lra.
  - apply execute_trade_false in Hrun. subst ex1. cbn. auto.
Qed.

End Executing.

Lemma approved_decision_sound_witness :
  exists d,
    Executor.evaluate_opportunity default_config 1000 sample_executor tt sample_match = Some d
    /\ Executor.approved d = true
    /\ Executor.size_usd d <= 10000 * 0.30
    /\ Executor.size_shares d * 0.5 == Executor.size_usd d.
Proof.
  destruct (Executor.evaluate_opportunity default_config 1000 sample_executor tt sample_match)
    as [d |] eqn:E; [| vm_compute in E; discriminate E].
  assert (Happ : Executor.approved d = true).
  { pose proof E as E'. vm_compute in E'. injection E' as <-. reflexivity. }
  destruct (approved_decision_sound default_config 1000 sample_executor tt sample_match d
              E Happ) as (_ & _ & _ & _ & _ & _ & _ & _ & Hsize & Hshares & _).
  exists d. split; [reflexivity |]. split; [exact Happ |].
  split; [exact Hsize | exact Hshares].
Defined.

Lemma executor_size_matches_risk_manager_witness :
  exists d size,
    Executor.evaluate_opportunity default_config 1000 sample_executor tt sample_match = Some d
    /\ snd (RiskManager.suggest_position_size default_config 7 (fresh_trader 10000)
              RiskManager.init 0.4 0.8) = Some size
    /\ size == Executor.size_usd d
    /\ 0 <= Executor.size_usd d.
Proof.
  destruct (Executor.evaluate_opportunity default_config 1000 sample_executor tt sample_match)
    as [d |] eqn:E; [| vm_compute in E; discriminate E].
  assert (Happ : Executor.approved d = true).
  { pose proof E as E'. vm_compute in E'. injection E' as <-. reflexivity. }
  destruct (executor_size_matches_risk_manager default_config 1000 sample_executor tt
              sample_match d 7 RiskManager.init E Happ)
    as (Hnn & size & Hsize & Heq); try (cbn; lra).
  exists d, size. split; [reflexivity |]. split; [exact Hsize |]. split; [exact Heq | exact Hnn].
Defined.

Lemma execute_trade_success_witness :
  exists d ex' d',
    Executor.evaluate_opportunity default_config 1000 sample_executor tt sample_match = Some d
    /\ Executor.execute_trade default_config 1000 sample_executor d = (ex', d', true)
    /\ Executor._traded_markets ex' !! "T" = Some 1000%Z
    /\ Executor.executed d' = true
    /\ length (Trader._paper_positions (Executor.trader ex')) = 1%nat.
Proof.
  destruct (Executor.evaluate_opportunity default_config 1000 sample_executor tt sample_match)
    as [d |] eqn:E; [| vm_compute in E; discriminate E].
  assert (Hd : Executor.match_ d = sample_match).
  { pose proof E as E'. vm_compute in E'. injection E' as <-. reflexivity. }
  destruct (Executor.execute_trade default_config 1000 sample_executor d)
    as [[ex' d'] ok] eqn:Hrun.
  assert (Hok : ok = true).
  { pose proof E as E'. vm_compute in E'. injection E' as E'. subst d.
    vm_compute in Hrun. injection Hrun as _ _ <-. reflexivity. }
  subst ok.
  destruct (execute_trade_success default_config 1000 sample_executor d ex' d' Hrun)
    as (_ & _ & Hexec & _ & _ & _ & _ & _ & Hrec & _ & _ & Hpaper).
  destruct (Hpaper eq_refl) as (_ & Hpos & _).
  exists d, ex', d'. split; [reflexivity |]. split; [exact Hrun |].
  split; [rewrite Hd in Hrec; exact Hrec |]. split; [exact Hexec |].
  rewrite Hpos. reflexivity.
Defined.

Lemma no_double_entry_witness :
  exists d2,
    Executor.process_opportunity default_config 5000 traded_executor tt sample_match
      = (traded_executor, Some d2)
    /\ Executor.approved d2 = false
    /\ Executor.reason d2 = AlreadyOpenPosition.
Proof.
  destruct (Executor.process_opportunity default_config 1000 sample_executor tt sample_match)
    as [ex1 [d1 |]] eqn:E; [| vm_compute in E; discriminate E].
  assert (Hex : ex1 = traded_executor).
  { unfold traded_executor. rewrite E. reflexivity. }
  assert (Hexec : Executor.executed d1 = true).
  { pose proof E as E'. vm_compute in E'. injection E' as _ <-. reflexivity. }
  destruct (no_double_entry default_config 1000 5000 sample_executor tt tt sample_match
              sample_match ex1 d1 eq_refl E Hexec eq_refl) as (d2 & H1 & H2 & _ & H4).
  rewrite Hex in H1. exists d2. auto.
Defined.

Lemma execute_trade_failed_unchanged_witness :
  let small : Executor.t unit := Executor.init 0 (fresh_trader 100) in
  exists d d',
    Executor.evaluate_opportunity default_config 1000 sample_executor tt sample_match = Some d
    /\ Executor.execute_trade default_config 2000 small d = (small, d', false)
    /\ Executor.reason d' = OrderPlacementFailed.
Proof.
  intros small.
  destruct (Executor.evaluate_opportunity default_config 1000 sample_executor tt sample_match)
    as [d |] eqn:E; [| vm_compute in E; discriminate E].
  assert (Happ : Executor.approved d = true).
  { pose proof E as E'. vm_compute in E'. injection E' as <-. reflexivity. }
  destruct (Executor.execute_trade default_config 2000 small d) as [[ex' d'] ok] eqn:Hrun.
  assert (Hok : ok = false).
  { pose proof E as E'. vm_compute in E'. injection E' as E'. subst d.
    vm_compute in Hrun. injection Hrun as _ _ <-. reflexivity. }
  subst ok.
  destruct (execute_trade_failed_unchanged default_config 2000 small d ex' d' Hrun)
    as (-> & _ & _ & _ & _ & [[H _] | [(_ & H & _) | (_ & _ & H)]]);
    [congruence | discriminate H |].
  exists d, d'. split; [reflexivity |]. split; [exact Hrun | exact H].
Defined.

Lemma process_opportunity_keeps_limits_witness :
  (Z.of_nat (length (Trader._paper_positions (Executor.trader traded_executor))) <= 10)%Z
  /\ NoDup (Position.token_id <$> Trader._paper_positions (Executor.trader traded_executor))
  /\ 0 <= Trader._paper_balance (Executor.trader traded_executor).
Proof.
  destruct (Executor.process_opportunity default_config 1000 sample_executor tt sample_match)
    as [ex1 r] eqn:E.
  assert (Hex : ex1 = traded_executor).
  { unfold traded_executor. rewrite E. reflexivity. }
  destruct (process_opportunity_keeps_limits default_config 1000 sample_executor tt
              sample_match ex1 r E) as (H1 & H2 & H3).
  rewrite Hex in H1, H2, H3.
  split; [apply H1; cbn; lia |]. split; [apply H2; constructor |].
  apply H3; [reflexivity | cbn; lra].
Defined.

(** ** The risk gate *)

(** The figures of a status, and the state of the manager after an allowing
    answer. *)
Lemma check_status_figures cfg now tr rm rm' status :
  RiskManager.check_status cfg now tr rm = Some (rm', status) ->
  RiskStatus.balance status = Trader.get_balance cfg tr
  /\ RiskStatus.total_exposure status
     = fsum (Position.value <$> Trader.get_positions cfg tr)
  /\ (RiskStatus.is_trading_allowed status = true ->
        RiskManager._trading_paused rm' = false).
Proof.
  unfold RiskManager.check_status.
  destruct (fdiv _ _) as [ratio |]; cbn [mbind option_bind]; [| discriminate].
  destruct (RiskManager._trading_paused rm) eqn:Hp; cbn [andb];
    [destruct (RiskManager.pause_expired now rm) eqn:He; cbn [negb] | ].
  1, 3: repeat case_decide.
  all: intros [= <- <-]; cbn; split; [reflexivity |]; split; [reflexivity |];
    intros Hallow; first [discriminate Hallow | reflexivity | exact Hp].
Qed.

(** X13.  What [check_status] answers.  Trading is allowed exactly when the
    manager is not within a pause, the daily P&L is above minus
    [max_daily_loss_pct] of the balance, fewer than
    [max_concurrent_positions] are open, and the exposure is at most 80% of
    the balance.  An allowing answer carries no reason and leaves the manager
    unpaused; a manager that was not paused becomes paused only on the daily
    loss limit, and then for four hours from the call.  The figures reported
    are the trader's balance, daily P&L, number of open positions and the sum
    of their values; the exposure percentage is zero when the balance is not
    positive. *)
Theorem check_status_allowed_iff cfg now tr rm rm' status :
  RiskManager.check_status cfg now tr rm = Some (rm', status) ->
  let balance := Trader.get_balance cfg tr in
  let positions := Trader.get_positions cfg tr in
  (RiskStatus.is_trading_allowed status = true <->
     (RiskManager._trading_paused rm = false \/ RiskManager.pause_expired now rm = true)
     /\ - (balance * max_daily_loss_pct cfg) < Trader.get_daily_pnl tr
     /\ (Z.of_nat (length positions) < max_concurrent_positions cfg)%Z
     /\ RiskStatus.exposure_pct status <= 80)
  /\ (RiskStatus.is_trading_allowed status = true ->
        RiskStatus.reason status = NoReason
        /\ RiskManager._trading_paused rm' = false)
  /\ (RiskManager._trading_paused rm = false ->
      RiskManager._trading_paused rm' = true ->
        Trader.get_daily_pnl tr <= - (balance * max_daily_loss_pct cfg)
        /\ RiskManager._pause_until rm' = Some (now + timedelta_hours 4)%Z)
  /\ RiskStatus.balance status = balance
  /\ RiskStatus.daily_pnl status = Trader.get_daily_pnl tr
  /\ RiskStatus.open_positions status = length positions
  /\ RiskStatus.total_exposure status = fsum (Position.value <$> positions)
  /\ RiskStatus.exposure_pct status
     = (if decide (0 < balance) then fsum (Position.value <$> positions) / balance * 100
        else 0).
Proof.
  unfold RiskManager.check_status.
  destruct (fdiv _ _) as [ratio |]; cbn [mbind option_bind]; [| discriminate].
  set (exposure := if decide (0 < Trader.get_balance cfg tr) then _ else 0).
  cbn [RiskStatus.balance RiskStatus.open_positions RiskStatus.exposure_pct].
  destruct (RiskManager._trading_paused rm) eqn:Hp; cbn [andb];
    [destruct (RiskManager.pause_expired now rm) eqn:He; cbn [negb] | ].
  1, 3:
    destruct (decide (_ <= - _)) as [Hloss | Hloss];
      [| destruct (decide (_ <= _)%Z) as [Hmax | Hmax];
         [| destruct (decide (80 < exposure)) as [Hexp | Hexp]]].
  all: intros [= <- <-]; cbn.
  all: split;
    [split;
       [intros H; first [discriminate H | repeat split; first [now auto | lra | lia]]
       | intros ([Hu | Hu] & H1 & H2 & H3);
         first [discriminate Hu | reflexivity | exfalso; lra | exfalso; lia]]
    |].
  all: split; [intros H; try discriminate H; auto |].
  all: split; [intros H1 H2;
               first [discriminate H1 | discriminate H2 | congruence | split; [lra | reflexivity]] |].
  all: repeat split.
Qed.

Lemma check_status_allowed_iff_witness :
  exists rm' status,
    RiskManager.check_status default_config 7 (fresh_trader 10000) RiskManager.init
      = Some (rm', status)
    /\ RiskStatus.is_trading_allowed status = true
    /\ RiskStatus.reason status = NoReason
    /\ RiskManager._trading_paused rm' = false.
Proof.
  destruct (RiskManager.check_status default_config 7 (fresh_trader 10000) RiskManager.init)
    as [[rm' status] |] eqn:E; [| vm_compute in E; discriminate E].
  destruct (check_status_allowed_iff default_config 7 (fresh_trader 10000) RiskManager.init
              rm' status E) as (Hiff & Hallowed & _).
  assert (Ha : RiskStatus.is_trading_allowed status = true).
  { apply Hiff. split; [left; reflexivity |]. split; [cbn; lra |]. split; [cbn; lia |].
    pose proof E as E'. vm_compute in E'. injection E' as _ <-. cbn. lra. }
  destruct (Hallowed Ha) as [Hr Hu].
  exists rm', status. auto.
Defined.

(** X14.  A trade that [validate_trade] accepts: the risk gate allowed
    trading and left the manager unpaused, the size is within
    [max_position_pct] of the balance, the balance is not zero, and the
    exposure with the trade added is at most 80% of the balance. *)
Theorem validate_trade_ok_sound cfg now tr rm size_usd current_price rm' :
  RiskManager.validate_trade cfg now tr rm size_usd current_price = (rm', Some (true, RiskManager.OK)) ->
  let balance := Trader.get_balance cfg tr in
  let total_exposure := fsum (Position.value <$> Trader.get_positions cfg tr) in
  (exists status,
     RiskManager.check_status cfg now tr rm = Some (rm', status)
     /\ RiskStatus.is_trading_allowed status = true)
  /\ RiskManager._trading_paused rm' = false
  /\ size_usd <= balance * max_position_pct cfg
  /\ ~ balance == 0
  /\ (total_exposure + size_usd) / balance * 100 <= 80.
Proof.
  intros Hvalid balance total_exposure. revert Hvalid.
  unfold RiskManager.validate_trade.
  destruct (RiskManager.check_status cfg now tr rm) as [[rm1 status] |] eqn:Hcheck;
    [| discriminate].
  destruct (check_status_figures cfg now tr rm rm1 status Hcheck)
    as (Hbal & Hexp & Hallowed).
  destruct (RiskStatus.is_trading_allowed status) eqn:Ha; cbn [negb]; [| discriminate].
  rewrite Hbal, Hexp.
  case_decide as Hsize; [discriminate |].
  unfold fdiv. case_decide as Hzero; [discriminate |].
  case_decide as Hnew; [discriminate |].
  intros [= <-]. subst balance total_exposure.
  split; [eauto |]. split; [apply Hallowed; reflexivity |].
  split; [lra |]. split; [exact Hzero | lra].
Qed.

Lemma validate_trade_ok_sound_witness :
  RiskManager.validate_trade default_config 7 (fresh_trader 10000) RiskManager.init 3000 0.5
    = (RiskManager.init, Some (true, RiskManager.OK))
  /\ 3000 <= 10000 * 0.30
  /\ (0 + 3000) / 10000 * 100 <= 80.
Proof.
  assert (E : RiskManager.validate_trade default_config 7 (fresh_trader 10000)
                RiskManager.init 3000 0.5 = (RiskManager.init, Some (true, RiskManager.OK)))
    by (vm_compute; reflexivity).
  destruct (validate_trade_ok_sound default_config 7 (fresh_trader 10000) RiskManager.init
              3000 0.5 RiskManager.init E) as (_ & _ & H1 & _ & H2).
  split; [exact E | split; [exact H1 | exact H2]].
Defined.

(** X15.  The size [suggest_position_size] returns always passes the size
    check of [validate_trade]: with a non-negative balance and
    [max_position_pct], a later validation of that size on the same trader is
    never refused for exceeding the maximum position (it can still be refused
    by the risk gate or for the exposure). *)
Theorem suggested_size_passes_size_check cfg now tr rm edge confidence rm1 size
    now' current_price rm2 verdict :
  RiskManager.suggest_position_size cfg now tr rm edge confidence = (rm1, Some size) ->
  0 <= Trader.get_balance cfg tr ->
  0 <= max_position_pct cfg ->
  RiskManager.validate_trade cfg now' tr rm1 size current_price = (rm2, Some verdict) ->
  size <= Trader.get_balance cfg tr * max_position_pct cfg
  /\ forall size_usd max_position, snd verdict <> RiskManager.SizeExceedsMax size_usd max_position.
Proof.
  intros Hsuggest Hbal Hmax Hvalidate.
  assert (Hsize : size <= Trader.get_balance cfg tr * max_position_pct cfg).
  { revert Hsuggest. unfold RiskManager.suggest_position_size.
    destruct (RiskManager.check_status cfg now tr rm) as [[rm0 status] |] eqn:Hcheck;
      [| discriminate].
    destruct (check_status_figures cfg now tr rm rm0 status Hcheck) as (-> & _).
    unfold RiskManager.size_for_equity.
    destruct (RiskManager.raw_size_of _ _ _ _) as [raw |]; cbn [mbind option_bind];
      [| discriminate].
    intros [= _ <-].
    set (cap := Trader.get_balance cfg tr * max_position_pct cfg).
    assert (0 <= cap) by (apply Qmult_le_0_compat; assumption).
    pose proof (py_min_le_r raw cap).
    destruct (py_max_cases 0 (py_min raw cap)) as [[-> ?] | [-> ?]]; lra. }
  split; [exact Hsize |].
  revert Hvalidate. unfold RiskManager.validate_trade.
  destruct (RiskManager.check_status cfg now' tr rm1) as [[rm3 status] |] eqn:Hcheck;
    [| discriminate].
  destruct (check_status_figures cfg now' tr rm1 rm3 status Hcheck) as (-> & _).
  destruct (RiskStatus.is_trading_allowed status); cbn [negb];
    [| intros [= _ <-]; discriminate].
  rewrite decide_False by lra.
  destruct (fdiv _ _); [| discriminate].
  case_decide; intros [= _ <-]; discriminate.
Qed.

Lemma suggested_size_passes_size_check_witness :
  exists size,
    RiskManager.suggest_position_size default_config 7 (fresh_trader 10000) RiskManager.init
      0.4 0.8 = (RiskManager.init, Some size)
    /\ size <= 10000 * 0.30
    /\ RiskManager.validate_trade default_config 9 (fresh_trader 10000) RiskManager.init
         size 0.5 = (RiskManager.init, Some (true, RiskManager.OK)).
Proof.
  destruct (RiskManager.suggest_position_size default_config 7 (fresh_trader 10000)
              RiskManager.init 0.4 0.8) as [rm1 [size |]] eqn:E;
    [| vm_compute in E; discriminate E].
  assert (Hrm : rm1 = RiskManager.init).
  { pose proof E as E'. vm_compute in E'. injection E' as <- _. reflexivity. }
  subst rm1.
  assert (V : RiskManager.validate_trade default_config 9 (fresh_trader 10000)
                RiskManager.init size 0.5 = (RiskManager.init, Some (true, RiskManager.OK))).
  { pose proof E as E'. vm_compute in E'. injection E' as <-. vm_compute. reflexivity. }
  destruct (suggested_size_passes_size_check default_config 7 (fresh_trader 10000)
              RiskManager.init 0.4 0.8 RiskManager.init size 9 0.5 RiskManager.init
              (true, RiskManager.OK) E) as (H & _); [cbn; lra | cbn; lra | exact V |].
  exists size. split; [reflexivity | split; [exact H | exact V]].
Defined.

(** X16.  [validate_trade] divides by the balance.  When the risk gate allows
    trading although the balance is zero (no cash left, a positive daily P&L),
    a size that is not positive passes the size check and the exposure
    computation raises [ZeroDivisionError]; the size
    [suggest_position_size] returns on that trader is such a size. *)
Theorem validate_trade_zero_balance cfg now tr rm size_usd current_price rm' status :
  RiskManager.check_status cfg now tr rm = Some (rm', status) ->
  RiskStatus.is_trading_allowed status = true ->
  Trader.get_balance cfg tr == 0 ->
  size_usd <= 0 ->
  RiskManager.validate_trade cfg now tr rm size_usd current_price = (rm', None)
  /\ forall now' rm0 edge confidence size,
       snd (RiskManager.suggest_position_size cfg now' tr rm0 edge confidence) = Some size ->
       size <= 0.
Proof.
  intros Hcheck Ha Hzero Hsize.
  destruct (check_status_figures cfg now tr rm rm' status Hcheck) as (Hbal & _).
  split.
  - unfold RiskManager.validate_trade. rewrite Hcheck, Ha. cbn [negb]. rewrite Hbal.
    rewrite decide_False by (rewrite Hzero; lra).
    rewrite fdiv_None by exact Hzero. reflexivity.
  - intros now' rm0 edge confidence size. unfold RiskManager.suggest_position_size.
    destruct (RiskManager.check_status cfg now' tr rm0) as [[rm1 status1] |] eqn:Hcheck1;
      [| discriminate].
    destruct (check_status_figures cfg now' tr rm0 rm1 status1 Hcheck1) as (Hbal1 & _).
    cbn. rewrite Hbal1. unfold RiskManager.size_for_equity.
    destruct (RiskManager.raw_size_of _ _ _ _) as [raw |]; cbn [mbind option_bind];
      [| discriminate].
    intros [= <-].
    set (cap := Trader.get_balance cfg tr * max_position_pct cfg).
    assert (Hcap : cap == 0) by (unfold cap; rewrite Hzero; ring).
    pose proof (py_min_le_r raw cap).
    destruct (py_max_cases 0 (py_min raw cap)) as [[-> ?] | [-> ?]]; lra.
Qed.

Lemma validate_trade_zero_balance_witness :
  RiskManager.validate_trade default_config 7 (trader_with 0 5) RiskManager.init 0 0.5
    = (RiskManager.init, None).
Proof.
  destruct (RiskManager.check_status default_config 7 (trader_with 0 5) RiskManager.init)
    as [[rm' status] |] eqn:E; [| vm_compute in E; discriminate E].
  assert (Hrm : rm' = RiskManager.init /\ RiskStatus.is_trading_allowed status = true).
  { pose proof E as E'. vm_compute in E'. injection E' as <- <-. split; reflexivity. }
  destruct Hrm as [-> Ha].
  destruct (validate_trade_zero_balance default_config 7 (trader_with 0 5) RiskManager.init
              0 0.5 RiskManager.init status E Ha) as (H & _); [reflexivity | lra |].
  exact H.
Defined.

(** ** The stop over the life of a position *)

(** A tick assigns the four limit keys and nothing else. *)
Lemma tick_with_limits cfg pos price :
  exists hp sl be tr, tick cfg pos price = Position.with_limits pos hp sl be tr.
Proof.
  rewrite tick_unfold. destruct (Trader.pnl_pct_at pos price) as [pnl_pct |].
  - unfold Trader.update_limits. cbn. eauto.
  - exists (Position.highest_price pos), (Position.stop_loss_price pos),
      (Position.breakeven_triggered pos), (Position.trailing_stop_active pos).
    destruct pos; reflexivity.
Qed.

Lemma ticks_with_limits cfg prices : forall pos,
  Forall (fun q => exists hp sl be tr, q = Position.with_limits pos hp sl be tr)
    (ticks cfg pos prices).
Proof.
  induction prices as [| price rest IH]; intros pos; [constructor |].
  cbn [ticks]. destruct (tick_with_limits cfg pos price) as (hp & sl & be & tr & E).
  constructor; [eauto |].
  eapply Forall_impl; [apply IH |]. cbn.
  intros q (hp' & sl' & be' & tr' & ->). rewrite E. eauto.
Qed.

(** One tick, by the sub-state of the position before it. *)
Lemma tick_stop_state cfg pos price :
  let q := tick cfg pos price in
  (Position.breakeven_triggered pos = true ->
     Position.breakeven_triggered q = true
     /\ Position.stop_loss_price pos <= Position.stop_loss_price q)
  /\ (Position.breakeven_triggered pos = false ->
      Position.trailing_stop_active pos = false ->
        (Position.breakeven_triggered q = false
         /\ Position.trailing_stop_active q = false
         /\ Position.stop_loss_price q = Position.stop_loss_price pos)
        \/ (Position.breakeven_triggered q = true
            /\ Position.price pos <= Position.stop_loss_price q)).
Proof.
  intros q. subst q. rewrite tick_unfold.
  destruct (Trader.pnl_pct_at pos price) as [pnl_pct |].
  - unfold Trader.update_limits. cbn. split.
    + intros ->. cbn.
      destruct (Position.trailing_stop_active pos); cbn; [| split; [reflexivity | lra]].
      case_bool_decide; cbn; split; try reflexivity; lra.
    + intros -> ->. cbn.
      case_bool_decide; cbn; [| left; auto].
      right. split; [reflexivity |].
      destruct (use_trailing_stop cfg); cbn; [| lra].
      case_bool_decide; cbn; lra.
  - split.
    + intros H. split; [exact H | lra].
    + intros H1 H2. left. auto.
Qed.

(** X17.  The stop of a position that starts below breakeven, without
    trailing and with its stop at or below its entry price (as every order of
    [_paper_order] does for a non-negative [stop_loss_pct] and price): over
    any sequence of monitor ticks the entry price does not change, the stop
    is never below the initial stop, it is the initial stop until the
    breakeven triggers and at or above the entry price from then on.  For a
    BUY of a non-negative size a stop-out therefore never loses more than the
    initial stop distance times the size, and loses nothing once the
    breakeven has triggered. *)
Theorem stop_never_below_initial cfg pos prices :
  Position.breakeven_triggered pos = false ->
  Position.trailing_stop_active pos = false ->
  Position.stop_loss_price pos <= Position.price pos ->
  Forall (fun q =>
      Position.price q = Position.price pos
      /\ Position.stop_loss_price pos <= Position.stop_loss_price q
      /\ (Position.breakeven_triggered q = false ->
            Position.stop_loss_price q = Position.stop_loss_price pos)
      /\ (Position.breakeven_triggered q = true ->
            Position.price pos <= Position.stop_loss_price q)
      /\ (Trader.is_buy (Position.side pos) = true ->
          0 <= Position.size pos ->
            (Position.stop_loss_price pos - Position.price pos) * Position.size pos
              <= Trader.pnl_of q (Position.stop_loss_price q)
            /\ (Position.breakeven_triggered q = true ->
                  0 <= Trader.pnl_of q (Position.stop_loss_price q))))
    (ticks cfg pos prices).
Proof.
  intros Hbe Htr Hstop.
  set (entry := Position.price pos). set (stop := Position.stop_loss_price pos).
  assert (Hstate : forall prices q,
    ((Position.breakeven_triggered q = false
      /\ Position.trailing_stop_active q = false
      /\ Position.stop_loss_price q = stop)
     \/ (Position.breakeven_triggered q = true /\ entry <= Position.stop_loss_price q)) ->
    Position.price q = entry ->
    Forall (fun r =>
        (Position.breakeven_triggered r = false -> Position.stop_loss_price r = stop)
        /\ (Position.breakeven_triggered r = true -> entry <= Position.stop_loss_price r))
      (ticks cfg q prices)).
  { clear prices. induction prices as [| price rest IH]; intros q Hq Hprice; [constructor |].
    cbn [ticks].
    assert (Hnext :
      (Position.breakeven_triggered (tick cfg q price) = false
       /\ Position.trailing_stop_active (tick cfg q price) = false
       /\ Position.stop_loss_price (tick cfg q price) = stop)
      \/ (Position.breakeven_triggered (tick cfg q price) = true
          /\ entry <= Position.stop_loss_price (tick cfg q price))).
    { destruct (tick_stop_state cfg q price) as [Hafter Hbefore].
      destruct Hq as [(Hq1 & Hq2 & Hq3) | (Hq1 & Hq2)].
      - destruct (Hbefore Hq1 Hq2) as [(H1 & H2 & H3) | (H1 & H2)].
        + left. rewrite H3. auto.
        + right. rewrite <- Hprice. auto.
      - destruct (Hafter Hq1) as [H1 H2]. right. split; [exact H1 | lra]. }
    constructor.
    - destruct Hnext as [(H1 & _ & H3) | (H1 & H2)]; split; intros H; congruence || auto.
    - apply IH; [exact Hnext |].
      destruct (tick_with_limits cfg q price) as (hp & sl & be & tr & ->). exact Hprice. }
  specialize (Hstate prices pos (or_introl (conj Hbe (conj Htr eq_refl))) eq_refl).
  pose proof (ticks_with_limits cfg prices pos) as Hsame.
  rewrite Forall_forall in Hstate, Hsame. apply Forall_forall. intros q Hin.
  destruct (Hstate q Hin) as (Hfalse & Htrue).
  destruct (Hsame q Hin) as (hp & sl & be & tr & Hq).
  assert (Hprice : Position.price q = entry) by (rewrite Hq; reflexivity).
  assert (Hfloor : stop <= Position.stop_loss_price q).
  { destruct (Position.breakeven_triggered q) eqn:E.
    - specialize (Htrue eq_refl). unfold stop, entry in *. lra.
    - rewrite (Hfalse eq_refl). lra. }
  split; [exact Hprice |]. split; [exact Hfloor |].
  split; [exact Hfalse |]. split; [exact Htrue |].
  intros Hbuy Hsize. unfold Trader.pnl_of.
  replace (Position.side q) with (Position.side pos) by (rewrite Hq; reflexivity).
  replace (Position.size q) with (Position.size pos) by (rewrite Hq; reflexivity).
  rewrite Hbuy, Hprice. split.
  - apply Qmult_le_compat_r; [unfold stop, entry in *; lra | exact Hsize].
  - intros E. apply Qmult_le_0_compat; [specialize (Htrue E); lra | exact Hsize].
Qed.

Lemma stop_never_below_initial_witness :
  let pos := sample_order default_config 100 "" in
  Forall (fun q =>
      Position.stop_loss_price pos <= Position.stop_loss_price q
      /\ (Position.stop_loss_price pos - Position.price pos) * Position.size pos
           <= Trader.pnl_of q (Position.stop_loss_price q))
    (ticks default_config pos [0.48; 0.58; 0.6; 0.55]).
Proof.
  intros pos.
  eapply Forall_impl;
    [apply (stop_never_below_initial default_config pos [0.48; 0.58; 0.6; 0.55]);
       [reflexivity | reflexivity | cbn; lra] |].
  cbn beta. intros q (_ & H1 & _ & _ & H2).
  split; [exact H1 |]. apply H2; [reflexivity | cbn; lra].
Defined.

(** The highest price and the trailing stop after one tick. *)
Lemma tick_highest cfg pos price :
  Position.highest_price pos <= Position.highest_price (tick cfg pos price).
Proof.
  rewrite tick_unfold. destruct (Trader.pnl_pct_at pos price) as [pnl_pct |]; [| lra].
  unfold Trader.update_limits. cbn. case_decide; lra.
Qed.

Lemma tick_trailing cfg pos price :
  ~ Position.price pos == 0 ->
  price <= Position.highest_price (tick cfg pos price)
  /\ (Position.trailing_stop_active (tick cfg pos price) = true ->
      Position.highest_price (tick cfg pos price) * (1 - trailing_stop_pct cfg)
        <= Position.stop_loss_price (tick cfg pos price)).
Proof.
  intros Hentry. rewrite tick_unfold.
  assert (Hpct : exists pnl_pct, Trader.pnl_pct_at pos price = Some pnl_pct).
  { unfold Trader.pnl_pct_at. case_decide; rewrite fdiv_Some by exact Hentry; eauto. }
  destruct Hpct as [pnl_pct ->].
  unfold Trader.update_limits. cbn. split; [case_decide; lra |].
  destruct (negb _ && bool_decide _); cbn.
  - intros ->. cbn. case_bool_decide; cbn; lra.
  - intros ->. cbn. case_bool_decide; cbn; lra.
Qed.

Lemma ticks_highest cfg prices : forall pos,
  Forall (fun q => Position.highest_price pos <= Position.highest_price q)
    (ticks cfg pos prices).
Proof.
  induction prices as [| price rest IH]; intros pos; [constructor |].
  cbn [ticks]. pose proof (tick_highest cfg pos price).
  constructor; [assumption |].
  eapply Forall_impl; [apply IH |]. cbn. intros q Hq. lra.
Qed.

(** X18.  The trailing stop follows the high.  For a position with a non-zero
    entry price, after each monitor tick the recorded highest price is at
    least the price of that tick, and whenever the trailing stop is active the
    stop is at least [highest_price * (1 - trailing_stop_pct)]; over the
    sequence of ticks the recorded highest price never decreases. *)
Theorem trailing_stop_follows_high cfg pos prices :
  ~ Position.price pos == 0 ->
  let states := ticks cfg pos prices in
  Forall2 (fun price q =>
      price <= Position.highest_price q
      /\ (Position.trailing_stop_active q = true ->
          Position.highest_price q * (1 - trailing_stop_pct cfg)
            <= Position.stop_loss_price q))
    prices states
  /\ (forall i j p q,
        (i <= j)%nat -> (pos :: states) !! i = Some p -> (pos :: states) !! j = Some q ->
        Position.highest_price p <= Position.highest_price q).
Proof.
  intros Hentry states. subst states. split.
  - revert pos Hentry. induction prices as [| price rest IH]; intros pos Hentry;
      [constructor |].
    cbn [ticks]. constructor; [apply tick_trailing; exact Hentry |].
    apply IH. destruct (tick_with_limits cfg pos price) as (hp & sl & be & tr & ->).
    exact Hentry.
  - intros i j p q Hij Hp Hq.
    destruct (ticks_suffix cfg prices pos i p Hp) as [later Hdrop].
    assert (Hq' : (p :: ticks cfg p later) !! (j - i)%nat = Some q).
    { rewrite <- Hdrop, lookup_drop. replace (i + (j - i))%nat with j by lia. exact Hq. }
    destruct (j - i)%nat as [| k].
    + cbn in Hq'. injection Hq' as <-. lra.
    + cbn in Hq'. pose proof (ticks_highest cfg later p) as Hf.
      rewrite Forall_forall in Hf. apply Hf. eapply list_elem_of_lookup_2, Hq'.
Qed.

Lemma trailing_stop_follows_high_witness :
  let pos := sample_order default_config 100 "" in
  Forall2 (fun price q =>
      price <= Position.highest_price q
      /\ (Position.trailing_stop_active q = true ->
          Position.highest_price q * (1 - 0.10) <= Position.stop_loss_price q))
    [0.48; 0.58; 0.6; 0.55] (ticks default_config pos [0.48; 0.58; 0.6; 0.55]).
Proof.
  intros pos.
  destruct (trailing_stop_follows_high default_config pos [0.48; 0.58; 0.6; 0.55])
    as [H _]; [cbn; lra | exact H].
Defined.

(** ** Positions the simulated quotes cannot move *)

Lemma simulated_price_near entry_price price_change :
  0.06 <= entry_price ->
  -0.05 <= price_change ->
  price_change <= 0.08 ->
  let quote := Trader.simulated_price entry_price price_change in
  quote <= entry_price + 0.08
  /\ (0.99 <= quote \/ entry_price - 0.05 <= quote).
Proof.
  intros He Hlo Hhi quote. subst quote. unfold Trader.simulated_price.
  destruct (py_max_cases 0.01 (entry_price + price_change)) as [[-> ?] | [-> ?]];
    destruct (py_min_cases 0.99 0.01) as [[E1 ?] | [E1 ?]];
    destruct (py_min_cases 0.99 (entry_price + price_change)) as [[E2 ?] | [E2 ?]];
    rewrite ?E1, ?E2; split; try lra; (left; lra) || (right; lra).
Qed.

(** The sweep of one quiet position. *)
Lemma check_position_quiet cfg pos price_change :
  quiet cfg pos ->
  -0.05 <= price_change ->
  price_change <= 0.08 ->
  exists hp,
    Trader.check_position cfg pos
      (Trader.simulated_price (Position.price pos) price_change)
    = Some (Position.with_limits pos hp (Position.stop_loss_price pos) false false,
            false, None).
Proof.
  intros (Hbe & Htr & Hentry & Hone & Htrig & Hstop & Htp) Hlo Hhi.
  rewrite Qmult_comm in Htrig.
  destruct (simulated_price_near (Position.price pos) price_change Hentry Hlo Hhi)
    as [Hup Hdown].
  set (quote := Trader.simulated_price (Position.price pos) price_change) in *.
  assert (Hpos : 0 < Position.price pos) by lra.
  assert (Hpct : exists pnl_pct,
    Trader.pnl_pct_at pos quote = Some pnl_pct /\ pnl_pct < breakeven_trigger_pct cfg).
  { unfold Trader.pnl_pct_at.
    case_decide; rewrite fdiv_Some by lra; eexists; (split; [reflexivity |]);
      apply Qlt_shift_div_r; lra. }
  destruct Hpct as (pnl_pct & Hpnl & Hlow).
  unfold Trader.check_position. rewrite Hpnl. cbn [mbind option_bind].
  unfold Trader.update_limits. rewrite Hbe, Htr. cbn [negb andb].
  rewrite bool_decide_eq_false_2 by lra. cbn [andb orb].
  unfold Trader.limit_hit. cbn.
  destruct (decide (Position.take_profit_price pos <= quote)) as [Hx | _]; [lra |].
  replace (bool_decide (quote <= Position.stop_loss_price pos)) with false
    by (symmetry; apply bool_decide_eq_false_2; lra).
  rewrite andb_false_r. cbn. eauto.
Qed.

Lemma sweep_quiet cfg draw : forall todo i d,
  Forall (quiet cfg) todo ->
  (forall k, -0.05 <= draw k /\ draw k <= 0.08) ->
  exists rest,
    Trader.sweep cfg draw i todo d = (rest, d, Some [])
    /\ Forall (quiet cfg) rest
    /\ Forall2 (fun p q => exists hp,
                  q = Position.with_limits p hp (Position.stop_loss_price p) false false)
         todo rest.
Proof.
  induction todo as [| pos rest IH]; intros i d Hquiet Hdraw.
  - exists []. cbn. auto.
  - apply Forall_cons in Hquiet as [Hpos Hrest].
    destruct (check_position_quiet cfg pos (draw i) Hpos) as [hp Hcheck];
      [apply Hdraw | apply Hdraw |].
    destruct (IH (S i) d Hrest Hdraw) as (rest' & Hsweep & Hq & Hsame).
    cbn [Trader.sweep]. rewrite Hcheck, Hsweep. cbn.
    eexists. split; [reflexivity |]. split.
    + constructor; [| exact Hq].
      destruct Hpos as (H1 & H2 & H3 & H4 & H5 & H6 & H7).
      unfold quiet. cbn. auto 10.
    + constructor; [eauto | exact Hsame].
Qed.

(** X19.  Positions the monitor never closes.  When every open position is
    quiet (see [quiet]) and the draws lie in [[-0.05, 0.08]],
    [close_positions_at_limit] closes nothing: it returns the empty list,
    writes nothing to storage, leaves the ledger alone, changes at most the
    recorded highest price of each position, and the positions are quiet
    again, so that no later sweep closes them either.  With the default
    configuration every position opened by a paper order at a price above
    0.80 and at most 1 is quiet. *)
Theorem quiet_positions_never_close cfg now draw tr :
  Forall (quiet cfg) (Trader._paper_positions tr) ->
  (forall k, -0.05 <= draw k /\ draw k <= 0.08) ->
  (exists tr',
     Trader.close_positions_at_limit cfg now draw tr = (tr', Some [])
     /\ Forall (quiet cfg) (Trader._paper_positions tr')
     /\ Forall2 (fun p q => exists hp,
                   q = Position.with_limits p hp (Position.stop_loss_price p) false false)
          (Trader._paper_positions tr) (Trader._paper_positions tr')
     /\ Trader.db tr' = Trader.db tr
     /\ Trader._paper_balance tr' = Trader._paper_balance tr
     /\ Trader._daily_pnl tr' = Trader._daily_pnl tr
     /\ Trader._total_pnl tr' = Trader._total_pnl tr
     /\ Trader._closed_trades tr' = Trader._closed_trades tr)
  /\ (forall t token_id side size price question risk prediction,
        0.8 < price -> price <= 1 ->
        quiet default_config
          (Trader.new_order default_config t token_id side size price question risk
             prediction)).
Proof.
  intros Hquiet Hdraw. split.
  - destruct (sweep_quiet cfg draw (Trader._paper_positions tr) 0 (Trader.db tr) Hquiet Hdraw)
      as (rest & Hsweep & Hq & Hsame).
    unfold Trader.close_positions_at_limit, Trader.check_position_limits.
    rewrite Hsweep. cbn. eexists. split; [reflexivity |]. cbn. auto 10.
  - intros t token_id side size price question risk prediction Hlo Hhi.
    unfold quiet. cbn. repeat split; lra.
Qed.

Lemma quiet_positions_never_close_witness :
  let bought :=
    fst (Trader.place_order default_config 5 (fresh_trader 10000) "T" "BUY" 100 0.9 "Q" 0 "") in
  exists tr',
    Trader.close_positions_at_limit default_config 9 (fun _ => -0.05) bought = (tr', Some [])
    /\ Trader.db tr' = Trader.db bought
    /\ length (Trader._paper_positions tr') = 1%nat.
Proof.
  intros bought.
  destruct (quiet_positions_never_close default_config 9 (fun _ => -0.05) bought)
    as [(tr' & Hrun & _ & Hsame & Hdb & _) Hnew].
  - constructor; [| constructor]. unfold quiet. cbn. repeat split; lra.
  - intros k. lra.
  - exists tr'. split; [exact Hrun |]. split; [exact Hdb |].
    apply Forall2_length in Hsame. rewrite <- Hsame. reflexivity.
Defined.

(** ** The sweep and the closes that follow it *)

Lemma with_limits_self pos :
  Position.with_limits pos (Position.highest_price pos) (Position.stop_loss_price pos)
    (Position.breakeven_triggered pos) (Position.trailing_stop_active pos) = pos.
Proof. destruct pos; reflexivity. Qed.

Lemma update_open_position_ids p d :
  Database.o_id <$> Database.open_positions (Database.update_open_position p d)
  = Database.o_id <$> Database.open_positions d.
Proof.
  unfold Database.update_open_position. cbn. rewrite <- list_fmap_compose.
  apply list_fmap_ext. intros i r _. cbn. unfold Database.update_row.
  case_decide; reflexivity.
Qed.

(** The sweep assigns limit keys, rewrites limit columns, and queues
    positions of the list it leaves, in their order. *)
Lemma sweep_keeps_book cfg draw : forall todo i d,
  let r := Trader.sweep cfg draw i todo d in
  Forall2 (fun p q => exists hp sl be tr, q = Position.with_limits p hp sl be tr)
    todo r.1.1
  /\ Database.closed_trades r.1.2 = Database.closed_trades d
  /\ Database.bot_state r.1.2 = Database.bot_state d
  /\ Database.o_id <$> Database.open_positions r.1.2
     = Database.o_id <$> Database.open_positions d
  /\ (forall items, r.2 = Some items -> sublist (CloseItem.position <$> items) r.1.1).
Proof.
  induction todo as [| pos rest IH]; intros i d; cbn [Trader.sweep].
  - cbn. split; [constructor |]. split; [reflexivity |]. split; [reflexivity |].
    split; [reflexivity |]. intros items [= <-]. constructor.
  - destruct (Trader.check_position cfg pos _) as [[[pos' updated] item] |] eqn:Hcheck.
    + set (d1 := if updated then Database.update_open_position pos' d else d).
      specialize (IH (S i) d1).
      destruct (Trader.sweep cfg draw (S i) rest d1) as [[rest' d2] items] eqn:Hsweep.
      cbn in IH |- *. destruct IH as (Hsame & Hclosed & Hstate & Hids & Hsub).
      assert (Hd1 : Database.closed_trades d1 = Database.closed_trades d
                    /\ Database.bot_state d1 = Database.bot_state d
                    /\ Database.o_id <$> Database.open_positions d1
                       = Database.o_id <$> Database.open_positions d).
      { subst d1. destruct updated; [| auto].
        split; [reflexivity |]. split; [reflexivity |]. apply update_open_position_ids. }
      destruct Hd1 as (Hc1 & Hs1 & Hi1).
      split.
      { constructor; [| exact Hsame].
        revert Hcheck. unfold Trader.check_position.
        destruct (Trader.pnl_pct_at pos _) as [pnl_pct |]; [| discriminate].
        cbn [mbind option_bind]. unfold Trader.update_limits. intros [= <- _ _]. eauto. }
      split; [congruence |]. split; [congruence |]. split; [congruence |].
      intros its. destruct items as [l |]; [| discriminate]. cbn. intros [= <-].
      specialize (Hsub l eq_refl).
      assert (Hitem : forall it, item = Some it -> CloseItem.position it = pos').
      { revert Hcheck. unfold Trader.check_position.
        destruct (Trader.pnl_pct_at pos _) as [pnl_pct |]; [| discriminate].
        cbn [mbind option_bind].
        destruct (Trader.update_limits cfg pos _ pnl_pct) as [p u].
        intros [= <- _ <-] it. destruct (Trader.limit_hit _ _); [| discriminate].
        cbn. intros [= <-]. reflexivity. }
      destruct item as [it |]; cbn.
      * rewrite (Hitem it eq_refl). apply sublist_skip. exact Hsub.
      * apply sublist_cons. exact Hsub.
    + cbn. split.
      { apply Forall2_same_length_lookup_2; [reflexivity |].
        intros k p q Hp Hq. rewrite Hp in Hq. injection Hq as <-.
        exists (Position.highest_price p), (Position.stop_loss_price p),
          (Position.breakeven_triggered p), (Position.trailing_stop_active p).
        symmetry. apply with_limits_self. }
      split; [reflexivity |]. split; [reflexivity |]. split; [reflexivity |].
      discriminate.
Qed.

(** X20.  [check_position_limits] only watches.  Whatever the draws, and also
    when an iteration raises, the sweep leaves the balance, the daily and
    total P&L and the closed trades alone; it keeps every open position, in
    order, changing at most its four limit keys ([highest_price],
    [stop_loss_price], [breakeven_triggered], [trailing_stop_active]); in
    storage it leaves the closed trades and the ledger row alone and neither
    adds nor removes an open row.  The positions it queues for closing are
    positions of the list it leaves, in the order of that list. *)
Theorem check_position_limits_keeps_book cfg draw tr :
  let tr' := fst (Trader.check_position_limits cfg draw tr) in
  let queued := snd (Trader.check_position_limits cfg draw tr) in
  Trader._paper_balance tr' = Trader._paper_balance tr
  /\ Trader._daily_pnl tr' = Trader._daily_pnl tr
  /\ Trader._total_pnl tr' = Trader._total_pnl tr
  /\ Trader._closed_trades tr' = Trader._closed_trades tr
  /\ Forall2 (fun p q => exists hp sl be ts, q = Position.with_limits p hp sl be ts)
       (Trader._paper_positions tr) (Trader._paper_positions tr')
  /\ Database.closed_trades (Trader.db tr') = Database.closed_trades (Trader.db tr)
  /\ Database.bot_state (Trader.db tr') = Database.bot_state (Trader.db tr)
  /\ Database.o_id <$> Database.open_positions (Trader.db tr')
     = Database.o_id <$> Database.open_positions (Trader.db tr)
  /\ (forall items, queued = Some items ->
        sublist (CloseItem.position <$> items) (Trader._paper_positions tr')).
Proof.
  intros tr' queued. subst tr' queued. unfold Trader.check_position_limits.
  pose proof (sweep_keeps_book cfg draw (Trader._paper_positions tr) 0 (Trader.db tr)) as H.
  destruct (Trader.sweep cfg draw 0 (Trader._paper_positions tr) (Trader.db tr))
    as [[ps d] items].
  cbn in H |- *. destruct H as (H1 & H2 & H3 & H4 & H5).
  repeat (split; [reflexivity |]). auto.
Qed.

Lemma fsum_from a l : foldl Qplus a l == a + fsum l.
Proof.
  unfold fsum. revert a. induction l as [| x l IH]; intros a; cbn.
  - ring.
  - rewrite (IH (a + x)), (IH (0 + x)). ring.
Qed.

Lemma fsum_cons x l : fsum (x :: l) == x + fsum l.
Proof. unfold fsum at 1. cbn. rewrite fsum_from. ring. Qed.

(** X21.  The accounting of [close_positions_at_limit]'s closing loop.  After
    closing the queued items in order: the daily and the total P&L have both
    grown by the sum of the items' P&L, on paper the balance has grown by the
    sum of the proceeds [size * exit price] (and is untouched otherwise);
    there is one result per item, in order, for that item's position, at its
    exit price, with its P&L and tagged with its reason; and one closed trade
    per item has been appended, exited at the time of the call. *)
Theorem close_all_accounting cfg now tr items :
  let tr' := fst (Trader.close_all cfg now tr items) in
  let closed := snd (Trader.close_all cfg now tr items) in
  let pnl_of_item it :=
    Trader.pnl_of (CloseItem.position it) (CloseItem.current_price it) in
  let proceeds it := Position.size (CloseItem.position it) * CloseItem.current_price it in
  Trader._daily_pnl tr' == Trader._daily_pnl tr + fsum (pnl_of_item <$> items)
  /\ Trader._total_pnl tr' == Trader._total_pnl tr + fsum (pnl_of_item <$> items)
  /\ (paper_trading cfg = true ->
        Trader._paper_balance tr' == Trader._paper_balance tr + fsum (proceeds <$> items))
  /\ (paper_trading cfg = false -> Trader._paper_balance tr' = Trader._paper_balance tr)
  /\ Forall2 (fun it r =>
         CloseResult.position r = CloseItem.position it
         /\ CloseResult.exit_price r = CloseItem.current_price it
         /\ CloseResult.pnl r = pnl_of_item it
         /\ CloseResult.close_reason r = Some (CloseItem.reason it))
       items closed
  /\ exists trades,
       Trader._closed_trades tr' = Trader._closed_trades tr ++ trades
       /\ Forall2 (fun it ct =>
              ClosedTrade.id ct = Position.id (CloseItem.position it)
              /\ ClosedTrade.pnl ct = pnl_of_item it
              /\ ClosedTrade.close_reason ct = CloseItem.reason it
              /\ ClosedTrade.exit_time ct = now)
            items trades.
Proof.
  intros tr' closed pnl_of_item proceeds. subst tr' closed.
  revert tr. induction items as [| it rest IH]; intros tr.
  - cbn. split; [unfold fsum; cbn; ring |]. split; [unfold fsum; cbn; ring |].
    split; [intros _; unfold fsum; cbn; ring |]. split; [reflexivity |].
    split; [constructor |]. exists []. rewrite app_nil_r. split; [reflexivity | constructor].
  - cbn [Trader.close_all].
    destruct (Trader.close_position cfg now tr (CloseItem.position it)
                (CloseItem.current_price it) (CloseItem.reason it)) as [tr1 result] eqn:Hclose.
    specialize (IH tr1).
    destruct (Trader.close_all cfg now tr1 rest) as [tr2 closed].
    cbn [fst snd] in IH |- *.
    destruct IH as (Hd & Ht & Hpaper & Hlive & Hres & trades & Htrades & Hcts).
    assert (Hstep :
      Trader._daily_pnl tr1 = Trader._daily_pnl tr + pnl_of_item it
      /\ Trader._total_pnl tr1 = Trader._total_pnl tr + pnl_of_item it
      /\ Trader._paper_balance tr1
         = (if paper_trading cfg then Trader._paper_balance tr + proceeds it
            else Trader._paper_balance tr)
      /\ CloseResult.position result = CloseItem.position it
      /\ CloseResult.exit_price result = CloseItem.current_price it
      /\ CloseResult.pnl result = pnl_of_item it
      /\ exists ct,
           Trader._closed_trades tr1 = Trader._closed_trades tr ++ [ct]
           /\ ClosedTrade.id ct = Position.id (CloseItem.position it)
           /\ ClosedTrade.pnl ct = pnl_of_item it
           /\ ClosedTrade.close_reason ct = CloseItem.reason it
           /\ ClosedTrade.exit_time ct = now).
    { revert Hclose. unfold Trader.close_position. intros [= <- <-]. cbn.
      repeat (split; [reflexivity |]). eexists. split; [reflexivity |]. cbn. auto. }
    destruct Hstep as (Sd & St & Sb & Sp & Se & Spnl & ct & Sct & Sid & Sctp & Sr & Sx).
    rewrite !fmap_cons, !fsum_cons.
    split; [rewrite Hd, Sd; ring |]. split; [rewrite Ht, St; ring |].
    split; [intros Hp; rewrite (Hpaper Hp), Sb, Hp; ring |].
    split; [intros Hp; rewrite (Hlive Hp), Sb, Hp; reflexivity |].
    split; [constructor; [cbn; auto | exact Hres] |].
    exists (ct :: trades). split.
    + rewrite Htrades, Sct, <- app_assoc. reflexivity.
    + constructor; [auto | exact Hcts].
Qed.

Lemma position_mem_head p l : Position.mem p (p :: l) = true.
Proof. unfold Position.mem. cbn. rewrite position_eqb_refl. reflexivity. Qed.

Lemma position_mem_sublist p ps l :
  sublist (p :: ps) l -> Position.mem p l = true.
Proof.
  intros H. apply sublist_cons_l in H as (k1 & k2 & -> & _).
  unfold Position.mem. rewrite existsb_app. cbn. rewrite position_eqb_refl.
  rewrite orb_true_l. apply orb_true_r.
Qed.

Lemma position_remove_sublist p ps l :
  sublist (p :: ps) l -> sublist ps (Position.remove p l).
Proof.
  intros H. apply sublist_cons_l in H as (k1 & k2 & -> & Hps).
  induction k1 as [| q k1 IH]; cbn.
  - rewrite position_eqb_refl. exact Hps.
  - destruct (Position.eqb q p).
    + etransitivity; [exact Hps |].
      apply sublist_inserts_l. apply sublist_cons. reflexivity.
    + apply sublist_cons. exact IH.
Qed.

Lemma position_remove_is_sublist p l : sublist (Position.remove p l) l.
Proof.
  induction l as [| q l IH]; cbn; [constructor |].
  destruct (Position.eqb q p); [apply sublist_cons; reflexivity | apply sublist_skip, IH].
Qed.

(** Closing queued positions of the open list, on paper. *)
Lemma close_all_removes cfg now items : forall tr,
  paper_trading cfg = true ->
  sublist (CloseItem.position <$> items) (Trader._paper_positions tr) ->
  let tr' := fst (Trader.close_all cfg now tr items) in
  (length (Trader._paper_positions tr') + length items
   = length (Trader._paper_positions tr))%nat
  /\ sublist (Trader._paper_positions tr') (Trader._paper_positions tr)
  /\ sublist (Database.open_positions (Trader.db tr')) (Database.open_positions (Trader.db tr))
  /\ Forall (fun it =>
         Forall (fun row => Database.o_id row <> Position.id (CloseItem.position it))
           (Database.open_positions (Trader.db tr')))
       items.
Proof.
  intros tr Hpaper. revert tr. induction items as [| it rest IH]; intros tr Hsub tr'.
  - subst tr'. cbn. split; [lia |]. split; [reflexivity |]. split; [reflexivity | constructor].
  - subst tr'. cbn [Trader.close_all].
    destruct (Trader.close_position cfg now tr (CloseItem.position it)
                (CloseItem.current_price it) (CloseItem.reason it)) as [tr1 result] eqn:Hclose.
    rewrite fmap_cons in Hsub.
    assert (Hstep :
      Trader._paper_positions tr1
      = Position.remove (CloseItem.position it) (Trader._paper_positions tr)
      /\ Database.open_positions (Trader.db tr1)
         = filter (fun r => Database.o_id r <> Position.id (CloseItem.position it))
             (Database.open_positions (Trader.db tr))).
    { revert Hclose. unfold Trader.close_position. rewrite Hpaper.
      rewrite (position_mem_sublist _ _ _ Hsub). cbn. intros [= <- _]. cbn. auto. }
    destruct Hstep as [Hpos Hrows].
    assert (Hsub1 : sublist (CloseItem.position <$> rest) (Trader._paper_positions tr1)).
    { rewrite Hpos. apply position_remove_sublist. exact Hsub. }
    specialize (IH tr1 Hsub1).
    destruct (Trader.close_all cfg now tr1 rest) as [tr2 closed].
    cbn [fst snd length] in IH |- *. destruct IH as (Hlen & Hps & Hdb & Hgone).
    pose proof (position_remove_length _ _ (position_mem_sublist _ _ _ Hsub)) as Hlen1.
    rewrite <- Hpos in Hlen1.
    split; [lia |].
    split; [etransitivity; [exact Hps |]; rewrite Hpos; apply position_remove_is_sublist |].
    split; [etransitivity; [exact Hdb |]; rewrite Hrows; apply sublist_filter |].
    constructor; [| exact Hgone].
    apply Forall_forall. intros row Hrow.
    assert (Hin : row ∈ Database.open_positions (Trader.db tr1)).
    { eapply elem_of_sublist; eassumption. }
    rewrite Hrows in Hin. apply list_elem_of_filter in Hin as [Hne _]. exact Hne.
Qed.

(** One result and one closed trade per queued item. *)
Lemma close_all_counts cfg now items : forall tr,
  Forall2 (fun it r => CloseResult.position r = CloseItem.position it)
    items (snd (Trader.close_all cfg now tr items))
  /\ (length (Trader._closed_trades (fst (Trader.close_all cfg now tr items)))
      = length (Trader._closed_trades tr) + length items)%nat.
Proof.
  induction items as [| it rest IH]; intros tr.
  - cbn. split; [constructor | lia].
  - cbn [Trader.close_all].
    destruct (Trader.close_position cfg now tr (CloseItem.position it)
                (CloseItem.current_price it) (CloseItem.reason it)) as [tr1 result] eqn:Hclose.
    specialize (IH tr1).
    destruct (Trader.close_all cfg now tr1 rest) as [tr2 closed].
    cbn [fst snd length] in IH |- *. destruct IH as [Hres Hlen].
    revert Hclose. unfold Trader.close_position. intros [= <- <-].
    cbn in Hlen |- *. rewrite length_app in Hlen. cbn in Hlen.
    split; [constructor; [reflexivity | exact Hres] | lia].
Qed.

(** X22.  What the monitor closes is gone.  On paper, when
    [close_positions_at_limit] returns its list of closed positions, the
    number of open positions has dropped by the length of that list, the
    remaining open positions are among the swept ones (in order), one closed
    trade per closed position has been appended, and storage holds no open
    row under the id of any closed position while it has gained no open
    row. *)
Theorem monitor_removes_what_it_closes cfg now draw tr closed :
  paper_trading cfg = true ->
  snd (Trader.close_positions_at_limit cfg now draw tr) = Some closed ->
  let tr' := fst (Trader.close_positions_at_limit cfg now draw tr) in
  (length (Trader._paper_positions tr') + length closed
   = length (Trader._paper_positions tr))%nat
  /\ sublist (Trader._paper_positions tr')
       (Trader._paper_positions (fst (Trader.check_position_limits cfg draw tr)))
  /\ (length (Trader._closed_trades tr')
      = length (Trader._closed_trades tr) + length closed)%nat
  /\ Forall (fun r =>
         Forall (fun row => Database.o_id row <> Position.id (CloseResult.position r))
           (Database.open_positions (Trader.db tr')))
       closed
  /\ (length (Database.open_positions (Trader.db tr'))
      <= length (Database.open_positions (Trader.db tr)))%nat.
Proof.
  intros Hpaper. unfold Trader.close_positions_at_limit.
  pose proof (sweep_keeps_book cfg draw (Trader._paper_positions tr) 0 (Trader.db tr))
    as Hsweep.
  unfold Trader.check_position_limits.
  destruct (Trader.sweep cfg draw 0 (Trader._paper_positions tr) (Trader.db tr))
    as [[ps d] queued].
  cbn in Hsweep. destruct Hsweep as (Hsame & _ & _ & Hids & Hsub).
  destruct queued as [items |]; [| discriminate].
  specialize (Hsub items eq_refl).
  set (tr1 := {| Trader._clob_client := Trader._clob_client tr;
                 Trader._paper_balance := Trader._paper_balance tr;
                 Trader._real_balance := Trader._real_balance tr;
                 Trader._daily_pnl := Trader._daily_pnl tr;
                 Trader._total_pnl := Trader._total_pnl tr;
                 Trader._paper_positions := ps;
                 Trader._positions := Trader._positions tr;
                 Trader._closed_trades := Trader._closed_trades tr;
                 Trader.db := d |}).
  pose proof (close_all_removes cfg now items tr1 Hpaper Hsub) as Hremove.
  pose proof (close_all_counts cfg now items tr1) as Hcount.
  destruct (Trader.close_all cfg now tr1 items) as [tr2 results].
  cbn [fst snd] in Hremove, Hcount |- *.
  intros [= <-].
  destruct Hremove as (Hlen & Hps & Hdb & Hgone).
  destruct Hcount as (Hres & Htrades).
  apply Forall2_length in Hsame. cbn in Hlen, Hps, Hdb, Htrades.
  assert (Hn : length results = length items) by (symmetry; eapply Forall2_length, Hres).
  split; [lia |]. split; [exact Hps |].
  split; [lia |].
  split.
  - clear - Hres Hgone. induction Hres as [| it r its rs Hr _ IH]; [constructor |].
    apply Forall_cons in Hgone as [Hit Hrest].
    constructor; [| apply IH, Hrest].
    rewrite Hr. exact Hit.
  - apply sublist_length in Hdb.
    assert (Hl : length (Database.open_positions d)
                 = length (Database.open_positions (Trader.db tr))).
    { rewrite <- (length_fmap Database.o_id), Hids, length_fmap. reflexivity. }
    lia.
Qed.

Lemma monitor_removes_what_it_closes_witness :
  let tr0 := Executor.trader traded_executor in
  let tr1 := fst (Trader.close_positions_at_limit default_config 2000 (fun _ => 0.08) tr0) in
  let tr2 := fst (Trader.close_positions_at_limit default_config 3000 (fun _ => -0.05) tr1) in
  exists closed,
    snd (Trader.close_positions_at_limit default_config 3000 (fun _ => -0.05) tr1)
      = Some closed
    /\ length closed = 1%nat
    /\ (length (Trader._paper_positions tr2) + length closed
        = length (Trader._paper_positions tr1))%nat.
Proof.
  intros tr0 tr1 tr2.
  destruct (snd (Trader.close_positions_at_limit default_config 3000 (fun _ => -0.05) tr1))
    as [closed |] eqn:E; [| vm_compute in E; discriminate E].
  destruct (monitor_removes_what_it_closes default_config 3000 (fun _ => -0.05) tr1 closed
              eq_refl E) as (H & _).
  exists closed. split; [reflexivity |]. split; [| exact H].
  pose proof E as E'. vm_compute in E'. injection E' as <-. reflexivity.
Defined.

(** ** Reading the closed trades *)

Lemma later_first_transitive : Transitive Database.later_first.
Proof. intros a b c. unfold Database.later_first. lia. Qed.

Lemma later_first_total : Total Database.later_first.
Proof. intros a b. unfold Database.later_first. lia. Qed.

(** X23.  [get_closed_trades] returns the most recent trades first.  It
    returns [min limit n] of the [n] stored trades, ordered by exit time from
    the latest to the earliest; they are the records of distinct stored rows,
    and no row left out exited after a returned one. *)
Theorem get_closed_trades_recent_first limit d :
  let result := Database.get_closed_trades limit d in
  length result = Nat.min limit (length (Database.closed_trades d))
  /\ StronglySorted
       (fun a b => (ClosedTrade.exit_time b <= ClosedTrade.exit_time a)%Z) result
  /\ exists rows rest,
       Database.closed_trades d ≡ₚ rows ++ rest
       /\ result = Database.closed_trade_of_row <$> rows
       /\ forall r s, r ∈ rows -> s ∈ rest ->
            (Database.c_exit_time s <= Database.c_exit_time r)%Z.
Proof.
  intros result. subst result. unfold Database.get_closed_trades.
  set (sorted := merge_sort Database.later_first (Database.closed_trades d)).
  assert (Hperm : sorted ≡ₚ Database.closed_trades d) by apply merge_sort_Permutation.
  assert (Hsorted : StronglySorted Database.later_first sorted).
  { apply (@StronglySorted_merge_sort _ Database.later_first _ later_first_transitive
             later_first_total). }
  rewrite <- (take_drop limit sorted) in Hsorted.
  split; [rewrite length_fmap, length_take, (Permutation_length Hperm); reflexivity |].
  split.
  - apply (StronglySorted_fmap _ Database.later_first).
    + intros x y H. exact H.
    + eapply StronglySorted_app_1_l. exact Hsorted.
  - exists (take limit sorted), (drop limit sorted).
    split; [rewrite take_drop; symmetry; exact Hperm |].
    split; [reflexivity |].
    intros r s Hr Hs.
    exact (StronglySorted_app_1_elem_of _ _ _ _ _ Hsorted Hr Hs).
Qed.

(** ** Storage of open positions and of the ledger *)

Lemma update_row_other p r :
  Database.o_id r <> Position.id p -> Database.update_row p r = r.
Proof. intros H. unfold Database.update_row. rewrite decide_False by exact H. reflexivity. Qed.

Lemma update_rows_other p rows :
  Forall (fun r => Database.o_id r <> Position.id p) rows ->
  Database.update_row p <$> rows = rows.
Proof.
  induction 1 as [| r rows Hr _ IH]; [reflexivity |].
  cbn. rewrite (update_row_other p r Hr). f_equal. exact IH.
Qed.

(** X24.  The limits the monitor writes come back.  For a stored position
    [p] whose four limit keys the monitor has changed to give [p'],
    [update_open_position p'] followed by [get_open_positions] yields exactly
    one record under the id of [p]: the record a fresh save of [p'] would
    reload as (which is [p'] without its ["prediction"] when the status is
    ["FILLED"]); the records under other ids are the ones that were there.
    An update for an id that has no row changes nothing. *)
Theorem updated_position_roundtrip p hp sl be ts d :
  let p' := Position.with_limits p hp sl be ts in
  let stored := Database.save_open_position p d in
  let reloaded := Database.get_open_positions (Database.update_open_position p' stored) in
  filter (fun q => Position.id q = Position.id p) reloaded
  = [Database.open_position_of_row (Database.open_row p')]
  /\ filter (fun q => Position.id q <> Position.id p) reloaded
     = filter (fun q => Position.id q <> Position.id p) (Database.get_open_positions d)
  /\ (Position.status p = "FILLED" ->
        Database.open_position_of_row (Database.open_row p') = Position.without_prediction p')
  /\ (Forall (fun r => Database.o_id r <> Position.id p) (Database.open_positions d) ->
        Database.update_open_position p' d = d).
Proof.
  intros p' stored reloaded.
  assert (Hrows :
    Database.open_positions (Database.update_open_position p' stored)
    = filter (fun r => Database.o_id r <> Position.id p) (Database.open_positions d)
      ++ [Database.open_row p']).
  { unfold stored, Database.update_open_position, Database.save_open_position,
      Database.insert_or_replace. cbn. rewrite fmap_app. f_equal.
    - apply update_rows_other. apply Forall_forall. intros r Hr.
      apply list_elem_of_filter in Hr as [Hne _]. exact Hne.
    - cbn. unfold Database.update_row. cbn. rewrite decide_True by reflexivity.
      reflexivity. }
  assert (Hfilter : forall rows,
    filter (fun q => Position.id q = Position.id p)
      (Database.open_position_of_row
         <$> filter (fun r => Database.o_id r <> Position.id p) rows) = []
    /\ filter (fun q => Position.id q <> Position.id p)
         (Database.open_position_of_row
            <$> filter (fun r => Database.o_id r <> Position.id p) rows)
       = filter (fun q => Position.id q <> Position.id p)
           (Database.open_position_of_row <$> rows)).
  { induction rows as [| r rows [IH1 IH2]]; [split; reflexivity |].
    rewrite filter_cons. destruct (decide (Database.o_id r <> Position.id p)) as [Hne | He].
    - rewrite !fmap_cons, !filter_cons. cbn [Database.open_position_of_row Position.id].
      repeat case_decide; try (congruence || contradiction).
      split; [exact IH1 | f_equal; exact IH2].
    - rewrite fmap_cons, filter_cons. cbn [Database.open_position_of_row Position.id].
      repeat case_decide; try (congruence || contradiction).
      split; [exact IH1 | exact IH2]. }
  subst reloaded. unfold Database.get_open_positions. rewrite Hrows, fmap_app, !filter_app.
  destruct (Hfilter (Database.open_positions d)) as [H1 H2]. rewrite H1, H2. cbn.
  rewrite decide_True by reflexivity. rewrite decide_False by (intros H; apply H; reflexivity).
  split; [reflexivity |]. split; [apply app_nil_r |]. split.
  - intros Hs. apply open_position_of_open_row. exact Hs.
  - intros Hnone. unfold Database.update_open_position.
    rewrite (update_rows_other p' _ Hnone). destruct d; reflexivity.
Qed.

Lemma updated_position_roundtrip_witness :
  let p := sample_order default_config 100 "" in
  let p' := Position.with_limits p 0.58 0.522 true true in
  Database.get_open_positions
    (Database.update_open_position p'
       (Database.save_open_position p Database.init_database))
  = [Position.without_prediction p'].
Proof.
  intros p p'.
  destruct (updated_position_roundtrip p 0.58 0.522 true true Database.init_database)
    as (H1 & _ & H3 & _).
  fold p' in H1, H3. rewrite <- (H3 eq_refl), <- H1. reflexivity.
Defined.

Lemma fsum_snoc l x : fsum (l ++ [x]) == fsum l + x.
Proof. unfold fsum. rewrite foldl_snoc. reflexivity. Qed.

(** X25.  A restart forgets what the open positions cost.  A paper BUY
    debits [size * price] from the balance in memory and writes the position,
    but not the balance, to storage; a trader started on that storage
    reloads the position and takes as balance [10000] plus the P&L of the
    closed trades, the same balance as a trader started before the order.
    When the balance was in line with storage before the order, the balance
    after the restart is therefore [size * price] above the balance that was
    left after the order, and closing the reloaded position credits its
    proceeds on top. *)
Theorem restart_forgets_position_cost cfg now later tr token_id side size price question
    risk prediction tr1 order :
  paper_trading cfg = true ->
  Trader.is_buy side = true ->
  Trader.place_order cfg now tr token_id side size price question risk prediction
    = (tr1, Some order) ->
  let p := Trader.new_order cfg now token_id side size price question risk prediction in
  let reloaded := Position.without_prediction p in
  let restarted := Trader.init later (Trader.db tr1) in
  let realised := fsum (Database.c_pnl <$> Database.closed_trades (Trader.db tr)) in
  Trader._paper_balance tr1 = Trader._paper_balance tr - size * price
  /\ Trader._paper_balance restarted = 10000 + realised
  /\ Trader._paper_balance restarted
     = Trader._paper_balance (Trader.init later (Trader.db tr))
  /\ reloaded ∈ Trader._paper_positions restarted
  /\ (Trader._paper_balance tr == 10000 + realised ->
        Trader._paper_balance restarted == Trader._paper_balance tr1 + size * price
        /\ forall t exit_price reason,
             Trader._paper_balance
               (fst (Trader.close_position cfg t restarted reloaded exit_price reason))
             == Trader._paper_balance tr + size * exit_price).
Proof.
  intros Hpaper Hbuy Hplace p reloaded restarted realised.
  assert (Hfacts :
    Trader._paper_balance tr1 = Trader._paper_balance tr - size * price
    /\ Trader.db tr1 = Database.save_open_position p (Trader.db tr)).
  { revert Hplace. unfold Trader.place_order, Trader._paper_order.
    rewrite Hpaper, Hbuy. cbn [andb].
    case_decide; [discriminate |]. case_decide; [discriminate |].
    case_bool_decide; cbn; [discriminate |]. intros [= <- _]. cbn. auto. }
  destruct Hfacts as [Hbal Hdb].
  assert (Hbalance : Trader._paper_balance restarted = 10000 + realised).
  { subst restarted. rewrite Hdb. reflexivity. }
  split; [exact Hbal |]. split; [exact Hbalance |].
  split; [subst restarted; rewrite Hdb; reflexivity |].
  split.
  - subst restarted. rewrite Hdb.
    change (Trader._paper_positions
              (Trader.init later (Database.save_open_position p (Trader.db tr))))
      with (Database.get_open_positions (Database.save_open_position p (Trader.db tr))).
    rewrite get_open_positions_after_save. apply elem_of_app. right.
    apply list_elem_of_singleton. symmetry. apply open_position_of_open_row. reflexivity.
  - intros Hsync. split; [rewrite Hbalance, Hbal; lra |].
    intros t exit_price reason.
    assert (Hclose : forall tr0 q,
      Trader._paper_balance (fst (Trader.close_position cfg t tr0 q exit_price reason))
      = Trader._paper_balance tr0 + Position.size q * exit_price).
    { intros tr0 q. unfold Trader.close_position. rewrite Hpaper. reflexivity. }
    rewrite Hclose, Hbalance. subst reloaded p. cbn. lra.
Qed.

Lemma restart_forgets_position_cost_witness :
  let bought :=
    fst (Trader.place_order default_config 5 (fresh_trader 10000) "T" "BUY" 100 0.5 "Q" 0 "") in
  Trader._paper_balance bought == 9950
  /\ Trader._paper_balance (Trader.init 9 (Trader.db bought)) == 10000
  /\ length (Trader._paper_positions (Trader.init 9 (Trader.db bought))) = 1%nat.
Proof.
  intros bought.
  destruct (Trader.place_order default_config 5 (fresh_trader 10000) "T" "BUY" 100 0.5 "Q" 0 "")
    as [tr1 [order |]] eqn:E; [| vm_compute in E; discriminate E].
  destruct (restart_forgets_position_cost default_config 5 9 (fresh_trader 10000) "T" "BUY"
              100 0.5 "Q" 0 "" tr1 order eq_refl eq_refl E) as (H1 & H2 & _).
  subst bought. cbn [fst]. rewrite H1, H2.
  split; [reflexivity |]. split; [reflexivity |].
  pose proof E as E'. vm_compute in E'. injection E' as <- _. reflexivity.
Defined.

(** The closed-trade rows after a close: the rows under other ids, then the
    row of this close. *)
Lemma close_position_rows cfg now tr position exit_price close_reason :
  exists ct,
    Database.closed_trades
      (Trader.db (fst (Trader.close_position cfg now tr position exit_price close_reason)))
    = filter (fun r => Database.c_id r <> Position.id position)
        (Database.closed_trades (Trader.db tr))
      ++ [Database.closed_row ct]
    /\ ClosedTrade.id ct = Position.id position
    /\ ClosedTrade.exit_price ct = exit_price
    /\ ClosedTrade.exit_time ct = now
    /\ ClosedTrade.close_reason ct = close_reason
    /\ ClosedTrade.pnl ct = Trader.pnl_of position exit_price.
Proof.
  eexists. split.
  - unfold Trader.close_position.
    cbn [fst Trader.db Database.closed_trades Database.save_bot_state
         Database.save_closed_trade].
    unfold Database.insert_or_replace. destruct (paper_trading cfg); reflexivity.
  - cbn. auto.
Qed.

(** X26.  Storage keeps one closed trade per position.  [close_position]
    stores the closed trade under the id of the position with
    [INSERT OR REPLACE]: after closing the same position twice, storage holds
    the earlier rows under other ids followed by a single row for the
    position, that of the second close, while the total P&L in memory has
    grown by both closes.  A trader restarted on that storage counts the
    position once, at the P&L of the second close. *)
Theorem double_close_stored_once cfg t1 t2 later tr position exit1 exit2 reason1 reason2 :
  let tr1 := fst (Trader.close_position cfg t1 tr position exit1 reason1) in
  let tr2 := fst (Trader.close_position cfg t2 tr1 position exit2 reason2) in
  let others :=
    filter (fun r => Database.c_id r <> Position.id position)
      (Database.closed_trades (Trader.db tr)) in
  (exists ct,
     Database.closed_trades (Trader.db tr2) = others ++ [Database.closed_row ct]
     /\ ClosedTrade.id ct = Position.id position
     /\ ClosedTrade.exit_price ct = exit2
     /\ ClosedTrade.exit_time ct = t2
     /\ ClosedTrade.close_reason ct = reason2
     /\ ClosedTrade.pnl ct = Trader.pnl_of position exit2)
  /\ Trader._total_pnl tr2
     = Trader._total_pnl tr + Trader.pnl_of position exit1 + Trader.pnl_of position exit2
  /\ Trader._total_pnl (Trader.init later (Trader.db tr2))
     == fsum (Database.c_pnl <$> others) + Trader.pnl_of position exit2.
Proof.
  intros tr1 tr2 others.
  assert (Hrows : exists ct,
    Database.closed_trades (Trader.db tr2) = others ++ [Database.closed_row ct]
    /\ ClosedTrade.id ct = Position.id position
    /\ ClosedTrade.exit_price ct = exit2
    /\ ClosedTrade.exit_time ct = t2
    /\ ClosedTrade.close_reason ct = reason2
    /\ ClosedTrade.pnl ct = Trader.pnl_of position exit2).
  { destruct (close_position_rows cfg t1 tr position exit1 reason1)
      as (ct1 & Hrows1 & Hid1 & _).
    destruct (close_position_rows cfg t2 tr1 position exit2 reason2)
      as (ct2 & Hrows2 & Hrest).
    exists ct2. split; [| exact Hrest].
    fold tr2 in Hrows2. fold tr1 in Hrows1. rewrite Hrows2, Hrows1.
    rewrite filter_app, list_filter_filter_l by (intros x H; exact H).
    rewrite filter_cons, filter_nil. cbn [Database.closed_row Database.c_id].
    rewrite decide_False by (intros H; apply H; exact Hid1).
    rewrite app_nil_r. reflexivity. }
  split; [exact Hrows |]. split; [reflexivity |].
  destruct Hrows as (ct & Hrows & _ & _ & _ & _ & Hpnl).
  change (Trader._total_pnl (Trader.init later (Trader.db tr2)))
    with (fsum (Database.c_pnl <$> Database.closed_trades (Trader.db tr2))).
  rewrite Hrows, fmap_app. cbn [fmap list_fmap Database.closed_row Database.c_pnl].
  rewrite fsum_snoc, Hpnl. reflexivity.
Qed.

(** ** Trade statistics *)

Lemma zsum_from a l : foldl Z.add a l = (a + foldl Z.add 0 l)%Z.
Proof.
  revert a. induction l as [| x l IH]; intros a; cbn [foldl]; [lia |].
  rewrite (IH (a + x)%Z), (IH (0 + x)%Z). lia.
Qed.

(** [SUM(CASE WHEN ... THEN 1 ELSE 0 END)], with [NULL] read as [0], counts
    the rows of the case. *)
Lemma sql_count {A} (P : A -> Prop) `{!forall x, Decision (P x)} (rows : list A) :
  default 0%Z (Database.sql_sum_int ((fun r => if decide (P r) then 1%Z else 0%Z) <$> rows))
  = Z.of_nat (length (filter P rows)).
Proof.
  assert (Hsum : foldl Z.add 0%Z ((fun r => if decide (P r) then 1%Z else 0%Z) <$> rows)
                 = Z.of_nat (length (filter P rows))).
  { induction rows as [| r rows IH]; [reflexivity |].
    rewrite fmap_cons, filter_cons. cbn [foldl]. rewrite zsum_from, IH.
    case_decide; cbn [length]; lia. }
  destruct rows as [| r rows]; [reflexivity |]. exact Hsum.
Qed.

Lemma count_won (rows : list Database.ClosedRow) :
  (length (filter (fun r => Database.c_won r = 1%Z) rows)
   + length (filter (fun r => Database.c_won r = 0%Z) rows) <= length rows)%nat
  /\ (Forall (fun r => Database.c_won r = 0%Z \/ Database.c_won r = 1%Z) rows ->
      (length (filter (fun r => Database.c_won r = 1%Z) rows)
       + length (filter (fun r => Database.c_won r = 0%Z) rows) = length rows)%nat
      /\ fsum (Database.c_pnl <$> rows)
         == fsum (Database.c_pnl <$> filter (fun r => Database.c_won r = 1%Z) rows)
            + fsum (Database.c_pnl <$> filter (fun r => Database.c_won r = 0%Z) rows)).
Proof.
  induction rows as [| r rows [IH1 IH2]].
  - split; [cbn; lia |]. intros _. split; [reflexivity |]. unfold fsum. cbn. ring.
  - rewrite !filter_cons. split.
    + repeat case_decide; cbn [length]; lia.
    + intros H. apply Forall_cons in H as [Hr Hrows].
      destruct (IH2 Hrows) as [Hlen Hsum].
      rewrite fmap_cons, fsum_cons, Hsum.
      repeat case_decide; try lia; rewrite ?fmap_cons, ?fsum_cons; cbn [length];
        (split; [lia | ring]).
Qed.

Lemma sql_avg_total (l : list Q) :
  inject_Z (Z.of_nat (length l)) * default 0 (Database.sql_avg l) == fsum l.
Proof.
  destruct l as [| x l]; [unfold fsum; cbn; ring |].
  assert (H : ~ inject_Z (Z.of_nat (length (x :: l))) == 0).
  { intros E. unfold Qeq in E. cbn [inject_Z Qnum Qden length] in E. lia. }
  set (n := inject_Z (Z.of_nat (length (x :: l)))) in *. set (total := fsum (x :: l)).
  change (n * (total / n) == total).
  field. exact H.
Qed.

Lemma foldl_py_max a l :
  a <= foldl py_max a l /\ Forall (fun x => x <= foldl py_max a l) l.
Proof.
  revert a. induction l as [| x l IH]; intros a; cbn; [split; [lra | constructor] |].
  destruct (IH (py_max a x)) as [H1 H2].
  assert (Ha : a <= py_max a x) by apply py_max_ge_l.
  assert (Hx : x <= py_max a x).
  { destruct (py_max_cases a x) as [[-> ?] | [-> ?]]; lra. }
  split; [lra |]. constructor; [lra | exact H2].
Qed.

Lemma foldl_py_min a l :
  foldl py_min a l <= a /\ Forall (fun x => foldl py_min a l <= x) l.
Proof.
  revert a. induction l as [| x l IH]; intros a; cbn; [split; [lra | constructor] |].
  destruct (IH (py_min a x)) as [H1 H2].
  pose proof (py_min_le_l a x). pose proof (py_min_le_r a x).
  split; [lra |]. constructor; [lra | exact H2].
Qed.

(** X27.  The figures of [get_trade_stats] hang together.  [total_trades] is
    the number of stored trades; wins and losses are not negative and
    together at most the total; the win rate lies between 0 and 100; every
    stored P&L lies between [worst_trade] and [best_trade]; on an empty table
    every figure is zero.  When every row has [won] equal to 0 or 1 (as the
    rows [save_closed_trade] writes have), wins and losses add up to the
    total and the total P&L equals
    [wins * avg_win + losses * avg_loss]. *)
Theorem get_trade_stats_consistent d :
  let s := Database.get_trade_stats d in
  let rows := Database.closed_trades d in
  Database.total_trades s = Z.of_nat (length rows)
  /\ (0 <= Database.wins s)%Z
  /\ (0 <= Database.losses s)%Z
  /\ (Database.wins s + Database.losses s <= Database.total_trades s)%Z
  /\ 0 <= Database.win_rate s
  /\ Database.win_rate s <= 100
  /\ Forall (fun r => Database.worst_trade s <= Database.c_pnl r
                      /\ Database.c_pnl r <= Database.best_trade s) rows
  /\ (rows = [] ->
        s = {| Database.total_trades := 0;
               Database.wins := 0;
               Database.losses := 0;
               Database.win_rate := 0;
               Database.stats_total_pnl := 0;
               Database.avg_win := 0;
               Database.avg_loss := 0;
               Database.best_trade := 0;
               Database.worst_trade := 0 |})
  /\ (Forall (fun r => Database.c_won r = 0%Z \/ Database.c_won r = 1%Z) rows ->
        (Database.wins s + Database.losses s = Database.total_trades s)%Z
        /\ Database.stats_total_pnl s
           == inject_Z (Database.wins s) * Database.avg_win s
              + inject_Z (Database.losses s) * Database.avg_loss s)
  /\ (forall c, Database.c_won (Database.closed_row c) = 0%Z
                \/ Database.c_won (Database.closed_row c) = 1%Z).
Proof.
  intros s rows. subst s. unfold Database.get_trade_stats. fold rows.
  cbn [Database.total_trades Database.wins Database.losses Database.win_rate
       Database.stats_total_pnl Database.avg_win Database.avg_loss
       Database.best_trade Database.worst_trade].
  rewrite !sql_count.
  set (won := filter (fun r => Database.c_won r = 1%Z) rows).
  set (lost := filter (fun r => Database.c_won r = 0%Z) rows).
  destruct (count_won rows) as [Hcount Hexact]. fold won lost in Hcount, Hexact.
  split; [reflexivity |]. split; [lia |]. split; [lia |]. split; [lia |].
  assert (Hrate : 0 <= (if decide (0 < Z.of_nat (length rows))%Z
                        then inject_Z (Z.of_nat (length won))
                             / inject_Z (Z.of_nat (length rows)) * 100
                        else 0)
                  /\ (if decide (0 < Z.of_nat (length rows))%Z
                      then inject_Z (Z.of_nat (length won))
                           / inject_Z (Z.of_nat (length rows)) * 100
                      else 0) <= 100).
  { case_decide as Hpos; [| split; lra].
    assert (Ht : 0 < inject_Z (Z.of_nat (length rows))).
    { change 0 with (inject_Z 0). rewrite <- Zlt_Qlt. exact Hpos. }
    assert (Hw : 0 <= inject_Z (Z.of_nat (length won))).
    { change 0 with (inject_Z 0). rewrite <- Zle_Qle. lia. }
    assert (Hwt : inject_Z (Z.of_nat (length won)) <= inject_Z (Z.of_nat (length rows))).
    { rewrite <- Zle_Qle. lia. }
    assert (H0 : 0 <= inject_Z (Z.of_nat (length won)) / inject_Z (Z.of_nat (length rows))).
    { apply Qle_shift_div_l; [exact Ht | lra]. }
    assert (H1 : inject_Z (Z.of_nat (length won)) / inject_Z (Z.of_nat (length rows)) <= 1).
    { apply Qle_shift_div_r; [exact Ht | lra]. }
    split; lra. }
  split; [apply Hrate |]. split; [apply Hrate |].
  split.
  { destruct rows as [| r rest] eqn:E; [constructor |].
    rewrite fmap_cons. cbn [Database.sql_max Database.sql_min default].
    destruct (foldl_py_max (Database.c_pnl r) (Database.c_pnl <$> rest)) as [Hmax1 Hmax2].
    destruct (foldl_py_min (Database.c_pnl r) (Database.c_pnl <$> rest)) as [Hmin1 Hmin2].
    constructor; [split; assumption |].
    rewrite Forall_fmap in Hmax2, Hmin2.
    rewrite Forall_forall in Hmax2, Hmin2. apply Forall_forall. intros x Hx.
    split; [apply (Hmin2 x Hx) | apply (Hmax2 x Hx)]. }
  split.
  { intros E. subst won lost. rewrite E. reflexivity. }
  split.
  { intros Hwon. destruct (Hexact Hwon) as [Hlen Hsum]. split; [lia |].
    rewrite <- (length_fmap Database.c_pnl won), <- (length_fmap Database.c_pnl lost).
    rewrite !sql_avg_total, <- Hsum.
    destruct rows; [unfold fsum; cbn; ring | reflexivity]. }
  intros c. cbn. destruct (ClosedTrade.won c); auto.
Qed.

(** ** The bot: events and monitor passes *)

Lemma with_limits_same_keys l1 l2 :
  Forall2 (fun p q => exists hp sl be ts, q = Position.with_limits p hp sl be ts) l1 l2 ->
  Position.token_id <$> l2 = Position.token_id <$> l1
  /\ Position.id <$> l2 = Position.id <$> l1.
Proof.
  induction 1 as [| p q l1 l2 (hp & sl & be & ts & ->) _ [IH1 IH2]]; [split; reflexivity |].
  rewrite !fmap_cons, IH1, IH2. split; reflexivity.
Qed.

(** Closing never adds an open position, and never touches the live ones. *)
Lemma close_all_positions cfg now items : forall tr,
  sublist (Trader._paper_positions (fst (Trader.close_all cfg now tr items)))
    (Trader._paper_positions tr)
  /\ Trader._positions (fst (Trader.close_all cfg now tr items)) = Trader._positions tr.
Proof.
  induction items as [| it rest IH]; intros tr; [split; reflexivity |].
  cbn [Trader.close_all].
  destruct (Trader.close_position cfg now tr (CloseItem.position it)
              (CloseItem.current_price it) (CloseItem.reason it)) as [tr1 result] eqn:Hclose.
  specialize (IH tr1).
  destruct (Trader.close_all cfg now tr1 rest) as [tr2 closed].
  cbn [fst] in IH |- *. destruct IH as [Hsub Hlive].
  revert Hclose. unfold Trader.close_position. intros [= <- _]. cbn in Hsub, Hlive.
  split; [| exact Hlive].
  etransitivity; [exact Hsub |].
  destruct (paper_trading cfg && Position.mem _ _);
    [apply position_remove_is_sublist | reflexivity].
Qed.

Lemma close_positions_at_limit_positions cfg now draw tr :
  sublist
    (Position.token_id
       <$> Trader._paper_positions (fst (Trader.close_positions_at_limit cfg now draw tr)))
    (Position.token_id <$> Trader._paper_positions tr)
  /\ sublist
       (Position.id
          <$> Trader._paper_positions (fst (Trader.close_positions_at_limit cfg now draw tr)))
       (Position.id <$> Trader._paper_positions tr)
  /\ Trader._positions (fst (Trader.close_positions_at_limit cfg now draw tr))
     = Trader._positions tr.
Proof.
  unfold Trader.close_positions_at_limit, Trader.check_position_limits.
  pose proof (sweep_keeps_book cfg draw (Trader._paper_positions tr) 0 (Trader.db tr))
    as Hsweep.
  destruct (Trader.sweep cfg draw 0 (Trader._paper_positions tr) (Trader.db tr))
    as [[ps d] queued].
  cbn in Hsweep. destruct Hsweep as (Hsame & _).
  apply with_limits_same_keys in Hsame as [Htok Hid].
  destruct queued as [items |]; cbn.
  - match goal with
    | |- context [Trader.close_all cfg now ?t items] =>
        pose proof (close_all_positions cfg now items t) as Hclose;
        destruct (Trader.close_all cfg now t items) as [tr2 closed]
    end.
    cbn in Hclose |- *. destruct Hclose as [Hsub Hlive].
    rewrite <- Htok, <- Hid.
    split; [apply fmap_sublist; exact Hsub |].
    split; [apply fmap_sublist; exact Hsub | exact Hlive].
  - rewrite Htok, Hid. split; [reflexivity |]. split; reflexivity.
Qed.

Section Running.

Context {NewsEvent : Type}.
Implicit Types (bot : Bot.t NewsEvent) (ev : NewsEvent) (m : MarketMatch).
Implicit Types (steps : list (Bot.Step NewsEvent)).

(** When [process_opportunity] changes the open positions, it appends one,
    on the recommended token, which had none, and a slot was free. *)
Lemma process_opportunity_positions cfg now (ex : Executor.t NewsEvent) ev m ex' r :
  Executor.process_opportunity cfg now ex ev m = (ex', r) ->
  Trader.get_positions cfg (Executor.trader ex') = Trader.get_positions cfg (Executor.trader ex)
  \/ exists p,
       Trader.get_positions cfg (Executor.trader ex')
       = Trader.get_positions cfg (Executor.trader ex) ++ [p]
       /\ Position.token_id p = recommended_token m
       /\ Executor.holds_position (Trader.get_positions cfg (Executor.trader ex))
            (recommended_token m) = false
       /\ (Z.of_nat (length (Trader.get_positions cfg (Executor.trader ex)))
           < max_concurrent_positions cfg)%Z.
Proof.
  unfold Executor.process_opportunity.
  destruct (Executor.evaluate_opportunity cfg now ex ev m) as [d |] eqn:Heval;
    [| intros [= <- <-]; left; reflexivity].
  destruct (Executor.approved d) eqn:Happ; cbn [negb];
    [| intros [= <- <-]; left; reflexivity].
  destruct (evaluate_approved cfg now ex ev m d Heval Happ)
    as (Hheld & _ & _ & _ & _ & _ & Hslot & _ & _ & Hd).
  assert (Hm : Executor.match_ d = m) by (rewrite Hd; reflexivity). clear Hd.
  destruct (Executor.execute_trade cfg now ex d) as [[ex1 d1] ok] eqn:Hrun.
  intros [= <- <-].
  destruct ok.
  - destruct (execute_trade_true cfg now ex d ex1 d1 Hrun)
      as (tr' & order & Hplace & _ & _ & _ & Hex').
    rewrite Hm in Hplace.
    destruct (place_order_buy _ _ _ _ _ _ _ _ _ _ _ Hplace)
      as [[Hlive ->] | (Hpaper & _ & _ & _ & Hpos)].
    + left. rewrite Hex'. reflexivity.
    + right. rewrite Hex'. unfold Trader.get_positions in *. rewrite Hpaper in *. cbn.
      rewrite Hpos. eexists. split; [reflexivity |]. cbn. auto.
  - apply execute_trade_false in Hrun. subst ex1. left. reflexivity.
Qed.

Lemma handle_event_positions cfg now later bot ev matches :
  let before := Trader.get_positions cfg (Executor.trader (Bot.executor bot)) in
  let after :=
    Trader.get_positions cfg
      (Executor.trader (Bot.executor (Bot._handle_event cfg now later bot ev matches))) in
  after = before
  \/ exists p,
       after = before ++ [p]
       /\ (Position.token_id p ∉ Position.token_id <$> before)
       /\ (Z.of_nat (length before) < max_concurrent_positions cfg)%Z.
Proof.
  intros before after. subst before after. unfold Bot._handle_event.
  destruct (RiskManager.can_trade _ _ _ _) as [[rm [|]] |]; cbn; auto.
  destruct matches as [| best rest]; cbn; auto.
  destruct (auto_trade_enabled cfg); cbn; auto.
  destruct (Executor.process_opportunity cfg later (Bot.executor bot) ev best)
    as [ex r] eqn:Hproc.
  destruct (process_opportunity_positions cfg later _ ev best ex r Hproc)
    as [Hsame | (p & Hpos & Htok & Hheld & Hslot)].
  - destruct r; cbn; auto.
  - assert (Hfresh : Position.token_id p
                     ∉ (Position.token_id
                          <$> Trader.get_positions cfg (Executor.trader (Bot.executor bot)))).
    { rewrite Htok. apply holds_position_false. exact Hheld. }
    destruct r; cbn; right; eauto.
Qed.

Lemma monitor_pass_positions cfg now draw bot :
  sublist
    (Position.token_id
       <$> Trader.get_positions cfg
             (Executor.trader (Bot.executor (Bot._position_monitor_pass cfg now draw bot))))
    (Position.token_id <$> Trader.get_positions cfg (Executor.trader (Bot.executor bot))).
Proof.
  unfold Bot._position_monitor_pass, Trader.get_positions. cbn.
  destruct (close_positions_at_limit_positions cfg now draw
              (Executor.trader (Bot.executor bot))) as (Htok & _ & Hlive).
  destruct (paper_trading cfg); [exact Htok | rewrite Hlive; reflexivity].
Qed.

(** X28.  The book stays within its limits through any run of the bot.  Over
    any sequence of events (with whatever matches the matcher returns) and
    passes of the position monitor (with whatever quotes are drawn): if the
    number of open positions was at most [max_concurrent_positions] it still
    is, and if no two open positions were on the same token, none are. *)
Theorem bot_run_keeps_limits cfg bot steps :
  let positions b := Trader.get_positions cfg (Executor.trader (Bot.executor b)) in
  ((Z.of_nat (length (positions bot)) <= max_concurrent_positions cfg)%Z ->
   (Z.of_nat (length (positions (Bot.run cfg bot steps))) <= max_concurrent_positions cfg)%Z)
  /\ (NoDup (Position.token_id <$> positions bot) ->
      NoDup (Position.token_id <$> positions (Bot.run cfg bot steps))).
Proof.
  intros positions. unfold Bot.run. revert bot.
  induction steps as [| s rest IH]; intros bot; [cbn; auto |].
  cbn [foldl].
  assert (Hstep :
    ((Z.of_nat (length (positions bot)) <= max_concurrent_positions cfg)%Z ->
     (Z.of_nat (length (positions (Bot.step cfg bot s))) <= max_concurrent_positions cfg)%Z)
    /\ (NoDup (Position.token_id <$> positions bot) ->
        NoDup (Position.token_id <$> positions (Bot.step cfg bot s)))).
  { destruct s as [now later ev matches | now draw]; cbn [Bot.step].
    - destruct (handle_event_positions cfg now later bot ev matches)
        as [Hsame | (p & Hpos & Hfresh & Hslot)]; subst positions; cbn beta.
      + rewrite Hsame. auto.
      + rewrite Hpos. split.
        * intros _. rewrite length_app. cbn. lia.
        * intros Hnd. rewrite fmap_app. cbn. apply NoDup_app.
          split; [exact Hnd |]. split; [| apply NoDup_singleton].
          intros t Ht Hin. apply list_elem_of_singleton in Hin. subst t. exact (Hfresh Ht).
    - pose proof (monitor_pass_positions cfg now draw bot) as Hsub.
      subst positions. cbn beta. split.
      + intros Hlen. apply sublist_length in Hsub. rewrite !length_fmap in Hsub. lia.
      + intros Hnd. eapply sublist_NoDup; eassumption. }
  destruct Hstep as [Hlen Hnd]. destruct (IH (Bot.step cfg bot s)) as [IHlen IHnd].
  split; auto.
Qed.

(** An event that arrives during a pause is counted and otherwise ignored. *)
Lemma handle_event_paused cfg now later bot ev matches until :
  ~ starting_capital cfg == 0 ->
  RiskManager._trading_paused (Bot.risk_manager bot) = true ->
  RiskManager._pause_until (Bot.risk_manager bot) = Some until ->
  (now <= until)%Z ->
  Bot._handle_event cfg now later bot ev matches
  = {| Bot.executor := Bot.executor bot;
       Bot.risk_manager := Bot.risk_manager bot;
       Bot._events_processed := (Bot._events_processed bot + 1)%Z;
       Bot._trades_executed := Bot._trades_executed bot |}.
Proof.
  intros Hcap Hp Hu Hnow. unfold Bot._handle_event, RiskManager.can_trade.
  destruct (check_status_while_paused cfg now (Executor.trader (Bot.executor bot))
              (Bot.risk_manager bot) until Hcap Hp Hu Hnow) as (status & -> & Hallowed & _).
  cbn [mbind option_bind]. rewrite Hallowed. reflexivity.
Qed.

Lemma run_paused cfg until steps : forall bot,
  ~ starting_capital cfg == 0 ->
  RiskManager._trading_paused (Bot.risk_manager bot) = true ->
  RiskManager._pause_until (Bot.risk_manager bot) = Some until ->
  Forall (Bot.checked_by until) steps ->
  Bot.risk_manager (Bot.run cfg bot steps) = Bot.risk_manager bot
  /\ Bot._trades_executed (Bot.run cfg bot steps) = Bot._trades_executed bot
  /\ Executor._executed_trades (Bot.executor (Bot.run cfg bot steps))
     = Executor._executed_trades (Bot.executor bot)
  /\ Executor._stats (Bot.executor (Bot.run cfg bot steps))
     = Executor._stats (Bot.executor bot)
  /\ Executor._traded_markets (Bot.executor (Bot.run cfg bot steps))
     = Executor._traded_markets (Bot.executor bot)
  /\ sublist
       (Position.id
          <$> Trader._paper_positions (Executor.trader (Bot.executor (Bot.run cfg bot steps))))
       (Position.id <$> Trader._paper_positions (Executor.trader (Bot.executor bot)))
  /\ Trader._positions (Executor.trader (Bot.executor (Bot.run cfg bot steps)))
     = Trader._positions (Executor.trader (Bot.executor bot)).
Proof.
  unfold Bot.run.
  induction steps as [| s rest IH]; intros bot Hcap Hp Hu Hsteps.
  - cbn. repeat (split; [reflexivity |]). reflexivity.
  - apply Forall_cons in Hsteps as [Hs Hrest]. cbn [foldl].
    destruct s as [now later ev matches | now draw]; cbn [Bot.step Bot.checked_by] in *.
    + rewrite (handle_event_paused cfg now later bot ev matches until Hcap Hp Hu Hs).
      apply (IH {| Bot.executor := Bot.executor bot;
                   Bot.risk_manager := Bot.risk_manager bot;
                   Bot._events_processed := (Bot._events_processed bot + 1)%Z;
                   Bot._trades_executed := Bot._trades_executed bot |} Hcap Hp Hu Hrest).
    + destruct (IH (Bot._position_monitor_pass cfg now draw bot) Hcap Hp Hu Hrest)
        as (H1 & H2 & H3 & H4 & H5 & H6 & H7).
      destruct (close_positions_at_limit_positions cfg now draw
                  (Executor.trader (Bot.executor bot))) as (_ & Hid & Hlive).
      cbn in H1, H2, H3, H4, H5, H6, H7.
      repeat (split; [assumption |]).
      split; [etransitivity; eassumption | congruence].
Qed.

(** X29.  The daily loss limit halts the bot for four hours.  An event that
    arrives when the daily P&L is at or below minus [max_daily_loss_pct] of
    the balance (and no pause is running) is not traded and arms the pause.
    From then on, through any sequence of further events checked within four
    hours of it and of monitor passes in between, whatever the matches and
    the quotes: no trade is executed, the executed trades, the counters and
    the cooldown records stay as they are, the pause stays armed, and the
    open positions are among those that were open (the monitor may close
    some; none is opened). *)
Theorem daily_loss_halts_bot cfg now later bot ev matches steps :
  ~ starting_capital cfg == 0 ->
  RiskManager._trading_paused (Bot.risk_manager bot) = false
  \/ RiskManager.pause_expired now (Bot.risk_manager bot) = true ->
  Trader.get_daily_pnl (Executor.trader (Bot.executor bot))
    <= - (Trader.get_balance cfg (Executor.trader (Bot.executor bot))
          * max_daily_loss_pct cfg) ->
  Forall (Bot.checked_by (now + timedelta_hours 4)%Z) steps ->
  let halted := Bot._handle_event cfg now later bot ev matches in
  let final := Bot.run cfg halted steps in
  Bot.executor halted = Bot.executor bot
  /\ RiskManager._trading_paused (Bot.risk_manager halted) = true
  /\ RiskManager._pause_until (Bot.risk_manager halted) = Some (now + timedelta_hours 4)%Z
  /\ Bot.risk_manager final = Bot.risk_manager halted
  /\ Bot._trades_executed final = Bot._trades_executed bot
  /\ Executor._executed_trades (Bot.executor final)
     = Executor._executed_trades (Bot.executor bot)
  /\ Executor._stats (Bot.executor final) = Executor._stats (Bot.executor bot)
  /\ Executor._traded_markets (Bot.executor final)
     = Executor._traded_markets (Bot.executor bot)
  /\ sublist
       (Position.id <$> Trader._paper_positions (Executor.trader (Bot.executor final)))
       (Position.id <$> Trader._paper_positions (Executor.trader (Bot.executor bot)))
  /\ Trader._positions (Executor.trader (Bot.executor final))
     = Trader._positions (Executor.trader (Bot.executor bot)).
Proof.
  intros Hcap Hgate Hloss Hsteps halted final.
  assert (Hhalt :
    halted = {| Bot.executor := Bot.executor bot;
                Bot.risk_manager := {|
                  RiskManager._trading_paused := true;
                  RiskManager._pause_reason :=
                    DailyLossLimitHit
                      (Trader.get_daily_pnl (Executor.trader (Bot.executor bot)))
                      (Trader.get_balance cfg (Executor.trader (Bot.executor bot))
                       * max_daily_loss_pct cfg);
                  RiskManager._pause_until := Some (now + timedelta_hours 4)%Z |};
                Bot._events_processed := (Bot._events_processed bot + 1)%Z;
                Bot._trades_executed := Bot._trades_executed bot |}).
  { subst halted. unfold Bot._handle_event, RiskManager.can_trade.
    destruct (check_status_arms_pause cfg now (Executor.trader (Bot.executor bot))
                (Bot.risk_manager bot) Hcap Hgate Hloss) as (status & Hcheck & Hallowed & _).
    cbn zeta in Hcheck. rewrite Hcheck. cbn [mbind option_bind]. rewrite Hallowed.
    reflexivity. }
  destruct (run_paused cfg (now + timedelta_hours 4)%Z steps halted Hcap)
    as (H1 & H2 & H3 & H4 & H5 & H6 & H7);
    [rewrite Hhalt; reflexivity | rewrite Hhalt; reflexivity | exact Hsteps |].
  fold final in H1, H2, H3, H4, H5, H6, H7.
  rewrite Hhalt in H2, H3, H4, H5, H6, H7. cbn in H2, H3, H4, H5, H6, H7.
  split; [rewrite Hhalt; reflexivity |]. split; [rewrite Hhalt; reflexivity |].
  split; [rewrite Hhalt; reflexivity |]. auto 10.
Qed.

(** What an allowing risk check established. *)
Lemma check_status_allowed cfg now tr rm rm' status :
  RiskManager.check_status cfg now tr rm = Some (rm', status) ->
  RiskStatus.is_trading_allowed status = true ->
  - (Trader.get_balance cfg tr * max_daily_loss_pct cfg) < Trader.get_daily_pnl tr
  /\ (Z.of_nat (length (Trader.get_positions cfg tr)) < max_concurrent_positions cfg)%Z
  /\ RiskStatus.exposure_pct status <= 80
  /\ RiskManager._trading_paused rm' = false.
Proof.
  unfold RiskManager.check_status.
  destruct (fdiv _ _) as [ratio |]; cbn [mbind option_bind]; [| discriminate].
  set (exposure := if decide (0 < Trader.get_balance cfg tr) then _ else 0).
  cbn [RiskStatus.balance RiskStatus.open_positions RiskStatus.exposure_pct].
  destruct (RiskManager._trading_paused rm) eqn:Hp; cbn [andb];
    [destruct (RiskManager.pause_expired now rm) eqn:He; cbn [negb] | ].
  1, 3:
    destruct (decide (_ <= - _)) as [Hloss | Hloss];
      [| destruct (decide (_ <= _)%Z) as [Hmax | Hmax];
         [| destruct (decide (80 < exposure)) as [Hexp | Hexp]]].
  all: intros [= <- <-]; cbn -[Trader.get_positions Trader.get_balance Trader.get_daily_pnl];
    intros Hallow; try discriminate Hallow.
  all: split; [lra |].
  all: split; [lia |].
  all: split; [lra |].
  all: first [reflexivity | exact Hp].
Qed.

(** X30.  A trade the pipeline executes passed both gates.  When
    [_handle_event] counts a trade: exactly one trade was counted, for the
    first match, with auto-trading on; the risk check at the time of the
    event allowed trading (no pause in force, daily P&L above the loss limit,
    a free position slot, exposure at most 80%) and the executor's own checks
    held when the opportunity was processed (no open position on the token,
    token off cooldown, edge, confidence and liquidity at their minima, a
    positive price); the token is recorded as traded at that time and one
    decision was added to the executed trades. *)
Theorem handle_event_trade_sound cfg now later bot ev matches :
  Bot._trades_executed (Bot._handle_event cfg now later bot ev matches)
    <> Bot._trades_executed bot ->
  let bot' := Bot._handle_event cfg now later bot ev matches in
  let ex := Bot.executor bot in
  let tr := Executor.trader ex in
  exists best rest status,
    matches = best :: rest
    /\ auto_trade_enabled cfg = true
    /\ Bot._trades_executed bot' = (Bot._trades_executed bot + 1)%Z
    /\ RiskManager.check_status cfg now tr (Bot.risk_manager bot)
       = Some (Bot.risk_manager bot', status)
    /\ RiskStatus.is_trading_allowed status = true
    /\ RiskManager._trading_paused (Bot.risk_manager bot') = false
    /\ - (Trader.get_balance cfg tr * max_daily_loss_pct cfg) < Trader.get_daily_pnl tr
    /\ (Z.of_nat (length (Trader.get_positions cfg tr)) < max_concurrent_positions cfg)%Z
    /\ RiskStatus.exposure_pct status <= 80
    /\ Executor.holds_position (Trader.get_positions cfg tr) (recommended_token best) = false
    /\ Executor.on_cooldown later ex (recommended_token best) = None
    /\ min_edge_to_trade cfg <= edge best
    /\ 0.6 <= confidence best
    /\ 1000 <= liquidity best
    /\ 0 < match_price best
    /\ Executor._traded_markets (Bot.executor bot') !! recommended_token best = Some later
    /\ length (Executor._executed_trades (Bot.executor bot'))
       = S (length (Executor._executed_trades ex)).
Proof.
  intros Hcounted bot' ex tr. subst bot' ex tr. revert Hcounted.
  unfold Bot._handle_event, RiskManager.can_trade.
  destruct (RiskManager.check_status cfg now (Executor.trader (Bot.executor bot))
              (Bot.risk_manager bot)) as [[rm status] |] eqn:Hcheck;
    cbn [mbind option_bind]; [| cbn; congruence].
  destruct (RiskStatus.is_trading_allowed status) eqn:Hallowed; [| cbn; congruence].
  destruct matches as [| best rest]; [cbn; congruence |].
  destruct (auto_trade_enabled cfg) eqn:Hauto; [| cbn; congruence].
  destruct (Executor.process_opportunity cfg later (Bot.executor bot) ev best)
    as [ex1 [d |]] eqn:Hproc; [| cbn; congruence].
  destruct (Executor.executed d) eqn:Hexec; cbn; [intros _ | congruence].
  destruct (check_status_allowed cfg now _ _ rm status Hcheck Hallowed)
    as (Hloss & Hslot & Hexp & Hunpaused).
  revert Hproc. unfold Executor.process_opportunity.
  destruct (Executor.evaluate_opportunity cfg later (Bot.executor bot) ev best)
    as [d0 |] eqn:Heval; [| discriminate].
  destruct (Executor.approved d0) eqn:Happ; cbn [negb].
  - destruct (evaluate_approved cfg later (Bot.executor bot) ev best d0 Heval Happ)
      as (Hheld & Hcool & Hedge & Hconf & Hliq & _ & _ & _ & Hprice & Hd0).
    assert (Hm : Executor.match_ d0 = best) by (rewrite Hd0; reflexivity).
    destruct (Executor.execute_trade cfg later (Bot.executor bot) d0)
      as [[ex2 d2] ok] eqn:Hrun.
    intros [= -> ->].
    destruct ok.
    + destruct (execute_trade_true cfg later (Bot.executor bot) d0 ex1 d Hrun)
        as (tr' & order & _ & _ & _ & _ & Hex1).
      exists best, rest, status.
      repeat (split; [first [reflexivity | assumption] |]).
      rewrite Hex1. cbn. rewrite Hm. split; [apply lookup_insert_eq |].
      rewrite length_app. cbn. lia.
    + exfalso. revert Hrun. unfold Executor.execute_trade. rewrite Happ. cbn [negb].
      destruct (auto_trade_enabled cfg); cbn [negb].
      * destruct (Trader.place_order _ _ _ _ _ _ _ _ _ _) as [tr' [order |]];
          [discriminate |].
        intros [= _ <-]. rewrite Hd0 in Hexec. cbn in Hexec. discriminate Hexec.
      * intros [= _ <-]. rewrite Hd0 in Hexec. cbn in Hexec. discriminate Hexec.
  - intros [= _ <-].
    destruct (evaluate_not_executed cfg later (Bot.executor bot) ev best d0 Heval)
      as (Hnot & _). congruence.
Qed.

End Running.

(** A bot just started on a fresh trader with 10000 in cash. *)
Lemma daily_loss_halts_bot_witness :
  let bot : Bot.t unit := {|
    Bot.executor := Executor.init 0 (trader_with 10000 (-1500));
    Bot.risk_manager := RiskManager.init;
    Bot._events_processed := 0;
    Bot._trades_executed := 0 |} in
  let final :=
    Bot.run default_config (Bot._handle_event default_config 1000 1001 bot tt [sample_match])
      [Bot.EventStep 2000 2001 tt [sample_match];
       Bot.MonitorStep 3000 (fun _ => 0.08);
       Bot.EventStep 4000 4001 tt [sample_match]] in
  Bot._trades_executed final = 0%Z
  /\ Executor._executed_trades (Bot.executor final) = []
  /\ RiskManager._trading_paused (Bot.risk_manager final) = true.
Proof.
  intros bot final.
  destruct (daily_loss_halts_bot default_config 1000 1001 bot tt [sample_match]
              [Bot.EventStep 2000 2001 tt [sample_match];
               Bot.MonitorStep 3000 (fun _ => 0.08);
               Bot.EventStep 4000 4001 tt [sample_match]])
    as (_ & H2 & _ & H4 & H5 & H6 & _).
  - vm_compute. discriminate.
  - left. reflexivity.
  - cbn. lra.
  - repeat constructor; cbn; vm_compute; discriminate.
  - fold final in H4, H5, H6. split; [exact H5 |]. split; [exact H6 |].
    rewrite H4. exact H2.
Defined.

Lemma handle_event_trade_sound_witness :
  let bot : Bot.t unit := {|
    Bot.executor := sample_executor;
    Bot.risk_manager := RiskManager.init;
    Bot._events_processed := 0;
    Bot._trades_executed := 0 |} in
  let bot' := Bot._handle_event default_config 1000 1001 bot tt [sample_match] in
  Bot._trades_executed bot' = 1%Z
  /\ Executor._traded_markets (Bot.executor bot') !! "T" = Some 1001%Z
  /\ length (Executor._executed_trades (Bot.executor bot')) = 1%nat.
Proof.
  intros bot bot'.
  destruct (handle_event_trade_sound default_config 1000 1001 bot tt [sample_match])
    as (best & rest & status & Hm & _ & Hn & _ & _ & _ & _ & _ & _ & _ & _ & _ & _ & _ & _
        & Hrec & Hlen).
  - vm_compute. discriminate.
  - injection Hm as <- _. fold bot' in Hn, Hrec, Hlen.
    split; [exact Hn |]. split; [exact Hrec | exact Hlen].
Defined.
